(** * ftdi_stream.c: streaming reads from an FTDI chip in synchronous FIFO mode

    A shallow embedding of [src/ftdi_stream.c] (libftdi).  The C file has two
    functions of interest: the libusb completion handler
    [ftdi_stream_read_cb] and the driver [ftdi_stream_read].  Both talk to the
    outside world (libusb, the allocator, the clock, the consumer callback);
    the embedding threads an explicit [world] (session state, consumer state
    and the ordered log of external calls) and takes what the outside world
    answers as an explicit [environment].

    Integers are [Z] with the wrap-around of their C type written out;
    [double]s are binary64 primitive floats.  The first part holds the
    program and the vocabulary of the statements, the second part the
    lemmas and the theorems C1 to C10. *)

From Stdlib Require Import ZArith List Lia Bool Floats.
From Stdlib Require Strings.String.
From Stdlib Require Import Strings.Byte.
Import ListNotations String.StringSyntax.
Open Scope string_scope.
Open Scope Z_scope.

(** ** Machine integers *)

Module CInt.

Definition INT_MIN : Z := - 2 ^ 31.
Definition INT_MAX : Z := 2 ^ 31 - 1.

(** Two's complement reduction to a 32-bit [int]. *)
Definition to_int (z : Z) : Z := (z + 2 ^ 31) mod 2 ^ 32 - 2 ^ 31.

(** Reduction to [unsigned int]. *)
Definition to_uint (z : Z) : Z := z mod 2 ^ 32.

(** Reduction to [uint64_t]. *)
Definition to_uint64 (z : Z) : Z := z mod 2 ^ 64.

(** Reduction to a 64-bit signed integer ([time_t], [long] on LP64). *)
Definition to_int64 (z : Z) : Z := (z + 2 ^ 63) mod 2 ^ 64 - 2 ^ 63.

Definition int_add (a b : Z) : Z := to_int (a + b).
Definition int_sub (a b : Z) : Z := to_int (a - b).

(** [a / b] on [int]: truncating division; division by zero and
    [INT_MIN / -1] trap. *)
Definition int_div (a b : Z) : option Z :=
  if (b =? 0) || ((a =? INT_MIN) && (b =? -1)) then None
  else Some (Z.quot a b).

Definition in_int (z : Z) : Prop := INT_MIN <= z <= INT_MAX.

End CInt.
Import CInt.

(** ** Constants and types from libusb.h and ftdi.h *)

(** The members of [enum libusb_transfer_status] and [enum libusb_error]
    that the file names, with their values in libusb-1.0. *)
Definition LIBUSB_TRANSFER_COMPLETED : Z := 0.
Definition LIBUSB_TRANSFER_ERROR : Z := 1.
Definition LIBUSB_ERROR_IO : Z := -1.
Definition LIBUSB_ERROR_INTERRUPTED : Z := -10.
Definition LIBUSB_ERROR_NO_MEM : Z := -11.

(** Modelled from the spec: [enum ftdi_chip_type] is declared in ftdi.h,
    which is not among the sources.  The spec speaks of the device
    capability class that supports the synchronous FIFO mode; the driver
    names two members, [TYPE_2232H] and [TYPE_232H], and every other
    member is a [TYPE_OTHER]. *)
Inductive ftdi_chip_type :=
| TYPE_2232H
| TYPE_232H
| TYPE_OTHER (n : nat).

(** [a == b] on chip types. *)
Definition chip_eqb (a b : ftdi_chip_type) : bool :=
  match a, b with
  | TYPE_2232H, TYPE_2232H => true
  | TYPE_232H, TYPE_232H => true
  | TYPE_OTHER n, TYPE_OTHER m => Nat.eqb n m
  | _, _ => false
  end.

(** The two members of [enum ftdi_mpsse_mode] (ftdi.h) that the driver
    passes to [ftdi_set_bitmode]. *)
Inductive ftdi_mpsse_mode := BITMODE_RESET | BITMODE_SYNCFF.

(** Modelled from the spec: [struct ftdi_context] is declared in ftdi.h,
    which is not among the sources.  These are the fields the driver
    reads: the device capability class [type], the packet size
    [max_packet_size] (an [unsigned int]) and the configured read timeout
    in milliseconds [usb_read_timeout] (an [int]). *)
Record ftdi_context := {
  type : ftdi_chip_type;
  max_packet_size : Z;
  usb_read_timeout : Z
}.

(** ** Time and progress records *)

Record timespec := { tv_sec : Z; tv_nsec : Z }.

Record size_and_time := {
  total_bytes : Z;          (* uint64_t *)
  time : timespec
}.

Record ftdi_stream_progress := {
  first : size_and_time;
  prev : size_and_time;
  current : size_and_time;
  total_time : float;
  total_rate : float;
  current_rate : float
}.

Record FTDIStreamState := {
  packetsize : Z;
  activity : Z;
  result : Z;
  progress : ftdi_stream_progress
}.

Definition zero_time : timespec := {| tv_sec := 0; tv_nsec := 0 |}.
Definition zero_sample : size_and_time :=
  {| total_bytes := 0; time := zero_time |}.
Definition zero_progress : ftdi_stream_progress :=
  {| first := zero_sample; prev := zero_sample; current := zero_sample;
     total_time := 0%float; total_rate := 0%float; current_rate := 0%float |}.

(** Field updates. *)

Definition set_total_bytes (n : Z) (s : size_and_time) : size_and_time :=
  {| total_bytes := n; time := time s |}.
Definition set_time (t : timespec) (s : size_and_time) : size_and_time :=
  {| total_bytes := total_bytes s; time := t |}.

Definition set_first (x : size_and_time) (p : ftdi_stream_progress) :=
  {| first := x; prev := prev p; current := current p;
     total_time := total_time p; total_rate := total_rate p;
     current_rate := current_rate p |}.
Definition set_prev (x : size_and_time) (p : ftdi_stream_progress) :=
  {| first := first p; prev := x; current := current p;
     total_time := total_time p; total_rate := total_rate p;
     current_rate := current_rate p |}.
Definition set_current (x : size_and_time) (p : ftdi_stream_progress) :=
  {| first := first p; prev := prev p; current := x;
     total_time := total_time p; total_rate := total_rate p;
     current_rate := current_rate p |}.
Definition set_total_time (x : float) (p : ftdi_stream_progress) :=
  {| first := first p; prev := prev p; current := current p;
     total_time := x; total_rate := total_rate p;
     current_rate := current_rate p |}.
Definition set_rates (tr cr : float) (p : ftdi_stream_progress) :=
  {| first := first p; prev := prev p; current := current p;
     total_time := total_time p; total_rate := tr; current_rate := cr |}.

Definition set_activity (a : Z) (s : FTDIStreamState) :=
  {| packetsize := packetsize s; activity := a; result := result s;
     progress := progress s |}.
Definition set_result (r : Z) (s : FTDIStreamState) :=
  {| packetsize := packetsize s; activity := activity s; result := r;
     progress := progress s |}.
Definition set_progress (p : ftdi_stream_progress) (s : FTDIStreamState) :=
  {| packetsize := packetsize s; activity := activity s; result := result s;
     progress := p |}.

(** ** Doubles *)

(** Conversion of an integer to [double] (round to nearest even). *)
Definition Z2float (z : Z) : float :=
  SF2Prim (binary_normalize 53 1024 z 0 false).

(** The [double] nearest to the literal [1e-9]. *)
Definition nano : float := 0x1.12e0be826d695p-30%float.

(** [timespec_diff]: [(a->tv_sec - b->tv_sec) + 1e-9 * (a->tv_nsec - b->tv_nsec)]. *)
Definition timespec_diff (a b : timespec) : float :=
  PrimFloat.add (Z2float (to_int64 (tv_sec a - tv_sec b)))
                (PrimFloat.mul nano (Z2float (to_int64 (tv_nsec a - tv_nsec b)))).

(** ** Transfers and the log of external calls *)

(** A [struct libusb_transfer] as the completion handler sees it.
    [xfer_id] names the transfer object (its index in the driver's
    [transfers] array).  [resubmit_ret] is what [libusb_submit_transfer]
    answers if the handler resubmits this transfer. *)
Record libusb_transfer := {
  xfer_id : nat;
  status : Z;
  buffer : list byte;
  actual_length : Z;
  resubmit_ret : Z
}.

(** The arguments of one invocation of the consumer callback:
    [callback(ptr + 2, payloadLen, NULL, userdata)] where the pointer is
    [buf] plus [off], or [callback(NULL, 0, progress, userdata)]. *)
Inductive cb_arg :=
| CbData (buf : list byte) (off len : Z)
| CbProgress (p : ftdi_stream_progress).

(** Calls that leave the file, in program order.  [EvSubmit id st ret] is
    [libusb_submit_transfer] on transfer [id], whose [status] field the
    caller has just set to [st], answering [ret]; [EvHandleEvents] is
    logged when [libusb_handle_events_timeout] returns, after the handlers
    it ran. *)
Inductive event :=
| EvData (id : nat) (off len : Z)
| EvProgress (p : ftdi_stream_progress)
| EvStderr (msg : String.string)
| EvFreeBuffer (id : nat)
| EvFreeTransfer (id : nat)
| EvSubmit (t : nat) (st : Z) (ret : Z)
| EvSetBitmode (mask : Z) (mode : ftdi_mpsse_mode) (ret : Z)
| EvTcioflush (ret : Z)
| EvCalloc (n : Z) (ok : bool)
| EvAllocTransfer (id : nat) (ok : bool)
| EvMalloc (id : nat) (size : Z) (ok : bool)
| EvFreeArray
| EvHandleEvents (sec usec : Z) (ret : Z).

(** What the outside world answers during pool setup, per slot. *)
Record slot_env := {
  alloc_ok : bool;          (* libusb_alloc_transfer returned non-NULL *)
  malloc_ok : bool;         (* malloc(bufferSize) returned non-NULL *)
  submit_ret : Z            (* libusb_submit_transfer *)
}.

(** One call of [libusb_handle_events_timeout]: the transfers whose
    completion handler libusb runs inside the call, in order, and the
    value the call returns. *)
Record dispatch := {
  completions : list libusb_transfer;
  events_ret : Z
}.

(** One iteration of the driver loop: the first wait, the wait that
    restarts an interrupted one, and the clock read after them. *)
Record iteration := {
  first_wait : dispatch;
  retry_wait : dispatch;
  now : timespec
}.

Record environment := {
  reset_ret : Z;            (* ftdi_set_bitmode(ftdi, 0xff, BITMODE_RESET) *)
  flush_ret : Z;            (* ftdi_tcioflush(ftdi) *)
  calloc_ok : bool;         (* calloc(num_transfers, ...) returned non-NULL *)
  slots : nat -> slot_env;
  syncff_ret : Z;           (* ftdi_set_bitmode(ftdi, 0xff, BITMODE_SYNCFF) *)
  start_time : timespec;    (* timespec_get(&state.progress.first.time, ...) *)
  iterations : list iteration
}.

(** ** The program *)

Section Stream.

(** The consumer: its private state behind [userdata] and the callback,
    which returns an [int] and the updated private state. *)
Variable U : Type.
Variable callback : cb_arg -> U -> Z * U.

Record world := {
  st : FTDIStreamState;
  ud : U;
  log : list event
}.

Definition with_st (s : FTDIStreamState) (w : world) : world :=
  {| st := s; ud := ud w; log := log w |}.
Definition with_ud (u : U) (w : world) : world :=
  {| st := st w; ud := u; log := log w |}.
Definition emit (e : list event) (w : world) : world :=
  {| st := st w; ud := ud w; log := log w ++ e |}.

(** [state->progress.current.total_bytes += payloadLen] *)
Definition add_total_bytes (payloadLen : Z) (s : FTDIStreamState) :=
  let p := progress s in
  set_progress
    (set_current
       (set_total_bytes (to_uint64 (total_bytes (current p) + payloadLen))
                        (current p)) p) s.

(** The variables of the packet loop of [ftdi_stream_read_cb]:
    [ptr] (as an offset from [transfer->buffer]), [length], [res]. *)
Record pkt_state := {
  ps_ptr : Z;
  ps_length : Z;
  ps_res : Z;
  ps_w : world
}.

(** The body of [for (i = 0; i < numPackets; i++)]. *)
Definition packet_iter (t : libusb_transfer) (packet_size : Z)
    (s : pkt_state) : pkt_state :=
  let packetLen :=
    if ps_length s >? packet_size then packet_size else ps_length s in
  let payloadLen := int_sub packetLen 2 in
  let w1 := with_st (add_total_bytes payloadLen (st (ps_w s))) (ps_w s) in
  let '(res, u) :=
    callback (CbData (buffer t) (ps_ptr s + 2) payloadLen) (ud w1) in
  {| ps_ptr := ps_ptr s + packetLen;
     ps_length := int_sub (ps_length s) packetLen;
     ps_res := res;
     ps_w := emit [EvData (xfer_id t) (ps_ptr s + 2) payloadLen]
                  (with_ud u w1) |}.

(** [n] iterations of the loop; the handler runs it [numPackets] times,
    not at all when [numPackets] is not positive.  The loop has no
    [break]: it goes through every packet whatever the consumer returns,
    and [res] is what the last call returned. *)
Fixpoint packet_loop (n : nat) (t : libusb_transfer) (packet_size : Z)
    (s : pkt_state) : pkt_state :=
  match n with
  | O => s
  | S n' => packet_loop n' t packet_size (packet_iter t packet_size s)
  end.

(** [ftdi_stream_read_cb].  [None] is the trap of the division that
    computes [numPackets]. *)
Definition ftdi_stream_read_cb (transfer : libusb_transfer) (w : world)
    : option world :=
  let packet_size := packetsize (st w) in
  let w := with_st (set_activity (int_add (activity (st w)) 1) (st w)) w in
  if status transfer =? LIBUSB_TRANSFER_COMPLETED then
    let length := actual_length transfer in
    match int_div (int_sub (int_add length packet_size) 1) packet_size with
    | None => None
    | Some numPackets =>
        let s := packet_loop (Z.to_nat numPackets) transfer packet_size
                   {| ps_ptr := 0; ps_length := length; ps_res := 0;
                      ps_w := w |} in
        let w := ps_w s in
        if negb (ps_res s =? 0) then
          Some (emit [EvFreeBuffer (xfer_id transfer);
                      EvFreeTransfer (xfer_id transfer)] w)
        else
          Some (with_st (set_result (resubmit_ret transfer) (st w))
                  (emit [EvSubmit (xfer_id transfer) (-1)
                                  (resubmit_ret transfer)] w))
    end
  else
    Some (with_st (set_result LIBUSB_ERROR_IO (st w))
            (emit [EvStderr "unknown status %d\n"] w)).

(** [libusb_handle_events_timeout]: libusb runs the handler of every
    transfer that completed, then returns. *)
Fixpoint run_completions (cs : list libusb_transfer) (w : world)
    : option world :=
  match cs with
  | [] => Some w
  | c :: cs' =>
      match ftdi_stream_read_cb c w with
      | None => None
      | Some w' => run_completions cs' w'
      end
  end.

Definition handle_events_timeout (ftdi : ftdi_context) (d : dispatch)
    (w : world) : option world :=
  match run_completions (completions d) w with
  | None => None
  | Some w' =>
      Some (emit [EvHandleEvents
                    (Z.quot (usb_read_timeout ftdi) 1000)
                    (to_int (Z.rem (usb_read_timeout ftdi) 1000 * 1000))
                    (events_ret d)] w')
  end.

(** The wait of one loop iteration, with the restart of an interrupted
    wait; yields [xfer_err]. *)
Definition wait_events (ftdi : ftdi_context) (it : iteration) (w : world)
    : option (Z * world) :=
  match handle_events_timeout ftdi (first_wait it) w with
  | None => None
  | Some w1 =>
      if events_ret (first_wait it) =? LIBUSB_ERROR_INTERRUPTED then
        match handle_events_timeout ftdi (retry_wait it) w1 with
        | None => None
        | Some w2 => Some (events_ret (retry_wait it), w2)
        end
      else Some (events_ret (first_wait it), w1)
  end.

(** [if (!state.result) state.result = xfer_err;] *)
Definition adopt_error (xfer_err : Z) (s : FTDIStreamState) :=
  if result s =? 0 then set_result xfer_err s else s.

(** [if (state.activity == 0) state.result = 1; else state.activity = 0;] *)
Definition stall_check (s : FTDIStreamState) :=
  if activity s =? 0 then set_result 1 s else set_activity 0 s.

Definition progressInterval : float := 1%float.

(** [timespec_diff(&now, &progress->current.time) >= progressInterval] *)
Definition report_due (now : timespec) (p : ftdi_stream_progress) : bool :=
  PrimFloat.leb progressInterval (timespec_diff now (time (current p))).

(** The progress record handed to the callback on a report. *)
Definition progress_view (now : timespec) (p : ftdi_stream_progress)
    : ftdi_stream_progress :=
  let p1 := set_current (set_time now (current p)) p in
  let p2 :=
    set_total_time (timespec_diff (time (current p1)) (time (first p1))) p1 in
  if negb (total_bytes (prev p2) =? 0) then
    let currentTime := timespec_diff (time (current p2)) (time (prev p2)) in
    set_rates
      (PrimFloat.div (Z2float (total_bytes (current p2))) (total_time p2))
      (PrimFloat.div
         (Z2float (to_uint64 (total_bytes (current p2)
                              - total_bytes (prev p2))))
         currentTime)
      p2
  else p2.

(** The "If enough time has elapsed, update the progress" block. *)
Definition progress_step (now : timespec) (w : world) : world :=
  let p := progress (st w) in
  if report_due now p then
    let v := progress_view now p in
    let '(_, u) := callback (CbProgress v) (ud w) in
    with_st (set_progress (set_prev (current v) v) (st w))
      (emit [EvProgress v] (with_ud u w))
  else w.

(** The body of the [do ... while] loop. *)
Definition loop_body (ftdi : ftdi_context) (it : iteration) (w : world)
    : option world :=
  match wait_events ftdi it w with
  | None => None
  | Some (xfer_err, w1) =>
      let w2 := with_st (adopt_error xfer_err (st w1)) w1 in
      let w3 := with_st (stall_check (st w2)) w2 in
      Some (progress_step (now it) w3)
  end.

(** How a computation that waits on the outside world ends: it finishes,
    it is still inside the loop when the recorded behaviour of the outside
    world ends, or it traps. *)
Inductive outcome (A : Type) :=
| Done (a : A)
| Pending (w : world)
| Trapped.
Arguments Done {A} a.
Arguments Pending {A} w.
Arguments Trapped {A}.

(** [do { ... } while (!state.result);] over the recorded iterations. *)
Fixpoint stream_loop (ftdi : ftdi_context) (its : list iteration)
    (w : world) : outcome world :=
  match its with
  | [] => Pending w
  | it :: rest =>
      match loop_body ftdi it w with
      | None => Trapped
      | Some w' =>
          if negb (result (st w') =? 0) then Done w'
          else stream_loop ftdi rest w'
      end
  end.

(** The [for (xferIndex = 0; xferIndex < num_transfers; xferIndex++)]
    loop of the setup, [n] iterations from [xferIndex] on.  Yields [err],
    whether the loop left through [goto cleanup], and the log. *)
Fixpoint setup_loop (n : nat) (xferIndex : nat) (bufferSize : Z)
    (sl : nat -> slot_env) (err : Z) (l : list event)
    : Z * bool * list event :=
  match n with
  | O => (err, false, l)
  | S n' =>
      let s := sl xferIndex in
      let l1 := l ++ [EvAllocTransfer xferIndex (alloc_ok s)] in
      if negb (alloc_ok s) then (LIBUSB_ERROR_NO_MEM, true, l1)
      else
        let l2 := l1 ++ [EvMalloc xferIndex bufferSize (malloc_ok s)] in
        if negb (malloc_ok s) then (LIBUSB_ERROR_NO_MEM, true, l2)
        else
          let err := submit_ret s in
          let l3 := l2 ++ [EvSubmit xferIndex (-1) err] in
          if negb (err =? 0) then (err, true, l3)
          else setup_loop n' (S xferIndex) bufferSize sl err l3
  end.

(** The code after the [cleanup:] label; [transfers] tells whether the
    array pointer is non-NULL. *)
Definition cleanup (transfers : bool) (err : Z) (w : world) : Z * world :=
  let w1 := emit [EvStderr "cleanup\n"] w in
  let w2 := if transfers then emit [EvFreeArray] w1 else w1 in
  if negb (err =? 0) then (err, w2) else (result (st w2), w2).

(** [FTDIStreamState state = { callback, userdata, ftdi->max_packet_size, 1 }] *)
Definition initial_state (ftdi : ftdi_context) : FTDIStreamState :=
  {| packetsize := to_int (max_packet_size ftdi); activity := 1;
     result := 0; progress := zero_progress |}.

(** [ftdi_stream_read]. *)
Definition ftdi_stream_read (ftdi : ftdi_context) (userdata : U)
    (packets_per_transfer num_transfers : Z) (env : environment)
    : outcome (Z * world) :=
  let w := {| st := initial_state ftdi; ud := userdata; log := [] |} in
  let bufferSize :=
    to_int (to_uint packets_per_transfer * max_packet_size ftdi) in
  if negb (chip_eqb (type ftdi) TYPE_2232H)
     && negb (chip_eqb (type ftdi) TYPE_232H) then
    Done (1, emit [EvStderr "Device doesn't support synchronous FIFO mode\n"] w)
  else
  let w := emit [EvSetBitmode 255 BITMODE_RESET (reset_ret env)] w in
  if reset_ret env <? 0 then
    Done (1, emit [EvStderr "Can't reset mode\n"] w)
  else
  let w := emit [EvTcioflush (flush_ret env)] w in
  if flush_ret env <? 0 then
    Done (1, emit [EvStderr "Can't flush FIFOs & buffers\n"] w)
  else
  let w := emit [EvCalloc num_transfers (calloc_ok env)] w in
  if negb (calloc_ok env) then Done (cleanup false LIBUSB_ERROR_NO_MEM w)
  else
  match setup_loop (Z.to_nat num_transfers) 0 bufferSize (slots env) 0 (log w)
  with
  | (err, true, l) => Done (cleanup true err {| st := st w; ud := ud w; log := l |})
  | (err, false, l) =>
      let w := {| st := st w; ud := ud w; log := l |} in
      let w := emit [EvSetBitmode 255 BITMODE_SYNCFF (syncff_ret env)] w in
      if syncff_ret env <? 0 then
        Done (cleanup true err
                (emit [EvStderr "Can't set synchronous fifo mode: %s\n"] w))
      else
        let p := progress (st w) in
        let w :=
          with_st (set_progress
                     (set_first (set_time (start_time env) (first p)) p)
                     (st w)) w in
        match stream_loop ftdi (iterations env) w with
        | Done w' => Done (cleanup true err w')
        | Pending w' => Pending w'
        | Trapped => Trapped
        end
  end.

End Stream.

Arguments st {U} w.
Arguments ud {U} w.
Arguments log {U} w.
Arguments Build_world {U} st ud log.
Arguments with_st {U} s w.
Arguments with_ud {U} u w.
Arguments emit {U} e w.
Arguments ps_ptr {U} p.
Arguments ps_length {U} p.
Arguments ps_res {U} p.
Arguments ps_w {U} p.
Arguments Build_pkt_state {U} ps_ptr ps_length ps_res ps_w.
Arguments Done {U A} a.
Arguments Pending {U A} w.
Arguments Trapped {U A}.
Arguments packet_iter {U} callback t packet_size s.
Arguments packet_loop {U} callback n t packet_size s.
Arguments ftdi_stream_read_cb {U} callback transfer w.
Arguments run_completions {U} callback cs w.
Arguments handle_events_timeout {U} callback ftdi d w.
Arguments wait_events {U} callback ftdi it w.
Arguments progress_step {U} callback now w.
Arguments loop_body {U} callback ftdi it w.
Arguments stream_loop {U} callback ftdi its w.
Arguments cleanup {U} transfers err w.
Arguments ftdi_stream_read {U} callback ftdi userdata packets_per_transfer
  num_transfers env.

(** The accessors of the progress record. *)
Definition ftdi_stream_total_bytes (progress : ftdi_stream_progress) : Z :=
  total_bytes (current progress).
Definition ftdi_stream_total_time (progress : ftdi_stream_progress) : float :=
  total_time progress.
Definition ftdi_stream_total_rate (progress : ftdi_stream_progress) : float :=
  total_rate progress.
Definition ftdi_stream_current_rate (progress : ftdi_stream_progress)
    : float :=
  current_rate progress.

(** ** Observations on logs and buffers *)

(** The (offset, length) pairs of the data deliveries recorded in a log. *)
Fixpoint data_calls (l : list event) : list (Z * Z) :=
  match l with
  | [] => []
  | EvData _ off len :: l' => (off, len) :: data_calls l'
  | _ :: l' => data_calls l'
  end.

Definition sum_Z (l : list Z) : Z := fold_right Z.add 0 l.

(** Size of packet [i] of a buffer of [L] bytes cut into packets of [P]
    bytes: [min(remaining, P)]. *)
Definition packet_len (L P : Z) (i : nat) : Z :=
  Z.min (L - Z.of_nat i * P) P.

(** The bytes of [buf] from offset [off], [len] of them. *)
Definition slice (buf : list byte) (off len : Z) : list byte :=
  firstn (Z.to_nat len) (skipn (Z.to_nat off) buf).

(** Packet [i] of the received bytes. *)
Definition packet (buf : list byte) (L P : Z) (i : nat) : list byte :=
  slice buf (Z.of_nat i * P) (packet_len L P i).

(** The data deliveries of a transfer cut into [n] packets. *)
Definition deliveries (L P : Z) (n : nat) : list (Z * Z) :=
  map (fun i => (Z.of_nat i * P + 2, packet_len L P i - 2)) (seq 0 n).

(** The consumer called on the regions [calls] (offset, length) of the
    buffer [buf], one call after the other, the first one on the private
    state [u]: its private state after the last call. *)
Fixpoint consumer_after {U : Type} (callback : cb_arg -> U -> Z * U)
    (buf : list byte) (calls : list (Z * Z)) (u : U) : U :=
  match calls with
  | [] => u
  | (off, len) :: rest =>
      consumer_after callback buf rest (snd (callback (CbData buf off len) u))
  end.

(** The values the consumer returns on these calls, in order. *)
Fixpoint answers {U : Type} (callback : cb_arg -> U -> Z * U)
    (buf : list byte) (calls : list (Z * Z)) (u : U) : list Z :=
  match calls with
  | [] => []
  | (off, len) :: rest =>
      fst (callback (CbData buf off len) u)
      :: answers callback buf rest (snd (callback (CbData buf off len) u))
  end.

(** The pool actions (resubmission, release) recorded in a log. *)
Definition is_submit (e : event) : bool :=
  match e with EvSubmit _ _ _ => true | _ => false end.
Definition is_free_buffer (e : event) : bool :=
  match e with EvFreeBuffer _ => true | _ => false end.
Definition is_free_transfer (e : event) : bool :=
  match e with EvFreeTransfer _ => true | _ => false end.

(** The progress records handed to the consumer, in order. *)
Fixpoint progress_views (l : list event) : list ftdi_stream_progress :=
  match l with
  | [] => []
  | EvProgress p :: l' => p :: progress_views l'
  | _ :: l' => progress_views l'
  end.

Definition bytes_so_far {U : Type} (w : world U) : Z :=
  total_bytes (current (progress (st w))).

(** ** What a step keeps and how the handler ends *)

(** [p'] differs from [p] at most in [current.total_bytes]. *)
Definition frozen (p p' : ftdi_stream_progress) : Prop :=
  first p' = first p /\ prev p' = prev p
  /\ time (current p') = time (current p)
  /\ total_time p' = total_time p
  /\ total_rate p' = total_rate p /\ current_rate p' = current_rate p.

(** The events of a log that act on the pool: resubmissions and releases. *)
Definition pool_actions (l : list event) : list event :=
  filter (fun e => is_submit e || is_free_buffer e || is_free_transfer e) l.

(** What the state of the session keeps across a piece of the handler,
    and what the piece adds to the log: data deliveries only. *)
Definition data_only {U : Type} (w w' : world U) : Prop :=
  packetsize (st w') = packetsize (st w)
  /\ activity (st w') = activity (st w)
  /\ result (st w') = result (st w)
  /\ frozen (progress (st w)) (progress (st w'))
  /\ exists ds, log w' = log w ++ ds
                /\ pool_actions ds = [] /\ progress_views ds = [].

(** The three ways the handler ends, with what each adds to the log after
    the data deliveries and what becomes of [state->result]. *)
Inductive handler_end {U : Type} (t : libusb_transfer) (w w' : world U)
    : Prop :=
| End_resubmit (m : world U) :
    status t = LIBUSB_TRANSFER_COMPLETED ->
    data_only (with_st (set_activity (int_add (activity (st w)) 1) (st w)) w) m ->
    w' = with_st (set_result (resubmit_ret t) (st m))
           (emit [EvSubmit (xfer_id t) (-1) (resubmit_ret t)] m) ->
    handler_end t w w'
| End_release (m : world U) :
    status t = LIBUSB_TRANSFER_COMPLETED ->
    data_only (with_st (set_activity (int_add (activity (st w)) 1) (st w)) w) m ->
    w' = emit [EvFreeBuffer (xfer_id t); EvFreeTransfer (xfer_id t)] m ->
    handler_end t w w'
| End_failed :
    status t <> LIBUSB_TRANSFER_COMPLETED ->
    w' = with_st (set_result LIBUSB_ERROR_IO
                    (set_activity (int_add (activity (st w)) 1) (st w)))
           (emit [EvStderr "unknown status %d\n"] w) ->
    handler_end t w w'.

(** ** Outcomes, setup and the driver loop *)

(** The return value of a call that returned. *)
Definition returned {U : Type} (o : outcome U (Z * world U)) : option Z :=
  match o with
  | Done (r, _) => Some r
  | _ => None
  end.

Definition final_log {U : Type} (o : outcome U (Z * world U)) : list event :=
  match o with
  | Done (_, w) => log w
  | Pending w => log w
  | Trapped => []
  end.

(** Slots [0 .. n-1] are allocated and submitted without failure. *)
Definition slots_fine (sl : nat -> slot_env) (n : nat) : Prop :=
  forall i, (i < n)%nat ->
    alloc_ok (sl i) = true /\ malloc_ok (sl i) = true /\ submit_ret (sl i) = 0.

(** The log of the setup of slot [i] when nothing fails. *)
Definition slot_setup_log (bufferSize : Z) (i : nat) : list event :=
  [EvAllocTransfer i true; EvMalloc i bufferSize true; EvSubmit i (-1) 0].

Definition supported (ftdi : ftdi_context) : Prop :=
  type ftdi = TYPE_2232H \/ type ftdi = TYPE_232H.

(** The device is supported and every call up to and including the
    submission of the last transfer succeeds. *)
Definition pool_primed (ftdi : ftdi_context) (num_transfers : Z)
    (env : environment) : Prop :=
  supported ftdi /\ 0 <= reset_ret env /\ 0 <= flush_ret env
  /\ calloc_ok env = true
  /\ slots_fine (slots env) (Z.to_nat num_transfers).

(** [xfer_err] of an iteration. *)
Definition xfer_err_of (it : iteration) : Z :=
  if events_ret (first_wait it) =? LIBUSB_ERROR_INTERRUPTED
  then events_ret (retry_wait it) else events_ret (first_wait it).

(** No transfer completes during the iteration. *)
Definition quiet (it : iteration) : Prop :=
  completions (first_wait it) = [] /\ completions (retry_wait it) = [].

(** The world in which the loop is entered after a setup without failure. *)
Definition loop_entry {U : Type} (ftdi : ftdi_context) (userdata : U)
    (packets_per_transfer num_transfers : Z) (env : environment) : world U :=
  {| st := set_progress
             (set_first (set_time (start_time env) zero_sample) zero_progress)
             (initial_state ftdi);
     ud := userdata;
     log :=
       ([EvSetBitmode 255 BITMODE_RESET (reset_ret env);
         EvTcioflush (flush_ret env); EvCalloc num_transfers true]
        ++ flat_map
             (slot_setup_log
                (to_int (to_uint packets_per_transfer * max_packet_size ftdi)))
             (seq 0 (Z.to_nat num_transfers)))
       ++ [EvSetBitmode 255 BITMODE_SYNCFF (syncff_ret env)] |}.

(** The releases recorded in a log. *)
Definition releases (l : list event) : list event :=
  filter (fun e => is_free_buffer e || is_free_transfer e) l.

(** ** Sessions without I/O failure *)

(** A completion that is not an I/O failure: success status, and the
    resubmission, if any, is accepted. *)
Definition transfer_fine (c : libusb_transfer) : Prop :=
  status c = LIBUSB_TRANSFER_COMPLETED /\ resubmit_ret c = 0.

(** An iteration without I/O failure: the wait reports no error and every
    completion is fine. *)
Definition iteration_fine (it : iteration) : Prop :=
  xfer_err_of it = 0
  /\ Forall transfer_fine (completions (first_wait it))
  /\ Forall transfer_fine (completions (retry_wait it)).

Definition error_free (env : environment) : Prop :=
  Forall iteration_fine (iterations env).

(** ** Periodic reports *)

(** How the record [v] handed to the consumer on a report relates to
    [last], the record of the report before (the all-zero record for the
    first report): [prev] is the [current] sample of [last]; the rates are
    those of [last], untouched, when that sample counts 0 bytes, and are
    computed from [v] otherwise. *)
Definition report_follows (last v : ftdi_stream_progress) : Prop :=
  prev v = current last
  /\ total_time v = timespec_diff (time (current v)) (time (first v))
  /\ if total_bytes (current last) =? 0
     then total_rate v = total_rate last
          /\ current_rate v = current_rate last
     else total_rate v =
            PrimFloat.div (Z2float (total_bytes (current v))) (total_time v)
          /\ current_rate v =
               PrimFloat.div
                 (Z2float (to_uint64 (total_bytes (current v)
                                      - total_bytes (prev v))))
                 (timespec_diff (time (current v)) (time (prev v))).

Fixpoint reports_chain (last : ftdi_stream_progress)
    (vs : list ftdi_stream_progress) : Prop :=
  match vs with
  | [] => True
  | v :: vs' => report_follows last v /\ reports_chain v vs'
  end.

Fixpoint last_view (last : ftdi_stream_progress)
    (vs : list ftdi_stream_progress) : ftdi_stream_progress :=
  match vs with
  | [] => last
  | v :: vs' => last_view v vs'
  end.

(** The session state agrees with the reports made so far. *)
Definition reports_inv {U : Type} (w : world U) : Prop :=
  let vs := progress_views (log w) in
  let p := progress (st w) in
  reports_chain zero_progress vs
  /\ prev p = current (last_view zero_progress vs)
  /\ total_rate p = total_rate (last_view zero_progress vs)
  /\ current_rate p = current_rate (last_view zero_progress vs).

(** A step that makes no report and leaves [prev] and the rates alone. *)
Definition keeps_reports {U : Type} (w w' : world U) : Prop :=
  prev (progress (st w')) = prev (progress (st w))
  /\ total_rate (progress (st w')) = total_rate (progress (st w))
  /\ current_rate (progress (st w')) = current_rate (progress (st w))
  /\ progress_views (log w') = progress_views (log w).

(** ** Concrete sessions *)

(** An FT232H with 512-byte packets and a 5 s read timeout. *)
Definition ft232h : ftdi_context :=
  {| type := TYPE_232H; max_packet_size := 512; usb_read_timeout := 5000 |}.

(** A consumer that counts its invocations and never asks to stop. *)
Definition keep_going (a : cb_arg) (u : nat) : Z * nat := (0, S u).

Definition session_start : world nat :=
  {| st := initial_state ft232h; ud := 0%nat; log := [] |}.

(** A consumer that keeps the offset and the length of every region it
    is handed, in order, and never asks to stop. *)
Definition recorder (a : cb_arg) (u : list (Z * Z)) : Z * list (Z * Z) :=
  match a with
  | CbData _ off len => (0, u ++ [(off, len)])
  | CbProgress _ => (0, u)
  end.

Definition recording_start : world (list (Z * Z)) :=
  {| st := initial_state ft232h; ud := []; log := [] |}.

(** Transfer [id] completed with [L] bytes received; a resubmission would
    succeed. *)
Definition completed (id : nat) (L : Z) : libusb_transfer :=
  {| xfer_id := id; status := LIBUSB_TRANSFER_COMPLETED;
     buffer := repeat x00 (Z.to_nat L); actual_length := L;
     resubmit_ret := 0 |}.

(** Transfer [id] failed with [LIBUSB_TRANSFER_ERROR]. *)
Definition failed (id : nat) : libusb_transfer :=
  {| xfer_id := id; status := LIBUSB_TRANSFER_ERROR;
     buffer := repeat x00 512; actual_length := 0; resubmit_ret := 0 |}.

Definition no_events : dispatch := {| completions := []; events_ret := 0 |}.

(** A loop iteration whose wait runs the handlers of [cs] and returns 0,
    with the clock at [sec] seconds afterwards. *)
Definition iteration_at (cs : list libusb_transfer) (sec : Z) : iteration :=
  {| first_wait := {| completions := cs; events_ret := 0 |};
     retry_wait := no_events;
     now := {| tv_sec := sec; tv_nsec := 0 |} |}.

Definition slot_fine : slot_env :=
  {| alloc_ok := true; malloc_ok := true; submit_ret := 0 |}.

(** A world in which every setup call succeeds and the loop then sees
    [its]; the session starts at second 1700000000. *)
Definition smooth (its : list iteration) : environment :=
  {| reset_ret := 0; flush_ret := 0; calloc_ok := true;
     slots := fun _ => slot_fine; syncff_ret := 0;
     start_time := {| tv_sec := 1700000000; tv_nsec := 0 |};
     iterations := its |}.

(** Every setup call succeeds except the switch to [BITMODE_SYNCFF]. *)
Definition syncff_fails : environment :=
  {| reset_ret := 0; flush_ret := 0; calloc_ok := true;
     slots := fun _ => slot_fine; syncff_ret := -1;
     start_time := {| tv_sec := 1700000000; tv_nsec := 0 |};
     iterations := [] |}.

(** The third buffer cannot be allocated. *)
Definition third_buffer_fails : environment :=
  {| reset_ret := 0; flush_ret := 0; calloc_ok := true;
     slots := fun i =>
       if Nat.eqb i 2
       then {| alloc_ok := true; malloc_ok := false; submit_ret := 0 |}
       else slot_fine;
     syncff_ret := 0;
     start_time := {| tv_sec := 1700000000; tv_nsec := 0 |};
     iterations := [] |}.

(** A consumer that asks to stop from its [k]-th data delivery on
    (counting from 0); its state counts the deliveries. *)
Definition stop_after (k : nat) (a : cb_arg) (u : nat) : Z * nat :=
  match a with
  | CbData _ _ _ => (if Nat.leb k u then 1 else 0, S u)
  | CbProgress _ => (0, u)
  end.

(** Four transfers of eight packets; each of 25 waits completes all
    four, the next wait completes transfer 0, the last one nothing. *)
Definition hundred_then_stop : environment :=
  smooth
    (repeat
       (iteration_at [completed 0 4096; completed 1 4096;
                      completed 2 4096; completed 3 4096] 1700000000) 25
     ++ [iteration_at [completed 0 4096] 1700000000;
         iteration_at [] 1700000000]).

(** ** Further observations on logs and states *)

Definition is_data (e : event) : bool :=
  match e with EvData _ _ _ => true | _ => false end.
Definition is_stderr (e : event) : bool :=
  match e with EvStderr _ => true | _ => false end.
Definition is_free_array (e : event) : bool :=
  match e with EvFreeArray => true | _ => false end.
Definition is_handle_events (e : event) : bool :=
  match e with EvHandleEvents _ _ _ => true | _ => false end.
Definition is_report (e : event) : bool :=
  match e with EvProgress _ => true | _ => false end.
Definition is_syncff (e : event) : bool :=
  match e with EvSetBitmode _ BITMODE_SYNCFF _ => true | _ => false end.

(** The kinds of calls the completion handler makes. *)
Definition handler_event (e : event) : bool :=
  is_data e || is_submit e || is_free_buffer e || is_free_transfer e
  || is_stderr e.

(** The kinds of calls made inside the driver loop. *)
Definition loop_event (e : event) : bool :=
  handler_event e || is_handle_events e || is_report e.

(** The range of a [uint64_t]. *)
Definition in_uint64 (z : Z) : Prop := 0 <= z < 2 ^ 64.

(** The payload lengths handed to the consumer, added up. *)
Definition payload_sum (l : list event) : Z :=
  sum_Z (map snd (data_calls l)).

(** Walking a log with the running sum of the payload lengths: every
    progress record handed to the consumer counts what was delivered
    before it. *)
Fixpoint accounted (sum : Z) (l : list event) : Prop :=
  match l with
  | [] => True
  | EvData _ _ len :: l' => accounted (sum + len) l'
  | EvProgress v :: l' =>
      total_bytes (current v) = to_uint64 sum /\ accounted sum l'
  | _ :: l' => accounted sum l'
  end.

(** The two calls that release transfer [id]. *)
Definition release_of (id : nat) : list event :=
  [EvFreeBuffer id; EvFreeTransfer id].

(** The world in which a call ended or was left. *)
Definition final_world {U : Type} (o : outcome U (Z * world U))
    : option (world U) :=
  match o with
  | Done (_, w) => Some w
  | Pending w => Some w
  | Trapped => None
  end.

(** The loop variables with which the handler enters the packet loop. *)
Definition loop_start {U : Type} (t : libusb_transfer) (w : world U)
    : pkt_state U :=
  {| ps_ptr := 0; ps_length := actual_length t; ps_res := 0;
     ps_w := with_st (set_activity (int_add (activity (st w)) 1) (st w)) w |}.

(** The events of the data deliveries of transfer [id] cut into [n]
    packets. *)
Definition delivery_events (id : nat) (L P : Z) (n : nat) : list event :=
  map (fun i => EvData id (Z.of_nat i * P + 2) (packet_len L P i - 2))
      (seq 0 n).

(** A consumer that asks to stop on its first invocation only. *)
Definition early_stop (a : cb_arg) (u : nat) : Z * nat :=
  (if Nat.eqb u 0 then 1 else 0, S u).

(** The log of the calls made before the pool is set up. *)
Definition checks_log (num_transfers : Z) (env : environment) : list event :=
  [EvSetBitmode 255 BITMODE_RESET (reset_ret env);
   EvTcioflush (flush_ret env); EvCalloc num_transfers (calloc_ok env)].

(** [bufferSize] of the driver. *)
Definition buffer_size (ftdi : ftdi_context) (packets_per_transfer : Z) : Z :=
  to_int (to_uint packets_per_transfer * max_packet_size ftdi).

(** The ways through [ftdi_stream_read]: the three early returns, the
    four jumps to [cleanup] before the loop, and the loop. *)
Inductive run_path {U : Type} (callback : cb_arg -> U -> Z * U)
    (ftdi : ftdi_context) (userdata : U)
    (packets_per_transfer num_transfers : Z) (env : environment)
    : outcome U (Z * world U) -> Prop :=
| Path_unsupported :
    ~ supported ftdi ->
    run_path callback ftdi userdata packets_per_transfer num_transfers env
      (Done (1, {| st := initial_state ftdi; ud := userdata;
                   log := [EvStderr
                     "Device doesn't support synchronous FIFO mode\n"] |}))
| Path_reset :
    supported ftdi -> reset_ret env < 0 ->
    run_path callback ftdi userdata packets_per_transfer num_transfers env
      (Done (1, {| st := initial_state ftdi; ud := userdata;
                   log := [EvSetBitmode 255 BITMODE_RESET (reset_ret env);
                           EvStderr "Can't reset mode\n"] |}))
| Path_flush :
    supported ftdi -> 0 <= reset_ret env -> flush_ret env < 0 ->
    run_path callback ftdi userdata packets_per_transfer num_transfers env
      (Done (1, {| st := initial_state ftdi; ud := userdata;
                   log := [EvSetBitmode 255 BITMODE_RESET (reset_ret env);
                           EvTcioflush (flush_ret env);
                           EvStderr "Can't flush FIFOs & buffers\n"] |}))
| Path_calloc :
    supported ftdi -> 0 <= reset_ret env -> 0 <= flush_ret env ->
    calloc_ok env = false ->
    run_path callback ftdi userdata packets_per_transfer num_transfers env
      (Done (cleanup false LIBUSB_ERROR_NO_MEM
               {| st := initial_state ftdi; ud := userdata;
                  log := checks_log num_transfers env |}))
| Path_setup (e : Z) (l : list event) :
    supported ftdi -> 0 <= reset_ret env -> 0 <= flush_ret env ->
    calloc_ok env = true ->
    setup_loop (Z.to_nat num_transfers) 0
      (buffer_size ftdi packets_per_transfer) (slots env) 0
      (checks_log num_transfers env) = (e, true, l) ->
    e <> 0 ->
    run_path callback ftdi userdata packets_per_transfer num_transfers env
      (Done (cleanup true e
               {| st := initial_state ftdi; ud := userdata; log := l |}))
| Path_syncff :
    pool_primed ftdi num_transfers env -> syncff_ret env < 0 ->
    run_path callback ftdi userdata packets_per_transfer num_transfers env
      (Done (cleanup true 0
               (emit [EvStderr "Can't set synchronous fifo mode: %s\n"]
                  {| st := initial_state ftdi; ud := userdata;
                     log := log (loop_entry ftdi userdata
                                   packets_per_transfer num_transfers
                                   env) |})))
| Path_loop (o : outcome U (world U)) :
    pool_primed ftdi num_transfers env -> 0 <= syncff_ret env ->
    o = stream_loop callback ftdi (iterations env)
          (loop_entry ftdi userdata packets_per_transfer num_transfers env) ->
    run_path callback ftdi userdata packets_per_transfer num_transfers env
      (match o with
       | Done w' => Done (cleanup true 0 w')
       | Pending w' => Pending w'
       | Trapped => Trapped
       end).

(** A wait that is interrupted, and interrupted again when restarted;
    no transfer completes. *)
Definition twice_interrupted : iteration :=
  {| first_wait := {| completions := [];
                      events_ret := LIBUSB_ERROR_INTERRUPTED |};
     retry_wait := {| completions := [];
                      events_ret := LIBUSB_ERROR_INTERRUPTED |};
     now := {| tv_sec := 1700000000; tv_nsec := 0 |} |}.

(** The kinds of calls made by the setup loop. *)
Definition setup_event (e : event) : bool :=
  match e with
  | EvAllocTransfer _ _ | EvMalloc _ _ _ | EvSubmit _ _ _ => true
  | _ => false
  end.

(** The array of transfer pointers was allocated. *)
Definition array_allocated (ftdi : ftdi_context) (env : environment) : Prop :=
  supported ftdi /\ 0 <= reset_ret env /\ 0 <= flush_ret env
  /\ calloc_ok env = true.

(** The [first] sample of a session that started at [t]. *)
Definition first_sample (t : timespec) : size_and_time :=
  {| total_bytes := 0; time := t |}.

(** The byte counter of a world agrees with its log: it is the sum of the
    payload lengths handed to the consumer so far, as a [uint64_t], and
    every progress record in the log shows the sum at its time. *)
Definition accounts {U : Type} (w : world U) : Prop :=
  in_uint64 (bytes_so_far w)
  /\ bytes_so_far w = to_uint64 (payload_sum (log w))
  /\ accounted 0 (log w).

(** The kinds of calls made outside the driver loop and the handler:
    no delivery, no report, no release, no wait. *)
Definition outside_event (e : event) : bool :=
  negb (is_data e || is_report e || is_free_buffer e || is_free_transfer e
        || is_handle_events e).

(** Where a log stands with respect to the release of a transfer: right
    after a data delivery of transfer [id], between the two calls that
    release transfer [id], or anywhere else. *)
Inductive release_phase :=
| Idle
| Delivered (id : nat)
| BufferFreed (id : nat).

(** One call more.  The buffer of a transfer may be freed only right
    after a data delivery of that transfer, the transfer object only right
    after its buffer, and nothing but the free of the transfer object may
    follow the free of its buffer. *)
Definition release_step (ph : release_phase) (e : event)
    : option release_phase :=
  match ph, e with
  | BufferFreed id, EvFreeTransfer id' =>
      if Nat.eqb id id' then Some Idle else None
  | BufferFreed _, _ => None
  | Delivered id, EvFreeBuffer id' =>
      if Nat.eqb id id' then Some (BufferFreed id) else None
  | _, EvFreeBuffer _ => None
  | _, EvFreeTransfer _ => None
  | _, EvData id _ _ => Some (Delivered id)
  | _, _ => Some Idle
  end.

(** A whole log, call by call; [None] when a call breaks the rule. *)
Fixpoint release_walk (ph : release_phase) (l : list event)
    : option release_phase :=
  match l with
  | [] => Some ph
  | e :: l' =>
      match release_step ph e with
      | Some ph' => release_walk ph' l'
      | None => None
      end
  end.

(** The same rule said directly.  Wherever [free(transfer->buffer)]
    stands in the log, the call before it is a data delivery of that
    transfer and the call after it is [libusb_free_transfer] of that
    transfer; wherever [libusb_free_transfer] stands, the call before it
    is the free of the buffer of that transfer. *)
Definition released_together (l : list event) : Prop :=
  (forall l1 l2 id, l = l1 ++ EvFreeBuffer id :: l2 ->
     (exists l0 off len, l1 = l0 ++ [EvData id off len])
     /\ exists l3, l2 = EvFreeTransfer id :: l3)
  /\ (forall l1 l2 id, l = l1 ++ EvFreeTransfer id :: l2 ->
        exists l0, l1 = l0 ++ [EvFreeBuffer id]).

(** The loop of the driver is entered: the pool was set up and the
    device switched to the synchronous FIFO mode. *)
Definition loop_entered (ftdi : ftdi_context) (num_transfers : Z)
    (env : environment) : Prop :=
  pool_primed ftdi num_transfers env /\ 0 <= syncff_ret env.

(** The session runs with packet size [P]. *)
Definition keeps_packet_size {U : Type} (P : Z) (w : world U) : Prop :=
  packetsize (st w) = P.

(** A device that reports a packet size of 0. *)
Definition no_packet_size : ftdi_context :=
  {| type := TYPE_232H; max_packet_size := 0; usb_read_timeout := 5000 |}.

(** A consumer that asks to stop from its second data delivery on. *)
Definition stop_at_second : cb_arg -> nat -> Z * nat := stop_after 1.

(** One transfer of two packets completes in the first wait, nothing in
    the second. *)
Definition one_transfer_session : environment :=
  smooth [iteration_at [completed 0 1024] 1700000000;
          iteration_at [] 1700000000].

(** What every report of a session that started at [t] shows of the
    first sample and of the elapsed time. *)
Definition shows_start (t : timespec) (v : ftdi_stream_progress) : Prop :=
  first v = first_sample t
  /\ total_time v = timespec_diff (time (current v)) t.

(** A consumer that answers 7 to a progress report and otherwise behaves
    as [keep_going]. *)
Definition seven_on_reports (a : cb_arg) (u : nat) : Z * nat :=
  match a with
  | CbData _ _ _ => (0, S u)
  | CbProgress _ => (7, S u)
  end.

(** Slot setup fails: no transfer object, no buffer, or the submission
    is refused. *)
Definition slot_fails (s : slot_env) : Prop :=
  alloc_ok s = false \/ malloc_ok s = false \/ submit_ret s <> 0.

(** The error code of a failing slot: [LIBUSB_ERROR_NO_MEM] for a failed
    allocation, else what the submission answered. *)
Definition slot_error (s : slot_env) : Z :=
  if alloc_ok s && malloc_ok s then submit_ret s else LIBUSB_ERROR_NO_MEM.

(** The calls made for a failing slot [k]: those up to the failing one. *)
Definition failed_slot_log (bufferSize : Z) (k : nat) (s : slot_env)
    : list event :=
  EvAllocTransfer k (alloc_ok s)
  :: (if alloc_ok s
      then EvMalloc k bufferSize (malloc_ok s)
           :: (if malloc_ok s then [EvSubmit k (-1) (submit_ret s)] else [])
      else []).

(** * Properties *)

(** ** Machine integers *)

Lemma to_int_id z : in_int z -> to_int z = z.
Proof.
  unfold in_int, to_int, INT_MIN, INT_MAX. intros H.
  rewrite Z.mod_small; lia.
Qed.

(** Closes a goal on the range of an [int] by unfolding the bounds. *)
Ltac int_range :=
  unfold in_int, INT_MIN, INT_MAX, packet_len in *; lia.

Lemma to_uint64_id z : 0 <= z < 2 ^ 64 -> to_uint64 z = z.
Proof. unfold to_uint64. intros H. apply Z.mod_small. exact H. Qed.

Section HandlerFacts.

Context {U : Type} (callback : cb_arg -> U -> Z * U).
Variable t : libusb_transfer.
Variable P : Z.

Lemma data_calls_app (l1 l2 : list event) :
  data_calls (l1 ++ l2) = data_calls l1 ++ data_calls l2.
Proof.
  induction l1 as [|e l1 IH]; simpl; [reflexivity|].
  destruct e; simpl; rewrite ?IH; reflexivity.
Qed.

Lemma packet_iter_log (s : pkt_state U) :
  log (ps_w (packet_iter callback t P s)) =
  log (ps_w s) ++
  [EvData (xfer_id t) (ps_ptr s + 2)
     (int_sub (if ps_length s >? P then P else ps_length s) 2)].
Proof.
  unfold packet_iter. destruct (callback _ _) as [res u]. reflexivity.
Qed.

Lemma packet_iter_ptr (s : pkt_state U) :
  ps_ptr (packet_iter callback t P s) =
  ps_ptr s + (if ps_length s >? P then P else ps_length s).
Proof.
  unfold packet_iter. destruct (callback _ _) as [res u]. reflexivity.
Qed.

Lemma packet_iter_length (s : pkt_state U) :
  ps_length (packet_iter callback t P s) =
  int_sub (ps_length s) (if ps_length s >? P then P else ps_length s).
Proof.
  unfold packet_iter. destruct (callback _ _) as [res u]. reflexivity.
Qed.

(** The last iteration of the packet loop. *)
Lemma packet_loop_last (n : nat) (s : pkt_state U) :
  packet_loop callback (S n) t P s =
  packet_iter callback t P (packet_loop callback n t P s).
Proof.
  revert s. induction n as [|n IH]; intros s; [reflexivity|].
  change (packet_loop callback (S (S n)) t P s)
    with (packet_loop callback (S n) t P (packet_iter callback t P s)).
  rewrite IH. reflexivity.
Qed.

(** The packet loop on [n] packets, when they cover the remaining
    length: pointer, remaining length and log after the loop. *)
Lemma packet_loop_spec (n : nat) :
  forall s : pkt_state U,
    0 < P <= INT_MAX ->
    0 <= ps_length s <= INT_MAX ->
    Z.of_nat n * P < ps_length s + P ->
    let s' := packet_loop callback n t P s in
    ps_ptr s' = ps_ptr s + Z.min (ps_length s) (Z.of_nat n * P)
    /\ ps_length s' = ps_length s - Z.min (ps_length s) (Z.of_nat n * P)
    /\ log (ps_w s') =
       log (ps_w s) ++
       map (fun i => EvData (xfer_id t) (ps_ptr s + Z.of_nat i * P + 2)
                       (packet_len (ps_length s) P i - 2)) (seq 0 n).
Proof.
  induction n as [|n IH]; intros s HP HL Hn.
  - simpl. rewrite app_nil_r. repeat split; lia.
  - cbn zeta. rewrite packet_loop_last.
    destruct (IH s HP HL ltac:(lia)) as (Hptr & Hlen & Hlog).
    set (s1 := packet_loop callback n t P s) in *.
    unfold INT_MAX in *.
    assert (Hmin : Z.min (ps_length s) (Z.of_nat n * P) = Z.of_nat n * P)
      by lia.
    rewrite Hmin in Hptr, Hlen.
    assert (Hpl : (if ps_length s1 >? P then P else ps_length s1)
                  = packet_len (ps_length s) P n).
    { unfold packet_len. rewrite Hlen.
      destruct (Z.gtb_spec (ps_length s - Z.of_nat n * P) P); lia. }
    rewrite packet_iter_ptr, packet_iter_length, packet_iter_log, Hpl.
    assert (Hrange : 1 <= packet_len (ps_length s) P n <= 2 ^ 31 - 1)
      by (unfold packet_len; lia).
    unfold int_sub.
    rewrite !to_int_id by int_range.
    rewrite Hptr, Hlen, Hlog, seq_S, map_app, <- app_assoc.
    cbn [map app Nat.add]. rewrite Nat2Z.inj_succ in *.
    repeat split; unfold packet_len in *; try nia.
Qed.

(** What one iteration hands to the consumer, and what it keeps of the
    answer. *)
Lemma packet_iter_ud (s : pkt_state U) :
  ud (ps_w (packet_iter callback t P s)) =
  snd (callback
         (CbData (buffer t) (ps_ptr s + 2)
            (int_sub (if ps_length s >? P then P else ps_length s) 2))
         (ud (ps_w s))).
Proof.
  unfold packet_iter. cbn [with_st ud].
  destruct (callback _ _) as [res u]. reflexivity.
Qed.

Lemma packet_iter_res (s : pkt_state U) :
  ps_res (packet_iter callback t P s) =
  fst (callback
         (CbData (buffer t) (ps_ptr s + 2)
            (int_sub (if ps_length s >? P then P else ps_length s) 2))
         (ud (ps_w s))).
Proof.
  unfold packet_iter. cbn [with_st ud].
  destruct (callback _ _) as [res u]. reflexivity.
Qed.

Lemma consumer_after_app (buf : list byte) (l1 l2 : list (Z * Z)) :
  forall u : U,
    consumer_after callback buf (l1 ++ l2) u =
    consumer_after callback buf l2 (consumer_after callback buf l1 u).
Proof.
  induction l1 as [|[off len] l1 IH]; intros u; cbn [app consumer_after];
    [reflexivity|apply IH].
Qed.

Lemma answers_app (buf : list byte) (l1 l2 : list (Z * Z)) :
  forall u : U,
    answers callback buf (l1 ++ l2) u =
    answers callback buf l1 u
    ++ answers callback buf l2 (consumer_after callback buf l1 u).
Proof.
  induction l1 as [|[off len] l1 IH]; intros u;
    cbn [app consumer_after answers]; [reflexivity|].
  rewrite IH. reflexivity.
Qed.

(** The packet loop on [n] packets, when they cover the remaining
    length, seen from the consumer: it is called once per packet, in
    order, each call on the private state the call before left; [res]
    ends as the value of the last call. *)
Lemma packet_loop_consumer (n : nat) :
  forall s : pkt_state U,
    0 < P <= INT_MAX ->
    0 <= ps_length s <= INT_MAX ->
    Z.of_nat n * P < ps_length s + P ->
    let s' := packet_loop callback n t P s in
    let calls :=
      map (fun i => (ps_ptr s + Z.of_nat i * P + 2,
                     packet_len (ps_length s) P i - 2)) (seq 0 n) in
    ud (ps_w s') = consumer_after callback (buffer t) calls (ud (ps_w s))
    /\ ps_res s' =
       last (answers callback (buffer t) calls (ud (ps_w s))) (ps_res s).
Proof.
  induction n as [|n IH]; intros s HP HL Hn.
  - cbn. split; reflexivity.
  - cbn zeta. rewrite packet_loop_last.
    rewrite Nat2Z.inj_succ in Hn.
    destruct (IH s HP HL ltac:(lia)) as (Hud & _).
    destruct (packet_loop_spec n s HP HL ltac:(lia)) as (Hptr & Hlen & _).
    set (s1 := packet_loop callback n t P s) in *.
    unfold INT_MAX in *.
    assert (Hmin : Z.min (ps_length s) (Z.of_nat n * P) = Z.of_nat n * P)
      by lia.
    rewrite Hmin in Hptr, Hlen.
    assert (Hpl : (if ps_length s1 >? P then P else ps_length s1)
                  = packet_len (ps_length s) P n).
    { unfold packet_len. rewrite Hlen.
      destruct (Z.gtb_spec (ps_length s - Z.of_nat n * P) P); lia. }
    assert (Hrange : 1 <= packet_len (ps_length s) P n <= 2 ^ 31 - 1)
      by (unfold packet_len; lia).
    rewrite packet_iter_ud, packet_iter_res, Hpl, Hptr, Hud.
    unfold int_sub. rewrite to_int_id by int_range.
    rewrite seq_S, map_app, consumer_after_app, answers_app.
    cbn [map Nat.add consumer_after answers]. rewrite last_last.
    split; reflexivity.
Qed.

End HandlerFacts.

(** ** Packet splitting *)

Lemma deliveries_length (L P : Z) (n : nat) : length (deliveries L P n) = n.
Proof. unfold deliveries. rewrite length_map, length_seq. reflexivity. Qed.

Lemma data_calls_deliveries (id : nat) (L P base : Z) (n : nat) :
  data_calls
    (map (fun i => EvData id (base + Z.of_nat i * P + 2) (packet_len L P i - 2))
         (seq 0 n))
  = map (fun i => (base + Z.of_nat i * P + 2, packet_len L P i - 2)) (seq 0 n).
Proof.
  induction (seq 0 n) as [|i l IH]; simpl; [reflexivity|].
  rewrite IH. reflexivity.
Qed.

(** The packet sizes [min(remaining, P)] of [n] packets that cover [L]
    bytes add up to [L]. *)
Lemma packet_len_sum (P : Z) (n : nat) :
  forall (L : Z) (k : nat),
    0 < P -> 0 < L - Z.of_nat k * P ->
    (Z.of_nat (k + n) - 1) * P < L <= Z.of_nat (k + n) * P ->
    sum_Z (map (fun i => packet_len L P i) (seq k n)) = L - Z.of_nat k * P.
Proof.
  induction n as [|n IH]; intros L k HP HL Hn.
  - rewrite Nat.add_0_r in Hn. lia.
  - cbn [seq map sum_Z fold_right].
    destruct n as [|n].
    + cbn [seq map fold_right]. unfold packet_len.
      replace (k + 1)%nat with (S k) in Hn by lia.
      rewrite Nat2Z.inj_succ in Hn. lia.
    + fold (sum_Z (map (fun i => packet_len L P i) (seq (S k) (S n)))).
      replace (k + S (S n))%nat with (S k + S n)%nat in Hn by lia.
      assert (Hk : Z.of_nat (S k + S n) = Z.of_nat k + Z.of_nat n + 2) by lia.
      rewrite Hk in Hn.
      rewrite IH; unfold packet_len; rewrite ?Hk, ?Nat2Z.inj_succ; try nia.
Qed.

Lemma deliveries_sum (L P : Z) (n : nat) :
  0 < P -> 0 < L ->
  (Z.of_nat n - 1) * P < L <= Z.of_nat n * P ->
  sum_Z (map snd (deliveries L P n)) = L - 2 * Z.of_nat n.
Proof.
  intros HP HL Hn.
  pose proof (packet_len_sum P n L 0 HP ltac:(simpl; lia) Hn) as Hs.
  simpl in Hs. rewrite Z.sub_0_r in Hs.
  assert (G : forall l, sum_Z (map (fun i => packet_len L P i - 2) l)
                        = sum_Z (map (fun i => packet_len L P i) l)
                          - 2 * Z.of_nat (length l)).
  { clear. induction l as [|i l IH]; [reflexivity|].
    cbn [map sum_Z fold_right length] in *. rewrite Nat2Z.inj_succ.
    unfold sum_Z in IH. lia. }
  unfold deliveries. rewrite map_map. cbn [snd].
  rewrite G, Hs, length_seq. lia.
Qed.

Lemma slice_payload (buf : list byte) (off len : Z) :
  0 <= off ->
  slice buf (off + 2) (len - 2) = skipn 2 (slice buf off len).
Proof.
  intros Hoff. unfold slice.
  rewrite skipn_firstn_comm, skipn_skipn.
  rewrite Z2Nat.inj_sub by lia.
  rewrite Z2Nat.inj_add by lia.
  replace (Z.to_nat 2) with 2%nat by reflexivity.
  rewrite (Nat.add_comm (Z.to_nat off) 2). reflexivity.
Qed.

(** [numPackets = (length + packet_size - 1) / packet_size] is the number
    of packets that cover [length]. *)
Lemma numPackets_spec (L P : Z) :
  0 < L -> 0 < P -> L + P <= INT_MAX ->
  exists n : nat,
    int_div (int_sub (int_add L P) 1) P = Some (Z.of_nat n)
    /\ (Z.of_nat n - 1) * P < L <= Z.of_nat n * P.
Proof.
  intros HL HP Hov. unfold INT_MAX in Hov.
  unfold int_sub, int_add.
  rewrite (to_int_id (L + P)) by int_range.
  rewrite to_int_id by int_range.
  unfold int_div.
  destruct (Z.eqb_spec P 0) as [->|_]; [lia|].
  destruct (Z.eqb_spec P (-1)) as [->|_]; [lia|].
  rewrite andb_false_r. cbn [orb].
  rewrite Z.quot_div_nonneg by lia.
  pose proof (Z.div_mod (L + P - 1) P ltac:(lia)) as Hdm.
  pose proof (Z.mod_pos_bound (L + P - 1) P HP) as Hm.
  set (q := (L + P - 1) / P) in *.
  assert (Hq : 0 <= q) by (apply Z.div_pos; lia).
  exists (Z.to_nat q). rewrite Z2Nat.id by exact Hq.
  split; [reflexivity|]. nia.
Qed.

Lemma deliveries_from_zero (L P : Z) (n : nat) :
  map (fun i => (0 + Z.of_nat i * P + 2, packet_len L P i - 2)) (seq 0 n)
  = deliveries L P n.
Proof. unfold deliveries. apply map_ext. intros i. reflexivity. Qed.

Lemma pool_actions_data (id : nat) (f g : nat -> Z) (l : list nat) :
  pool_actions (map (fun i => EvData id (f i) (g i)) l) = [].
Proof.
  unfold pool_actions. induction l as [|i l IH]; cbn [map filter];
    [reflexivity|exact IH].
Qed.

(** C1.  A transfer completed with success status, carrying [L > 0] bytes,
    with packet size [P > 0] ([length + packet_size] representable as an
    [int]): the handler calls the consumer once per packet, [n] times where
    [n] is the least number of packets of [P] bytes covering [L] (the
    ceiling of [L / P]); call [i] gets the pointer to byte [i * P + 2] of the
    buffer and the length [min(L - i * P, P) - 2], that is packet [i]
    without its first two bytes; the lengths add up to [L - 2 * n].  The
    calls are made on the consumer itself: its private state after the
    handler is what these [n] calls, made in order, leave of the state
    before, and the value of the last call decides between resubmission
    and release. *)
Theorem C1_packet_splitting {U : Type} (callback : cb_arg -> U -> Z * U)
    (t : libusb_transfer) (w : world U) :
  let L := actual_length t in
  let P := packetsize (st w) in
  status t = LIBUSB_TRANSFER_COMPLETED ->
  0 < L -> 0 < P -> L + P <= INT_MAX ->
  exists (n : nat) (w' : world U) (new : list event),
    ftdi_stream_read_cb callback t w = Some w'
    /\ log w' = log w ++ new
    /\ (Z.of_nat n - 1) * P < L <= Z.of_nat n * P
    /\ data_calls new = deliveries L P n
    /\ length (data_calls new) = n
    /\ sum_Z (map snd (data_calls new)) = L - 2 * Z.of_nat n
    /\ (forall i, (i < n)%nat ->
          slice (buffer t) (Z.of_nat i * P + 2) (packet_len L P i - 2)
          = skipn 2 (packet (buffer t) L P i))
    /\ ud w' = consumer_after callback (buffer t) (deliveries L P n) (ud w)
    /\ length (answers callback (buffer t) (deliveries L P n) (ud w)) = n
    /\ pool_actions new =
       if last (answers callback (buffer t) (deliveries L P n) (ud w)) 0 =? 0
       then [EvSubmit (xfer_id t) (-1) (resubmit_ret t)]
       else [EvFreeBuffer (xfer_id t); EvFreeTransfer (xfer_id t)].
Proof.
  intros L P Hst HL HP Hov.
  destruct (numPackets_spec L P HL HP Hov) as (n & Hdiv & Hn).
  unfold ftdi_stream_read_cb. fold P. fold L.
  rewrite Hst, Z.eqb_refl, Hdiv, Nat2Z.id.
  set (w1 := with_st _ w).
  set (s0 := {| ps_ptr := 0; ps_length := L; ps_res := 0; ps_w := w1 |}).
  destruct (packet_loop_spec callback t P n s0) as (_ & _ & Hlog);
    try (cbn [ps_length s0]; unfold INT_MAX in *; lia).
  destruct (packet_loop_consumer callback t P n s0) as (Hud & Hres);
    try (cbn [ps_length s0]; unfold INT_MAX in *; lia).
  cbn [ps_ptr ps_length ps_res ps_w s0 w1 with_st log ud] in Hlog, Hud, Hres.
  rewrite deliveries_from_zero in Hud, Hres.
  set (s := packet_loop callback n t P s0) in *.
  set (ds := map (fun i => EvData (xfer_id t) (0 + Z.of_nat i * P + 2)
                             (packet_len L P i - 2)) (seq 0 n)) in *.
  assert (Hds : data_calls ds = deliveries L P n).
  { unfold ds. rewrite data_calls_deliveries. apply deliveries_from_zero. }
  assert (Hpool : pool_actions ds = [])
    by (unfold ds; apply pool_actions_data).
  assert (Hans : length (answers callback (buffer t) (deliveries L P n)
                           (ud w)) = n).
  { clear. unfold deliveries. generalize (ud w). generalize 0%nat.
    induction n as [|n IH]; intros k u; [reflexivity|].
    cbn [seq map answers length]. rewrite IH. reflexivity. }
  assert (Hfin : forall w' fin,
    log w' = log (ps_w s) ++ fin -> data_calls fin = [] ->
    ud w' = ud (ps_w s) ->
    pool_actions fin =
      (if ps_res s =? 0
       then [EvSubmit (xfer_id t) (-1) (resubmit_ret t)]
       else [EvFreeBuffer (xfer_id t); EvFreeTransfer (xfer_id t)]) ->
    exists (n0 : nat) (w'0 : world U) (new0 : list event),
      Some w' = Some w'0 /\ log w'0 = log w ++ new0
      /\ (Z.of_nat n0 - 1) * P < L <= Z.of_nat n0 * P
      /\ data_calls new0 = deliveries L P n0
      /\ length (data_calls new0) = n0
      /\ sum_Z (map snd (data_calls new0)) = L - 2 * Z.of_nat n0
      /\ (forall i, (i < n0)%nat ->
            slice (buffer t) (Z.of_nat i * P + 2) (packet_len L P i - 2)
            = skipn 2 (packet (buffer t) L P i))
      /\ ud w'0 = consumer_after callback (buffer t) (deliveries L P n0) (ud w)
      /\ length (answers callback (buffer t) (deliveries L P n0) (ud w)) = n0
      /\ pool_actions new0 =
         if last (answers callback (buffer t) (deliveries L P n0) (ud w)) 0
            =? 0
         then [EvSubmit (xfer_id t) (-1) (resubmit_ret t)]
         else [EvFreeBuffer (xfer_id t); EvFreeTransfer (xfer_id t)]).
  { intros w' fin Hl Hd Hu Hp. exists n, w', (ds ++ fin).
    assert (Hcalls : data_calls (ds ++ fin) = deliveries L P n)
      by (rewrite data_calls_app, Hd, app_nil_r; exact Hds).
    rewrite Hcalls, deliveries_length, deliveries_sum by assumption.
    split; [reflexivity|].
    split; [rewrite Hl, Hlog, <- app_assoc; reflexivity|].
    split; [exact Hn|]. split; [reflexivity|]. split; [reflexivity|].
    split; [reflexivity|].
    split; [intros i _; unfold packet; apply slice_payload; nia|].
    split; [rewrite Hu; exact Hud|]. split; [exact Hans|].
    unfold pool_actions. rewrite filter_app.
    fold (pool_actions ds). fold (pool_actions fin).
    rewrite Hpool, Hp, <- Hres. reflexivity. }
  destruct (ps_res s =? 0) eqn:E; cbn [negb].
  - apply (Hfin _ [EvSubmit (xfer_id t) (-1) (resubmit_ret t)]);
      reflexivity.
  - apply (Hfin _ [EvFreeBuffer (xfer_id t); EvFreeTransfer (xfer_id t)]);
      reflexivity.
Qed.

(** ** The unguarded [packetLen - 2] *)

Lemma packet_iter_bytes {U : Type} (callback : cb_arg -> U -> Z * U)
    (t : libusb_transfer) (P : Z) (s : pkt_state U) :
  bytes_so_far (ps_w (packet_iter callback t P s)) =
  to_uint64 (bytes_so_far (ps_w s)
             + int_sub (if ps_length s >? P then P else ps_length s) 2).
Proof.
  unfold packet_iter. destruct (callback _ _) as [res u]. reflexivity.
Qed.

(** C10.  A transfer completed with success status whose length [L]
    leaves a final packet of one byte ([L mod P = 1]): the last iteration
    of the packet loop starts with one byte remaining, calls the consumer
    with length [-1], and subtracts one from [current.total_bytes] (in
    [uint64_t] arithmetic; a counter that was positive ends one lower).
    The call is made on the consumer itself, on the private state that
    the calls for the [n] full packets left: its private state after the
    handler is the one this call yields, and the value this call returns
    decides between resubmission and release. *)
Theorem C10_one_byte_final_packet {U : Type}
    (callback : cb_arg -> U -> Z * U) (t : libusb_transfer) (w : world U) :
  let L := actual_length t in
  let P := packetsize (st w) in
  status t = LIBUSB_TRANSFER_COMPLETED ->
  0 < L -> 0 < P -> L + P <= INT_MAX -> L mod P = 1 ->
  exists (n : nat) (s : pkt_state U) (w' : world U) (final : list event),
    ftdi_stream_read_cb callback t w = Some w'
    /\ s = packet_loop callback n t P
             {| ps_ptr := 0; ps_length := L; ps_res := 0;
                ps_w := with_st (set_activity (int_add (activity (st w)) 1)
                                              (st w)) w |}
    /\ Z.of_nat n * P + 1 = L
    /\ ps_length s = 1
    /\ log w' = log (ps_w s) ++ EvData (xfer_id t) (L + 1) (-1) :: final
    /\ data_calls final = []
    /\ bytes_so_far w' = to_uint64 (bytes_so_far (ps_w s) - 1)
    /\ (0 < bytes_so_far (ps_w s) < 2 ^ 64 ->
        bytes_so_far w' = bytes_so_far (ps_w s) - 1)
    /\ ud (ps_w s)
       = consumer_after callback (buffer t) (deliveries L P n) (ud w)
    /\ ud w' = snd (callback (CbData (buffer t) (L + 1) (-1)) (ud (ps_w s)))
    /\ final =
       if fst (callback (CbData (buffer t) (L + 1) (-1)) (ud (ps_w s))) =? 0
       then [EvSubmit (xfer_id t) (-1) (resubmit_ret t)]
       else [EvFreeBuffer (xfer_id t); EvFreeTransfer (xfer_id t)].
Proof.
  intros L P Hst HL HP Hov Hmod.
  destruct (numPackets_spec L P HL HP Hov) as (n' & Hdiv & Hn').
  pose proof (Z.div_mod L P ltac:(lia)) as Hdm. rewrite Hmod in Hdm.
  assert (HP2 : 2 <= P).
  { pose proof (Z.mod_pos_bound L P HP). lia. }
  assert (Hq : 0 <= L / P) by (apply Z.div_pos; lia).
  assert (Hn : n' = S (Z.to_nat (L / P))).
  { apply Nat2Z.inj. rewrite Nat2Z.inj_succ, Z2Nat.id by exact Hq. nia. }
  set (n := Z.to_nat (L / P)) in *.
  assert (HnP : Z.of_nat n * P + 1 = L).
  { unfold n. rewrite Z2Nat.id by exact Hq. lia. }
  unfold ftdi_stream_read_cb. fold P. fold L.
  rewrite Hst, Z.eqb_refl, Hdiv, Nat2Z.id, Hn, packet_loop_last.
  set (s0 := {| ps_ptr := 0; ps_length := L; ps_res := 0;
                ps_w := with_st _ w |}).
  destruct (packet_loop_spec callback t P n s0) as (Hptr & Hlen & _);
    try (cbn [ps_length s0]; unfold INT_MAX in *; lia).
  destruct (packet_loop_consumer callback t P n s0) as (Hud & _);
    try (cbn [ps_length s0]; unfold INT_MAX in *; lia).
  cbn [ps_ptr ps_length ps_w s0 with_st ud] in Hptr, Hlen, Hud.
  rewrite deliveries_from_zero in Hud.
  set (s := packet_loop callback n t P s0) in *.
  assert (Hlen1 : ps_length s = 1) by lia.
  assert (Hptr1 : ps_ptr s + 2 = L + 1) by lia.
  assert (Hpl : (if ps_length s >? P then P else ps_length s) = 1).
  { rewrite Hlen1. destruct (Z.gtb_spec 1 P); lia. }
  pose proof (packet_iter_log callback t P s) as Hlog.
  pose proof (packet_iter_bytes callback t P s) as Hbytes.
  pose proof (packet_iter_ud callback t P s) as Hudi.
  pose proof (packet_iter_res callback t P s) as Hresi.
  rewrite Hpl, Hptr1 in *.
  change (int_sub 1 2) with (-1) in *.
  set (s' := packet_iter callback t P s) in *.
  assert (Hsub : bytes_so_far (ps_w s')
                 = to_uint64 (bytes_so_far (ps_w s) - 1))
    by (rewrite Hbytes; f_equal; lia).
  assert (Hfin : forall (w' : world U) final,
    log w' = log (ps_w s') ++ final -> data_calls final = [] ->
    bytes_so_far w' = bytes_so_far (ps_w s') ->
    ud w' = ud (ps_w s') ->
    final = (if ps_res s' =? 0
             then [EvSubmit (xfer_id t) (-1) (resubmit_ret t)]
             else [EvFreeBuffer (xfer_id t); EvFreeTransfer (xfer_id t)]) ->
    log w' = log (ps_w s) ++ EvData (xfer_id t) (L + 1) (-1) :: final
    /\ data_calls final = []
    /\ bytes_so_far w' = to_uint64 (bytes_so_far (ps_w s) - 1)
    /\ (0 < bytes_so_far (ps_w s) < 2 ^ 64 ->
        bytes_so_far w' = bytes_so_far (ps_w s) - 1)
    /\ ud (ps_w s)
       = consumer_after callback (buffer t) (deliveries L P n) (ud w)
    /\ ud w' = snd (callback (CbData (buffer t) (L + 1) (-1)) (ud (ps_w s)))
    /\ final =
       if fst (callback (CbData (buffer t) (L + 1) (-1)) (ud (ps_w s))) =? 0
       then [EvSubmit (xfer_id t) (-1) (resubmit_ret t)]
       else [EvFreeBuffer (xfer_id t); EvFreeTransfer (xfer_id t)]).
  { intros w' final Hl Hd Hb Hu Hf. rewrite Hb, Hl, Hlog, <- app_assoc.
    split; [reflexivity|]. split; [exact Hd|]. split; [exact Hsub|].
    split; [intros Hr; rewrite Hsub; apply to_uint64_id; lia|].
    split; [exact Hud|]. split; [rewrite Hu; exact Hudi|].
    rewrite <- Hresi. exact Hf. }
  destruct (ps_res s' =? 0); cbn [negb].
  - exists n, s,
           (with_st (set_result (resubmit_ret t) (st (ps_w s')))
              (emit [EvSubmit (xfer_id t) (-1) (resubmit_ret t)] (ps_w s'))),
           [EvSubmit (xfer_id t) (-1) (resubmit_ret t)].
    split; [reflexivity|]. split; [reflexivity|].
    split; [exact HnP|]. split; [exact Hlen1|].
    apply Hfin; reflexivity.
  - exists n, s, (emit [EvFreeBuffer (xfer_id t); EvFreeTransfer (xfer_id t)]
                       (ps_w s')),
           [EvFreeBuffer (xfer_id t); EvFreeTransfer (xfer_id t)].
    split; [reflexivity|]. split; [reflexivity|].
    split; [exact HnP|]. split; [exact Hlen1|].
    apply Hfin; reflexivity.
Qed.

(** ** What the handler leaves alone *)

Lemma progress_views_app (l1 l2 : list event) :
  progress_views (l1 ++ l2) = progress_views l1 ++ progress_views l2.
Proof.
  induction l1 as [|e l1 IH]; simpl; [reflexivity|].
  destruct e; simpl; rewrite ?IH; reflexivity.
Qed.

Lemma frozen_refl p : frozen p p.
Proof. unfold frozen. auto 10. Qed.

Lemma frozen_trans p q r : frozen p q -> frozen q r -> frozen p r.
Proof.
  unfold frozen. intros (A1 & A2 & A3 & A4 & A5 & A6) (B1 & B2 & B3 & B4 & B5 & B6).
  repeat split; congruence.
Qed.

Section LoopFrame.

Context {U : Type} (callback : cb_arg -> U -> Z * U).
Variable t : libusb_transfer.
Variable P : Z.

Lemma data_only_refl (w : world U) : data_only w w.
Proof.
  unfold data_only. do 3 (split; [reflexivity|]).
  split; [apply frozen_refl|].
  exists []. rewrite app_nil_r. auto.
Qed.

Lemma data_only_trans (w1 w2 w3 : world U) :
  data_only w1 w2 -> data_only w2 w3 -> data_only w1 w3.
Proof.
  intros (A1 & A2 & A3 & A4 & ds1 & A5 & A6 & A7)
         (B1 & B2 & B3 & B4 & ds2 & B5 & B6 & B7).
  unfold data_only. do 3 (split; [congruence|]).
  split; [eapply frozen_trans; eassumption|].
  exists (ds1 ++ ds2). rewrite B5, A5, <- app_assoc.
  unfold pool_actions in *.
  rewrite filter_app, progress_views_app, A6, A7, B6, B7. auto.
Qed.

Lemma packet_iter_data_only (s : pkt_state U) :
  data_only (ps_w s) (ps_w (packet_iter callback t P s)).
Proof.
  unfold packet_iter. destruct (callback _ _) as [res u].
  unfold data_only, frozen. cbn.
  do 4 (split; [auto 10|]).
  eexists. split; [reflexivity|]. auto.
Qed.

Lemma packet_loop_data_only (n : nat) :
  forall s : pkt_state U,
    data_only (ps_w s) (ps_w (packet_loop callback n t P s)).
Proof.
  induction n as [|n IH]; intros s.
  - apply data_only_refl.
  - cbn [packet_loop]. eapply data_only_trans; [|apply IH].
    apply packet_iter_data_only.
Qed.

End LoopFrame.

Lemma handler_ends {U : Type} (callback : cb_arg -> U -> Z * U)
    (t : libusb_transfer) (w w' : world U) :
  ftdi_stream_read_cb callback t w = Some w' -> handler_end t w w'.
Proof.
  unfold ftdi_stream_read_cb.
  destruct (Z.eqb_spec (status t) LIBUSB_TRANSFER_COMPLETED) as [Hst|Hst].
  - destruct (int_div _ _) as [numPackets|]; [|discriminate].
    set (w1 := with_st _ w).
    set (s0 := {| ps_ptr := 0; ps_length := actual_length t; ps_res := 0;
                  ps_w := w1 |}).
    pose proof (packet_loop_data_only callback t (packetsize (st w))
                  (Z.to_nat numPackets) s0) as Hd.
    cbn [ps_w s0] in Hd.
    destruct (negb (ps_res _ =? 0)); intros [= <-].
    + eapply End_release; [exact Hst|exact Hd|reflexivity].
    + eapply End_resubmit; [exact Hst|exact Hd|reflexivity].
  - intros [= <-]. apply End_failed; [exact Hst|reflexivity].
Qed.

(** The handler returns whenever the packet size is positive (or the
    status is not success). *)
Lemma handler_returns {U : Type} (callback : cb_arg -> U -> Z * U)
    (t : libusb_transfer) (w : world U) :
  0 < packetsize (st w) \/ status t <> LIBUSB_TRANSFER_COMPLETED ->
  exists w', ftdi_stream_read_cb callback t w = Some w'.
Proof.
  intros H. unfold ftdi_stream_read_cb.
  destruct (Z.eqb_spec (status t) LIBUSB_TRANSFER_COMPLETED) as [Hst|Hst].
  - destruct H as [H|H]; [|contradiction].
    unfold int_div.
    destruct (Z.eqb_spec (packetsize (st w)) 0); [lia|].
    destruct (Z.eqb_spec (packetsize (st w)) (-1)); [lia|].
    rewrite andb_false_r. cbn [orb].
    destruct (negb _); eexists; reflexivity.
  - eexists; reflexivity.
Qed.

(** ** The result code and the pool actions of the handler *)

(** What every handler invocation adds to the log, as pool actions. *)
Lemma handler_pool_actions {U : Type} (callback : cb_arg -> U -> Z * U)
    (t : libusb_transfer) (w w' : world U) :
  ftdi_stream_read_cb callback t w = Some w' ->
  exists new,
    log w' = log w ++ new
    /\ (status t = LIBUSB_TRANSFER_COMPLETED ->
        pool_actions new = [EvSubmit (xfer_id t) (-1) (resubmit_ret t)]
        \/ pool_actions new = [EvFreeBuffer (xfer_id t);
                               EvFreeTransfer (xfer_id t)])
    /\ (status t <> LIBUSB_TRANSFER_COMPLETED -> pool_actions new = []).
Proof.
  intros H. destruct (handler_ends callback t w w' H)
    as [m Hst (_ & _ & _ & _ & ds & Hl & Hp & _) ->
       |m Hst (_ & _ & _ & _ & ds & Hl & Hp & _) -> |Hst ->].
  - exists (ds ++ [EvSubmit (xfer_id t) (-1) (resubmit_ret t)]).
    cbn [with_st emit log] in *. rewrite Hl, <- app_assoc.
    unfold pool_actions in *. rewrite filter_app, Hp.
    split; [reflexivity|]. split; [left; reflexivity|contradiction].
  - exists (ds ++ [EvFreeBuffer (xfer_id t); EvFreeTransfer (xfer_id t)]).
    cbn [with_st emit log] in *. rewrite Hl, <- app_assoc.
    unfold pool_actions in *. rewrite filter_app, Hp.
    split; [reflexivity|]. split; [right; reflexivity|contradiction].
  - exists [EvStderr "unknown status %d\n"].
    split; [reflexivity|]. split; [contradiction|reflexivity].
Qed.

(** C4.  The handler run on a transfer that failed
    ([LIBUSB_TRANSFER_ERROR]): it prints a message and returns; the
    transfer is neither resubmitted nor released. *)
Theorem C4_failed_transfer_neither_resubmitted_nor_released :
  exists w' : world nat,
    ftdi_stream_read_cb keep_going (failed 0) session_start = Some w'
    /\ log w' = [EvStderr "unknown status %d\n"]
    /\ pool_actions (log w') = [].
Proof.
  eexists. split; [vm_compute; reflexivity|]. split; reflexivity.
Qed.

(** C3.  One wait in which transfer 0 fails and transfer 1 then completes
    and is resubmitted: the first handler sets the result code to
    [LIBUSB_ERROR_IO], the second one overwrites it with the 0 of the
    resubmission; the loop goes on and the call ends with the 1 of the
    stall check instead of the first error. *)
Theorem C3_error_cleared_by_resubmission :
  exists w1 w2 : world nat,
    ftdi_stream_read_cb keep_going (failed 0) session_start = Some w1
    /\ result (st w1) = LIBUSB_ERROR_IO
    /\ ftdi_stream_read_cb keep_going (completed 1 512) w1 = Some w2
    /\ result (st w2) = 0
    /\ returned
         (ftdi_stream_read keep_going ft232h 0%nat 1 2
            (smooth [iteration_at [failed 0; completed 1 512] 1700000000;
                     iteration_at [] 1700000000]))
       = Some 1.
Proof.
  eexists. eexists.
  split; [vm_compute; reflexivity|].
  split; [reflexivity|].
  split; [vm_compute; reflexivity|].
  split; [reflexivity|].
  vm_compute. reflexivity.
Qed.

(** C5.  A session in which a transfer of 512 bytes completes, the
    progress is reported, and a transfer of 1 byte completes: after the
    first iteration [current.total_bytes] is 510, after the second it is
    509, below both its earlier value and [prev.total_bytes]. *)
Theorem C5_one_byte_transfer_lowers_total_bytes :
  exists w1 w2 : world nat,
    ftdi_stream_read keep_going ft232h 0%nat 1 1
      (smooth [iteration_at [completed 0 512] 1700000000]) = Pending w1
    /\ ftdi_stream_read keep_going ft232h 0%nat 1 1
      (smooth [iteration_at [completed 0 512] 1700000000;
               iteration_at [completed 0 1] 1700000000]) = Pending w2
    /\ total_bytes (current (progress (st w1))) = 510
    /\ total_bytes (prev (progress (st w1))) = 510
    /\ total_bytes (current (progress (st w2))) = 509
    /\ total_bytes (prev (progress (st w2))) = 510
    /\ total_bytes (first (progress (st w2))) = 0.
Proof.
  eexists. eexists.
  split; [vm_compute; reflexivity|].
  split; [vm_compute; reflexivity|].
  repeat split.
Qed.

(** ** Pool setup *)

Lemma setup_loop_err (n : nat) :
  forall idx bs sl err l e j l',
    err = 0 ->
    setup_loop n idx bs sl err l = (e, j, l') ->
    if j then e <> 0 else e = 0.
Proof.
  induction n as [|n IH]; intros idx bs sl err l e j l' Herr.
  - cbn. intros [= <- <- <-]. exact Herr.
  - cbn [setup_loop].
    destruct (alloc_ok (sl idx)); cbn [negb];
      [|intros [= <- <- <-]; discriminate].
    destruct (malloc_ok (sl idx)); cbn [negb];
      [|intros [= <- <- <-]; discriminate].
    destruct (Z.eqb_spec (submit_ret (sl idx)) 0) as [H0|H0]; cbn [negb].
    + apply IH. exact H0.
    + intros [= <- <- <-]. exact H0.
Qed.

Lemma setup_loop_fine (n : nat) :
  forall idx bs sl l,
    (forall i, (idx <= i < idx + n)%nat ->
       alloc_ok (sl i) = true /\ malloc_ok (sl i) = true
       /\ submit_ret (sl i) = 0) ->
    setup_loop n idx bs sl 0 l =
    (0, false, l ++ flat_map (slot_setup_log bs) (seq idx n)).
Proof.
  induction n as [|n IH]; intros idx bs sl l Hs.
  - cbn. rewrite app_nil_r. reflexivity.
  - cbn [setup_loop seq flat_map].
    destruct (Hs idx ltac:(lia)) as (Ha & Hm & Hr).
    rewrite Ha, Hm, Hr. cbn [negb Z.eqb].
    rewrite IH by (intros i Hi; apply Hs; lia).
    unfold slot_setup_log. rewrite <- !app_assoc. reflexivity.
Qed.

Lemma chip_supported (ftdi : ftdi_context) :
  supported ftdi ->
  negb (chip_eqb (type ftdi) TYPE_2232H)
  && negb (chip_eqb (type ftdi) TYPE_232H) = false.
Proof. intros [H|H]; rewrite H; reflexivity. Qed.

(** C9.  When the device is supported, reset, flush and the allocation
    and submission of all [num_transfers] transfers succeed, and the
    switch to [BITMODE_SYNCFF] fails: the call goes to [cleanup] with
    [err = 0] and [state.result = 0] and returns 0; no wait on events was
    ever made. *)
Theorem C9_syncff_failure_returns_zero {U : Type}
    (callback : cb_arg -> U -> Z * U) (ftdi : ftdi_context) (userdata : U)
    (packets_per_transfer num_transfers : Z) (env : environment) :
  pool_primed ftdi num_transfers env ->
  syncff_ret env < 0 ->
  exists w : world U,
    ftdi_stream_read callback ftdi userdata packets_per_transfer
      num_transfers env = Done (cleanup true 0 w)
    /\ result (st w) = 0
    /\ fst (cleanup true 0 w) = 0
    /\ log w =
       [EvSetBitmode 255 BITMODE_RESET (reset_ret env);
        EvTcioflush (flush_ret env); EvCalloc num_transfers true]
       ++ flat_map
            (slot_setup_log
               (to_int (to_uint packets_per_transfer * max_packet_size ftdi)))
            (seq 0 (Z.to_nat num_transfers))
       ++ [EvSetBitmode 255 BITMODE_SYNCFF (syncff_ret env);
           EvStderr "Can't set synchronous fifo mode: %s\n"].
Proof.
  intros (Hsup & Hreset & Hflush & Hcalloc & Hslots) Hsync.
  unfold ftdi_stream_read.
  rewrite (chip_supported ftdi Hsup).
  destruct (Z.ltb_spec (reset_ret env) 0) as [?|_]; [lia|].
  destruct (Z.ltb_spec (flush_ret env) 0) as [?|_]; [lia|].
  rewrite Hcalloc. cbn [negb emit log st ud app].
  rewrite setup_loop_fine by (intros i Hi; apply Hslots; lia).
  destruct (Z.ltb_spec (syncff_ret env) 0) as [_|?]; [|lia].
  eexists. split; [reflexivity|].
  cbn [emit log st]. split; [reflexivity|]. split; [reflexivity|].
  rewrite <- !app_assoc. reflexivity.
Qed.

(** ** The driver loop *)

Section Driver.

Context {U : Type} (callback : cb_arg -> U -> Z * U).
Variable ftdi : ftdi_context.

Lemma stream_read_primed (userdata : U) (ppt nt : Z) (env : environment) :
  pool_primed ftdi nt env -> 0 <= syncff_ret env ->
  ftdi_stream_read callback ftdi userdata ppt nt env =
  match stream_loop callback ftdi (iterations env)
          (loop_entry ftdi userdata ppt nt env) with
  | Done w' => Done (cleanup true 0 w')
  | Pending w' => Pending w'
  | Trapped => Trapped
  end.
Proof.
  intros (Hsup & Hreset & Hflush & Hcalloc & Hslots) Hsync.
  unfold ftdi_stream_read.
  rewrite (chip_supported ftdi Hsup).
  destruct (Z.ltb_spec (reset_ret env) 0) as [?|_]; [lia|].
  destruct (Z.ltb_spec (flush_ret env) 0) as [?|_]; [lia|].
  rewrite Hcalloc. cbn [negb emit log st ud app].
  rewrite setup_loop_fine by (intros i Hi; apply Hslots; lia).
  destruct (Z.ltb_spec (syncff_ret env) 0) as [?|_]; [lia|].
  reflexivity.
Qed.

Lemma progress_step_keeps (now : timespec) (w : world U) :
  packetsize (st (progress_step callback now w)) = packetsize (st w)
  /\ activity (st (progress_step callback now w)) = activity (st w)
  /\ result (st (progress_step callback now w)) = result (st w).
Proof.
  unfold progress_step. destruct (report_due _ _); [|auto].
  destruct (callback _ _) as [r u]. cbn. auto.
Qed.

Lemma stream_loop_done (its : list iteration) :
  forall w w' : world U,
    stream_loop callback ftdi its w = Done w' -> result (st w') <> 0.
Proof.
  induction its as [|it its IH]; intros w w'; cbn [stream_loop].
  - discriminate.
  - destruct (loop_body callback ftdi it w) as [w1|]; [|discriminate].
    destruct (Z.eqb_spec (result (st w1)) 0) as [H0|H0]; cbn [negb].
    + apply IH.
    + intros [= <-]. exact H0.
Qed.

Lemma cleanup_ret (transfers : bool) (err : Z) (w : world U) :
  fst (cleanup transfers err w) = if err =? 0 then result (st w) else err.
Proof.
  unfold cleanup. destruct (err =? 0); cbn [negb]; destruct transfers;
    reflexivity.
Qed.

Lemma wait_events_quiet (it : iteration) (w : world U) :
  quiet it ->
  exists w1, wait_events callback ftdi it w = Some (xfer_err_of it, w1)
             /\ st w1 = st w.
Proof.
  intros (H1 & H2). unfold wait_events, handle_events_timeout, xfer_err_of.
  rewrite H1. cbn [run_completions].
  destruct (events_ret (first_wait it) =? LIBUSB_ERROR_INTERRUPTED).
  - rewrite H2. cbn [run_completions]. eexists; split; reflexivity.
  - eexists; split; reflexivity.
Qed.

(** What one iteration does around the stall check. *)
Lemma loop_body_stall_check (it : iteration) (w w1 : world U) (xfer_err : Z) :
  wait_events callback ftdi it w = Some (xfer_err, w1) ->
  exists w',
    loop_body callback ftdi it w = Some w'
    /\ if activity (st w1) =? 0
       then result (st w') = 1
            /\ forall rest,
                 stream_loop callback ftdi (it :: rest) w = Done w'
       else activity (st w') = 0
            /\ result (st w') = result (adopt_error xfer_err (st w1)).
Proof.
  intros Hw. unfold loop_body. rewrite Hw.
  set (w2 := with_st (adopt_error xfer_err (st w1)) w1).
  set (w3 := with_st (stall_check (st w2)) w2).
  exists (progress_step callback (now it) w3). split; [reflexivity|].
  destruct (progress_step_keeps (now it) w3) as (_ & Ha & Hr).
  assert (Hact : activity (st w2) = activity (st w1)).
  { subst w2. cbn [with_st st]. unfold adopt_error.
    destruct (result (st w1) =? 0); reflexivity. }
  destruct (activity (st w1) =? 0) eqn:E.
  - assert (H1 : result (st (progress_step callback (now it) w3)) = 1).
    { rewrite Hr. subst w3. cbn [with_st st]. unfold stall_check.
      rewrite Hact, E. reflexivity. }
    split; [exact H1|]. intros rest. cbn [stream_loop].
    unfold loop_body. rewrite Hw. fold w2. fold w3. rewrite H1. reflexivity.
  - rewrite Ha, Hr. subst w3. cbn [with_st st]. unfold stall_check.
    rewrite Hact, E. split; reflexivity.
Qed.

(** Two quiet iterations from the start of the loop, the first of which
    reports no dispatch error: the loop ends in the second one with
    result 1. *)
Lemma stream_loop_two_quiet (it1 it2 : iteration) (rest : list iteration)
    (w : world U) :
  activity (st w) = 1 -> result (st w) = 0 ->
  quiet it1 -> xfer_err_of it1 = 0 -> quiet it2 ->
  exists w', stream_loop callback ftdi (it1 :: it2 :: rest) w = Done w'
             /\ result (st w') = 1.
Proof.
  intros Hact Hres Hq1 He1 Hq2.
  destruct (wait_events_quiet it1 w Hq1) as (w1 & Hw1 & Hst1).
  destruct (loop_body_stall_check it1 w w1 _ Hw1) as (wa & Hb1 & Hc1).
  rewrite Hst1, Hact in Hc1. cbn [Z.eqb] in Hc1.
  destruct Hc1 as (Ha1 & Hr1).
  unfold adopt_error in Hr1. rewrite Hres, He1 in Hr1.
  cbn [Z.eqb set_result result] in Hr1.
  destruct (wait_events_quiet it2 wa Hq2) as (w2 & Hw2 & Hst2).
  destruct (loop_body_stall_check it2 wa w2 _ Hw2) as (wb & Hb2 & Hc2).
  rewrite Hst2, Ha1 in Hc2. cbn [Z.eqb] in Hc2.
  destruct Hc2 as (Hr2 & Hloop).
  exists wb. split; [|exact Hr2].
  cbn [stream_loop]. rewrite Hb1, Hr1. cbn [Z.eqb negb].
  apply Hloop.
Qed.

End Driver.

(** C7.  In every iteration of the driver loop, after the wait: if the
    activity counter is zero the result is set to 1 and the loop ends
    with this iteration; otherwise the counter is reset to zero and the
    result is left as it is.  Hence a session whose first two waits
    complete no transfer, the first one returning 0, ends with 1. *)
Theorem C7_stall_detection {U : Type} (callback : cb_arg -> U -> Z * U)
    (ftdi : ftdi_context) :
  (forall (it : iteration) (w w1 : world U) (xfer_err : Z),
     wait_events callback ftdi it w = Some (xfer_err, w1) ->
     exists w',
       loop_body callback ftdi it w = Some w'
       /\ if activity (st w1) =? 0
          then result (st w') = 1
               /\ forall rest,
                    stream_loop callback ftdi (it :: rest) w = Done w'
          else activity (st w') = 0
               /\ result (st w') = result (adopt_error xfer_err (st w1)))
  /\ (forall (userdata : U) (packets_per_transfer num_transfers : Z)
        (env : environment) (it1 it2 : iteration) (rest : list iteration),
        pool_primed ftdi num_transfers env -> 0 <= syncff_ret env ->
        iterations env = it1 :: it2 :: rest ->
        quiet it1 -> xfer_err_of it1 = 0 -> quiet it2 ->
        returned (ftdi_stream_read callback ftdi userdata
                    packets_per_transfer num_transfers env) = Some 1).
Proof.
  split.
  - intros it w w1 xfer_err. apply loop_body_stall_check.
  - intros userdata ppt nt env it1 it2 rest Hprimed Hsync Hits Hq1 He1 Hq2.
    rewrite (stream_read_primed callback ftdi userdata ppt nt env Hprimed Hsync).
    rewrite Hits.
    destruct (stream_loop_two_quiet callback ftdi it1 it2 rest
                (loop_entry ftdi userdata ppt nt env)
                eq_refl eq_refl Hq1 He1 Hq2) as (w' & -> & Hr).
    cbn [returned].
    pose proof (cleanup_ret true 0 w') as Hc. cbn [Z.eqb] in Hc.
    destruct (cleanup true 0 w') as [r wc]. cbn [fst] in Hc.
    rewrite Hc, Hr. reflexivity.
Qed.

(** ** The theorems at concrete sessions *)

Lemma smooth_primed (n : Z) (its : list iteration) :
  pool_primed ft232h n (smooth its).
Proof.
  unfold pool_primed, supported, slots_fine. cbn.
  repeat split; auto; lia.
Defined.

(** The packet-splitting theorem at a transfer of 1025 bytes, packets of
    512 bytes, with a consumer that keeps what it is handed: three calls,
    the last one for the final packet of one byte. *)
Lemma C1_packet_splitting_witness :
  status (completed 0 1025) = LIBUSB_TRANSFER_COMPLETED
  /\ 0 < 1025 /\ 0 < 512 /\ 1025 + 512 <= INT_MAX
  /\ exists (n : nat) (w' : world (list (Z * Z))) (new : list event),
       ftdi_stream_read_cb recorder (completed 0 1025) recording_start
       = Some w'
       /\ log w' = new
       /\ (Z.of_nat n - 1) * 512 < 1025 <= Z.of_nat n * 512
       /\ data_calls new = deliveries 1025 512 n
       /\ sum_Z (map snd (data_calls new)) = 1025 - 2 * Z.of_nat n
       /\ ud w' = [(2, 510); (514, 510); (1026, -1)]
       /\ pool_actions new = [EvSubmit 0 (-1) 0].
Proof.
  assert (H4 : 1025 + 512 <= INT_MAX) by (unfold INT_MAX; lia).
  repeat (split; [first [reflexivity | exact H4]|]).
  destruct (C1_packet_splitting recorder (completed 0 1025) recording_start
              eq_refl eq_refl eq_refl H4)
    as (n & w' & new & Hcb & Hlog & Hn & Hcalls & _ & Hsum & _ & Hud & _
        & Hpool).
  exists n, w', new.
  split; [exact Hcb|]. split; [exact Hlog|]. split; [exact Hn|].
  split; [exact Hcalls|]. split; [exact Hsum|].
  assert (H3 : n = 3%nat) by (cbn in Hn; lia).
  rewrite Hud, Hpool, H3. split; reflexivity.
Defined.

(** The one-byte final packet at a transfer of 1025 bytes: the third
    call of the consumer is made with length -1. *)
Lemma C10_one_byte_final_packet_witness :
  1025 mod 512 = 1
  /\ exists (w' : world (list (Z * Z))) (before final : list event),
       ftdi_stream_read_cb recorder (completed 0 1025) recording_start
       = Some w'
       /\ log w' = before ++ EvData 0 1026 (-1) :: final
       /\ data_calls final = []
       /\ ud w' = [(2, 510); (514, 510); (1026, -1)].
Proof.
  split; [reflexivity|].
  assert (H4 : 1025 + 512 <= INT_MAX) by (unfold INT_MAX; lia).
  destruct (C10_one_byte_final_packet recorder (completed 0 1025)
              recording_start eq_refl eq_refl eq_refl H4 eq_refl)
    as (n & s & w' & final & Hcb & _ & Hn & _ & Hlog & Hfinal & _ & _
        & Huds & Hud & _).
  exists w', (log (ps_w s)), final.
  split; [exact Hcb|]. split; [exact Hlog|]. split; [exact Hfinal|].
  assert (H2 : n = 2%nat) by (cbn in Hn; lia).
  rewrite Hud, Huds, H2. reflexivity.
Defined.

(** Stall detection at a session whose first two waits complete nothing. *)
Lemma C7_stall_detection_witness :
  quiet (iteration_at [] 1700000000)
  /\ xfer_err_of (iteration_at [] 1700000000) = 0
  /\ returned (ftdi_stream_read keep_going ft232h 0%nat 8 4
                 (smooth [iteration_at [] 1700000000;
                          iteration_at [] 1700000005]))
     = Some 1.
Proof.
  split; [split; reflexivity|]. split; [reflexivity|].
  apply (proj2 (C7_stall_detection keep_going ft232h) 0%nat 8 4
           (smooth [iteration_at [] 1700000000; iteration_at [] 1700000005])
           (iteration_at [] 1700000000) (iteration_at [] 1700000005) []).
  - apply smooth_primed.
  - cbn. lia.
  - reflexivity.
  - split; reflexivity.
  - reflexivity.
  - split; reflexivity.
Defined.

(** Four transfers submitted, then the mode switch fails. *)
Lemma C9_syncff_failure_returns_zero_witness :
  pool_primed ft232h 4 syncff_fails
  /\ syncff_ret syncff_fails < 0
  /\ returned (ftdi_stream_read keep_going ft232h 0%nat 8 4 syncff_fails)
     = Some 0.
Proof.
  assert (Hp : pool_primed ft232h 4 syncff_fails).
  { unfold pool_primed, supported, slots_fine. cbn.
    repeat split; auto; lia. }
  split; [exact Hp|]. split; [reflexivity|].
  destruct (C9_syncff_failure_returns_zero keep_going ft232h 0%nat 8 4
              syncff_fails Hp eq_refl) as (w & Hrun & _ & Hret & _).
  rewrite Hrun. cbn [returned].
  destruct (cleanup true 0 w) as [r wc]. cbn [fst] in Hret.
  rewrite Hret. reflexivity.
Defined.

(** ** Setup failure and cleanup *)

(** The setup loop never releases anything, however it ends. *)
Lemma setup_loop_releases_nothing (n : nat) :
  forall idx bs sl err l e j l',
    setup_loop n idx bs sl err l = (e, j, l') ->
    releases l' = releases l.
Proof.
  induction n as [|n IH]; intros idx bs sl err l e j l'.
  - cbn. intros [= <- <- <-]. reflexivity.
  - cbn [setup_loop].
    destruct (alloc_ok (sl idx)); cbn [negb].
    2:{ intros [= <- <- <-]. unfold releases. rewrite filter_app.
        cbn. apply app_nil_r. }
    destruct (malloc_ok (sl idx)); cbn [negb].
    2:{ intros [= <- <- <-]. unfold releases. rewrite !filter_app.
        cbn. rewrite !app_nil_r. reflexivity. }
    destruct (negb (submit_ret (sl idx) =? 0)).
    + intros [= <- <- <-]. unfold releases. rewrite !filter_app.
      cbn. rewrite !app_nil_r. reflexivity.
    + intros H. rewrite (IH _ _ _ _ _ _ _ _ H).
      unfold releases. rewrite !filter_app. cbn. rewrite !app_nil_r.
      reflexivity.
Qed.

(** C8.  A pool of three transfers whose third buffer cannot be
    allocated: the call returns [LIBUSB_ERROR_NO_MEM] after freeing the
    array of pointers only; transfers 0 and 1 stay submitted with their
    buffers, transfer 2 stays allocated, nothing is released. *)
Theorem C8_setup_failure_releases_only_the_array :
  final_log (ftdi_stream_read keep_going ft232h 0%nat 8 3 third_buffer_fails)
  = [EvSetBitmode 255 BITMODE_RESET 0; EvTcioflush 0; EvCalloc 3 true;
     EvAllocTransfer 0 true; EvMalloc 0 4096 true; EvSubmit 0 (-1) 0;
     EvAllocTransfer 1 true; EvMalloc 1 4096 true; EvSubmit 1 (-1) 0;
     EvAllocTransfer 2 true; EvMalloc 2 4096 false;
     EvStderr "cleanup\n"; EvFreeArray]
  /\ releases
       (final_log
          (ftdi_stream_read keep_going ft232h 0%nat 8 3 third_buffer_fails))
     = []
  /\ returned
       (ftdi_stream_read keep_going ft232h 0%nat 8 3 third_buffer_fails)
     = Some LIBUSB_ERROR_NO_MEM.
Proof.
  repeat split; vm_compute; reflexivity.
Qed.

(** ** Return codes *)

Lemma setup_loop_through (n : nat) :
  forall idx bs sl err l e l',
    setup_loop n idx bs sl err l = (e, false, l') ->
    forall i, (idx <= i < idx + n)%nat ->
      alloc_ok (sl i) = true /\ malloc_ok (sl i) = true
      /\ submit_ret (sl i) = 0.
Proof.
  induction n as [|n IH]; intros idx bs sl err l e l'.
  - intros _ i Hi. lia.
  - cbn [setup_loop].
    destruct (alloc_ok (sl idx)) eqn:Ha; cbn [negb]; [|discriminate].
    destruct (malloc_ok (sl idx)) eqn:Hm; cbn [negb]; [|discriminate].
    destruct (Z.eqb_spec (submit_ret (sl idx)) 0) as [Hr|Hr]; cbn [negb];
      [|discriminate].
    intros H i Hi.
    destruct (Nat.eq_dec i idx) as [->|Hne]; [auto|].
    apply (IH _ _ _ _ _ _ _ H). lia.
Qed.

Section ErrorFree.

Context {U : Type} (callback : cb_arg -> U -> Z * U).
Variable ftdi : ftdi_context.

Lemma handler_fine (t : libusb_transfer) (w w' : world U) :
  transfer_fine t -> result (st w) = 0 ->
  ftdi_stream_read_cb callback t w = Some w' -> result (st w') = 0.
Proof.
  intros (Hst & Hret) Hres H.
  destruct (handler_ends callback t w w' H)
    as [m _ _ -> |m _ (_ & _ & Hr & _) -> |Hne _].
  - cbn. exact Hret.
  - cbn [emit st]. rewrite Hr. exact Hres.
  - contradiction.
Qed.

Lemma run_completions_fine (cs : list libusb_transfer) :
  forall w w' : world U,
    Forall transfer_fine cs -> result (st w) = 0 ->
    run_completions callback cs w = Some w' -> result (st w') = 0.
Proof.
  induction cs as [|c cs IH]; intros w w' Hcs Hres; cbn [run_completions].
  - intros [= <-]. exact Hres.
  - inversion Hcs as [|? ? Hc Hcs']; subst.
    destruct (ftdi_stream_read_cb callback c w) as [w1|] eqn:E;
      [|discriminate].
    apply IH; [exact Hcs'|]. eapply handler_fine; eassumption.
Qed.

Lemma handle_events_fine (d : dispatch) (w w' : world U) :
  Forall transfer_fine (completions d) -> result (st w) = 0 ->
  handle_events_timeout callback ftdi d w = Some w' -> result (st w') = 0.
Proof.
  intros Hd Hres. unfold handle_events_timeout.
  destruct (run_completions callback (completions d) w) as [w1|] eqn:E;
    [|discriminate].
  intros [= <-]. cbn [emit st].
  eapply run_completions_fine; eassumption.
Qed.

Lemma wait_events_fine (it : iteration) (w w1 : world U) (e : Z) :
  iteration_fine it -> result (st w) = 0 ->
  wait_events callback ftdi it w = Some (e, w1) ->
  e = 0 /\ result (st w1) = 0.
Proof.
  intros (He & H1 & H2) Hres. unfold wait_events.
  destruct (handle_events_timeout callback ftdi (first_wait it) w)
    as [wa|] eqn:Ea; [|discriminate].
  pose proof (handle_events_fine _ _ _ H1 Hres Ea) as Hra.
  unfold xfer_err_of in He.
  destruct (events_ret (first_wait it) =? LIBUSB_ERROR_INTERRUPTED).
  - destruct (handle_events_timeout callback ftdi (retry_wait it) wa)
      as [wb|] eqn:Eb; [|discriminate].
    intros [= <- <-]. split; [exact He|].
    eapply handle_events_fine; eassumption.
  - intros [= <- <-]. auto.
Qed.

Lemma loop_body_fine (it : iteration) (w w' : world U) :
  iteration_fine it -> result (st w) = 0 ->
  loop_body callback ftdi it w = Some w' ->
  result (st w') = 0 \/ result (st w') = 1.
Proof.
  intros Hit Hres. unfold loop_body.
  destruct (wait_events callback ftdi it w) as [[e w1]|] eqn:E;
    [|discriminate].
  destruct (wait_events_fine it w w1 e Hit Hres E) as (-> & Hr1).
  intros [= <-].
  match goal with |- context [progress_step _ _ ?x] =>
    destruct (progress_step_keeps callback (now it) x) as (_ & _ & ->) end.
  cbn [with_st st]. unfold adopt_error. rewrite Hr1. cbn [Z.eqb].
  unfold stall_check. cbn [set_result activity result].
  destruct (activity (st w1) =? 0); cbn; auto.
Qed.

Lemma stream_loop_fine (its : list iteration) :
  forall w w' : world U,
    Forall iteration_fine its -> result (st w) = 0 ->
    stream_loop callback ftdi its w = Done w' -> result (st w') = 1.
Proof.
  induction its as [|it its IH]; intros w w' Hits Hres; cbn [stream_loop].
  - discriminate.
  - inversion Hits as [|? ? Hit Hits']; subst.
    destruct (loop_body callback ftdi it w) as [w1|] eqn:E; [|discriminate].
    destruct (loop_body_fine it w w1 Hit Hres E) as [H0|H1].
    + rewrite H0. cbn [Z.eqb negb]. apply IH; assumption.
    + rewrite H1. cbn [Z.eqb negb]. intros [= <-]. exact H1.
Qed.

End ErrorFree.

Lemma returned_done {U : Type} (p : Z * world U) :
  returned (Done p) = Some (fst p).
Proof. destruct p. reflexivity. Qed.

(** The call returns 0 only through the failure of the switch to
    [BITMODE_SYNCFF] after a setup without failure. *)
Lemma zero_only_after_syncff_failure {U : Type}
    (callback : cb_arg -> U -> Z * U) (ftdi : ftdi_context) (userdata : U)
    (ppt nt : Z) (env : environment) :
  returned (ftdi_stream_read callback ftdi userdata ppt nt env) = Some 0 ->
  pool_primed ftdi nt env /\ syncff_ret env < 0.
Proof.
  unfold ftdi_stream_read.
  destruct (negb (chip_eqb (type ftdi) TYPE_2232H)
            && negb (chip_eqb (type ftdi) TYPE_232H)) eqn:Echip;
    [cbn; discriminate|].
  assert (Hsup : supported ftdi).
  { unfold supported. destruct (type ftdi); try discriminate Echip; auto. }
  destruct (Z.ltb_spec (reset_ret env) 0) as [?|Hreset]; [cbn; discriminate|].
  destruct (Z.ltb_spec (flush_ret env) 0) as [?|Hflush]; [cbn; discriminate|].
  destruct (calloc_ok env) eqn:Hcalloc; cbn [negb];
    [|rewrite returned_done, cleanup_ret; cbn; discriminate].
  destruct (setup_loop _ _ _ _ _ _) as [[e j] l'] eqn:Es.
  pose proof (setup_loop_err _ _ _ _ _ _ _ _ _ eq_refl Es) as He.
  destruct j.
  - rewrite returned_done, cleanup_ret.
    destruct (Z.eqb_spec e 0); [contradiction|]. intros [= ->]. contradiction.
  - subst e.
    assert (Hprimed : pool_primed ftdi nt env).
    { unfold pool_primed, slots_fine. repeat split; try assumption;
        apply (setup_loop_through _ _ _ _ _ _ _ _ Es i); lia. }
    destruct (Z.ltb_spec (syncff_ret env) 0) as [Hsync|Hsync]; [auto|].
    destruct (stream_loop _ _ _ _) as [w'| |] eqn:El;
      [|cbn; discriminate..].
    rewrite returned_done, cleanup_ret. cbn [Z.eqb].
    intros [= H0]. apply stream_loop_done in El. contradiction.
Qed.

(** C2 (amended).  Whenever the call returns [r]: [r] is 0 only if setup
    got as far as the switch to [BITMODE_SYNCFF] and that switch failed, so
    every return from the streaming loop, and every return caused by an
    unsupported device or a failed reset, flush, allocation or submission,
    is non-zero; and when the loop was entered and no I/O failure occurred
    (every wait returned 0, every completion had success status, every
    resubmission was accepted), so that the session can only have ended
    after the consumer's stop, [r] is the 1 set by the stall check. *)
Theorem C2_return_codes {U : Type} (callback : cb_arg -> U -> Z * U)
    (ftdi : ftdi_context) (userdata : U)
    (packets_per_transfer num_transfers : Z) (env : environment) (r : Z) :
  returned (ftdi_stream_read callback ftdi userdata packets_per_transfer
              num_transfers env) = Some r ->
  (r = 0 -> pool_primed ftdi num_transfers env /\ syncff_ret env < 0)
  /\ (pool_primed ftdi num_transfers env -> 0 <= syncff_ret env ->
      error_free env -> r = 1).
Proof.
  intros Hret. split.
  - intros ->. eapply zero_only_after_syncff_failure. exact Hret.
  - intros Hprimed Hsync Hfree.
    rewrite (stream_read_primed callback ftdi userdata _ _ env Hprimed Hsync)
      in Hret.
    destruct (stream_loop _ _ _ _) as [w'| |] eqn:El;
      [|discriminate Hret..].
    rewrite returned_done, cleanup_ret in Hret. cbn [Z.eqb] in Hret.
    injection Hret as <-.
    exact (stream_loop_fine callback ftdi (iterations env)
             (loop_entry ftdi userdata packets_per_transfer num_transfers env)
             w' Hfree eq_refl El).
Qed.

Lemma hundred_then_stop_fine : error_free hundred_then_stop.
Proof.
  unfold error_free, iteration_fine, transfer_fine, xfer_err_of.
  repeat constructor.
Defined.

(** The return code of the 100-completions-then-stop session. *)
Lemma C2_return_codes_witness :
  error_free hundred_then_stop
  /\ returned (ftdi_stream_read (stop_after 800) ft232h 0%nat 8 4
                 hundred_then_stop) = Some 1.
Proof.
  split; [exact hundred_then_stop_fine|].
  destruct (ftdi_stream_read (stop_after 800) ft232h 0%nat 8 4
              hundred_then_stop) as [[r w]| |] eqn:E;
    [|vm_compute in E; discriminate E..].
  cbn [returned]. f_equal.
  apply (C2_return_codes (stop_after 800) ft232h 0%nat 8 4
           hundred_then_stop r).
  - rewrite E. reflexivity.
  - apply smooth_primed.
  - cbn. lia.
  - exact hundred_then_stop_fine.
Defined.

(** C2, as stated, fails on the scenario of the specification: four
    transfers of eight 512-byte packets, a consumer that returns 0 during
    100 completions and 1 afterwards, no I/O error.  The transfers are
    resubmitted 100 times (104 submissions with the four of the setup),
    the next completion is released, and the call returns 1, not 0. *)
Lemma C2_consumer_stop_returns_one :
  returned (ftdi_stream_read (stop_after 800) ft232h 0%nat 8 4
              hundred_then_stop) = Some 1
  /\ returned (ftdi_stream_read (stop_after 800) ft232h 0%nat 8 4
                 hundred_then_stop) <> Some 0
  /\ error_free hundred_then_stop
  /\ length (filter is_submit
               (final_log (ftdi_stream_read (stop_after 800) ft232h 0%nat 8 4
                             hundred_then_stop))) = 104%nat
  /\ releases (final_log (ftdi_stream_read (stop_after 800) ft232h 0%nat 8 4
                            hundred_then_stop))
     = [EvFreeBuffer 0; EvFreeTransfer 0].
Proof.
  assert (H : returned (ftdi_stream_read (stop_after 800) ft232h 0%nat 8 4
                          hundred_then_stop) = Some 1)
    by (vm_compute; reflexivity).
  split; [exact H|]. split; [rewrite H; discriminate|].
  split; [exact hundred_then_stop_fine|].
  split; vm_compute; reflexivity.
Qed.

(** ** Periodic reports *)

Lemma last_view_snoc (vs : list ftdi_stream_progress) :
  forall last v, last_view last (vs ++ [v]) = v.
Proof.
  induction vs as [|a vs IH]; intros last v; cbn; [reflexivity|apply IH].
Qed.

Lemma reports_chain_snoc (vs : list ftdi_stream_progress) :
  forall last v,
    reports_chain last vs -> report_follows (last_view last vs) v ->
    reports_chain last (vs ++ [v]).
Proof.
  induction vs as [|a vs IH]; intros last v Hc Hf; cbn in *.
  - auto.
  - destruct Hc as (Ha & Hc). split; [exact Ha|]. apply IH; assumption.
Qed.

Lemma progress_view_follows (now : timespec) (p last : ftdi_stream_progress) :
  prev p = current last ->
  total_rate p = total_rate last -> current_rate p = current_rate last ->
  report_follows last (progress_view now p).
Proof.
  intros Hprev Htr Hcr. unfold report_follows, progress_view.
  cbn [set_current set_total_time prev current first time total_time].
  rewrite <- Hprev.
  destruct (total_bytes (prev p) =? 0); cbn; rewrite <- ?Htr, <- ?Hcr; auto.
Qed.

Section Reports.

Context {U : Type} (callback : cb_arg -> U -> Z * U).
Variable ftdi : ftdi_context.

Lemma keeps_reports_refl (w : world U) : keeps_reports w w.
Proof. unfold keeps_reports. auto. Qed.

Lemma keeps_reports_trans (w1 w2 w3 : world U) :
  keeps_reports w1 w2 -> keeps_reports w2 w3 -> keeps_reports w1 w3.
Proof.
  unfold keeps_reports. intros (A1 & A2 & A3 & A4) (B1 & B2 & B3 & B4).
  repeat split; congruence.
Qed.

Lemma keeps_reports_inv (w w' : world U) :
  keeps_reports w w' -> reports_inv w -> reports_inv w'.
Proof.
  unfold keeps_reports, reports_inv. cbv zeta.
  intros (A1 & A2 & A3 & A4) (B1 & B2 & B3 & B4).
  rewrite A1, A2, A3, A4. auto.
Qed.

Lemma data_only_keeps_reports (w w' : world U) :
  data_only w w' -> keeps_reports w w'.
Proof.
  intros (_ & _ & _ & (_ & Hp & _ & _ & Htr & Hcr) & ds & Hl & _ & Hv).
  unfold keeps_reports. rewrite Hl, progress_views_app, Hv, app_nil_r. auto.
Qed.

Lemma handler_keeps_reports (t : libusb_transfer) (w w' : world U) :
  ftdi_stream_read_cb callback t w = Some w' -> keeps_reports w w'.
Proof.
  intros H. destruct (handler_ends callback t w w' H)
    as [m _ Hd -> |m _ Hd -> |_ ->].
  - apply data_only_keeps_reports in Hd. unfold keeps_reports in *.
    cbn [with_st emit st log set_result progress set_activity] in *.
    rewrite progress_views_app, app_nil_r. exact Hd.
  - apply data_only_keeps_reports in Hd. unfold keeps_reports in *.
    cbn [with_st emit st log set_result progress set_activity] in *.
    rewrite progress_views_app, app_nil_r. exact Hd.
  - unfold keeps_reports. cbn [with_st emit st log set_result progress
                               set_activity].
    rewrite progress_views_app, app_nil_r. auto.
Qed.

Lemma run_completions_keeps_reports (cs : list libusb_transfer) :
  forall w w' : world U,
    run_completions callback cs w = Some w' -> keeps_reports w w'.
Proof.
  induction cs as [|c cs IH]; intros w w'; cbn [run_completions].
  - intros [= <-]. apply keeps_reports_refl.
  - destruct (ftdi_stream_read_cb callback c w) as [w1|] eqn:E;
      [|discriminate].
    intros H. eapply keeps_reports_trans; [|apply IH; exact H].
    eapply handler_keeps_reports. exact E.
Qed.

Lemma handle_events_keeps_reports (d : dispatch) (w w' : world U) :
  handle_events_timeout callback ftdi d w = Some w' -> keeps_reports w w'.
Proof.
  unfold handle_events_timeout.
  destruct (run_completions callback (completions d) w) as [w1|] eqn:E;
    [|discriminate].
  intros [= <-]. apply run_completions_keeps_reports in E.
  unfold keeps_reports in *. cbn [emit st log].
  rewrite progress_views_app, app_nil_r. exact E.
Qed.

Lemma wait_events_keeps_reports (it : iteration) (w w1 : world U) (e : Z) :
  wait_events callback ftdi it w = Some (e, w1) -> keeps_reports w w1.
Proof.
  unfold wait_events.
  destruct (handle_events_timeout callback ftdi (first_wait it) w)
    as [wa|] eqn:Ea; [|discriminate].
  apply handle_events_keeps_reports in Ea.
  destruct (events_ret (first_wait it) =? LIBUSB_ERROR_INTERRUPTED).
  - destruct (handle_events_timeout callback ftdi (retry_wait it) wa)
      as [wb|] eqn:Eb; [|discriminate].
    apply handle_events_keeps_reports in Eb.
    intros [= <- <-]. eapply keeps_reports_trans; eassumption.
  - intros [= <- <-]. exact Ea.
Qed.

Lemma progress_step_inv (now : timespec) (w : world U) :
  reports_inv w -> reports_inv (progress_step callback now w).
Proof.
  intros (Hc & Hp & Htr & Hcr). unfold progress_step.
  destruct (report_due now (progress (st w))); [|repeat split; assumption].
  destruct (callback _ _) as [r u].
  unfold reports_inv.
  cbn [with_st emit with_ud st log set_progress progress set_prev prev
       total_rate current_rate].
  rewrite progress_views_app. cbn [progress_views].
  rewrite last_view_snoc.
  repeat split.
  apply reports_chain_snoc; [exact Hc|].
  apply progress_view_follows; assumption.
Qed.

Lemma loop_body_inv (it : iteration) (w w' : world U) :
  reports_inv w -> loop_body callback ftdi it w = Some w' -> reports_inv w'.
Proof.
  intros Hinv. unfold loop_body.
  destruct (wait_events callback ftdi it w) as [[e w1]|] eqn:E;
    [|discriminate].
  apply wait_events_keeps_reports in E.
  intros [= <-]. apply progress_step_inv.
  eapply keeps_reports_inv; [|exact Hinv].
  eapply keeps_reports_trans; [exact E|].
  unfold keeps_reports, adopt_error, stall_check. cbn [with_st st log].
  destruct (result (st w1) =? 0);
    match goal with |- context [activity ?s =? 0] =>
      destruct (activity s =? 0) end; cbn; auto.
Qed.

Lemma stream_loop_inv (its : list iteration) :
  forall w : world U,
    reports_inv w ->
    match stream_loop callback ftdi its w with
    | Done w' => reports_inv w'
    | Pending w' => reports_inv w'
    | Trapped => True
    end.
Proof.
  induction its as [|it its IH]; intros w Hinv; cbn [stream_loop].
  - exact Hinv.
  - destruct (loop_body callback ftdi it w) as [w1|] eqn:E; [|exact I].
    pose proof (loop_body_inv it w w1 Hinv E) as H1.
    destruct (negb (result (st w1) =? 0)); [exact H1|apply IH; exact H1].
Qed.

End Reports.

Lemma setup_loop_no_views (n : nat) :
  forall idx bs sl err l e j l',
    setup_loop n idx bs sl err l = (e, j, l') ->
    progress_views l' = progress_views l.
Proof.
  induction n as [|n IH]; intros idx bs sl err l e j l'.
  - cbn. intros [= <- <- <-]. reflexivity.
  - cbn [setup_loop].
    destruct (alloc_ok (sl idx)); cbn [negb].
    2:{ intros [= <- <- <-]. rewrite progress_views_app. apply app_nil_r. }
    destruct (malloc_ok (sl idx)); cbn [negb].
    2:{ intros [= <- <- <-]. rewrite !progress_views_app.
        cbn. rewrite !app_nil_r. reflexivity. }
    destruct (negb (submit_ret (sl idx) =? 0)).
    + intros [= <- <- <-]. rewrite !progress_views_app.
      cbn. rewrite !app_nil_r. reflexivity.
    + intros H. rewrite (IH _ _ _ _ _ _ _ _ H), !progress_views_app.
      cbn. rewrite !app_nil_r. reflexivity.
Qed.

Lemma final_log_done {U : Type} (p : Z * world U) :
  final_log (Done p) = log (snd p).
Proof. destruct p. reflexivity. Qed.

Lemma cleanup_views {U : Type} (transfers : bool) (err : Z) (w : world U) :
  progress_views (log (snd (cleanup transfers err w)))
  = progress_views (log w).
Proof.
  unfold cleanup. destruct (negb (err =? 0)), transfers; cbn [snd emit log];
    rewrite !progress_views_app; cbn; rewrite !app_nil_r; reflexivity.
Qed.

(** The reports of any run follow one another as [report_follows] says. *)
Lemma reports_of_a_run {U : Type} (callback : cb_arg -> U -> Z * U)
    (ftdi : ftdi_context) (userdata : U) (ppt nt : Z) (env : environment) :
  reports_chain zero_progress
    (progress_views
       (final_log (ftdi_stream_read callback ftdi userdata ppt nt env))).
Proof.
  unfold ftdi_stream_read.
  destruct (negb (chip_eqb (type ftdi) TYPE_2232H)
            && negb (chip_eqb (type ftdi) TYPE_232H));
    [exact I|].
  destruct (reset_ret env <? 0); [exact I|].
  destruct (flush_ret env <? 0); [exact I|].
  destruct (negb (calloc_ok env)).
  { rewrite final_log_done, cleanup_views. exact I. }
  destruct (setup_loop _ _ _ _ _ _) as [[e j] l'] eqn:Es.
  pose proof (setup_loop_no_views _ _ _ _ _ _ _ _ _ Es) as Hv.
  cbn in Hv.
  destruct j.
  { rewrite final_log_done, cleanup_views. cbn [log]. rewrite Hv. exact I. }
  destruct (syncff_ret env <? 0).
  { rewrite final_log_done, cleanup_views. cbn [emit log].
    rewrite !progress_views_app, Hv. exact I. }
  match goal with |- context [stream_loop callback ftdi ?its ?w] =>
    pose proof (stream_loop_inv callback ftdi its w) as Hloop;
    destruct (stream_loop callback ftdi its w) as [w'|w'|]
  end.
  - rewrite final_log_done, cleanup_views. apply Hloop.
    unfold reports_inv. cbn [with_st emit log st].
    rewrite !progress_views_app, Hv. cbn. auto.
  - apply Hloop.
    unfold reports_inv. cbn [with_st emit log st].
    rewrite !progress_views_app, Hv. cbn. auto.
  - exact I.
Qed.

(** C6 (amended).  In every run, the records handed to the consumer on
    the periodic reports satisfy: on the first report both rate fields
    still hold their initial 0 (they are not computed); on every later
    report both are computed from the record, as
    [current.total_bytes / total_time] and
    [(current.total_bytes - prev.total_bytes) / (current.time - prev.time)],
    when the byte count at the report before was non-zero, and are left
    as that report showed them when it was zero. *)
Theorem C6_rates_per_report {U : Type} (callback : cb_arg -> U -> Z * U)
    (ftdi : ftdi_context) (userdata : U)
    (packets_per_transfer num_transfers : Z) (env : environment) :
  let vs :=
    progress_views
      (final_log (ftdi_stream_read callback ftdi userdata
                    packets_per_transfer num_transfers env)) in
  reports_chain zero_progress vs
  /\ match vs with
     | v :: _ => total_rate v = 0%float /\ current_rate v = 0%float
     | [] => True
     end.
Proof.
  cbv zeta.
  pose proof (reports_of_a_run callback ftdi userdata packets_per_transfer
                num_transfers env) as Hc.
  split; [exact Hc|].
  destruct (progress_views _) as [|v vs]; [exact I|].
  destruct Hc as ((_ & _ & Hr) & _). exact Hr.
Qed.

(** C6, as stated, fails when nothing was received by the time of the
    first report: here the first wait completes nothing, the second one a
    transfer of 512 bytes, two seconds later.  The second report shows 510
    bytes in 2 s and both rates still 0, while the computed rates would be
    255 bytes per second. *)
Lemma C6_second_report_without_rates :
  exists (w : world nat) (v1 v2 : ftdi_stream_progress),
    ftdi_stream_read keep_going ft232h 0%nat 1 1
      (smooth [iteration_at [] 1700000000;
               iteration_at [completed 0 512] 1700000002]) = Pending w
    /\ progress_views (log w) = [v1; v2]
    /\ total_bytes (current v2) = 510
    /\ total_time v2 = 2%float
    /\ total_rate v2 = 0%float /\ current_rate v2 = 0%float
    /\ PrimFloat.div (Z2float (total_bytes (current v2))) (total_time v2)
       = 255%float
    /\ total_rate v2 <>
       PrimFloat.div (Z2float (total_bytes (current v2))) (total_time v2).
Proof.
  eexists. eexists. eexists.
  split; [vm_compute; reflexivity|].
  split; [vm_compute; reflexivity|].
  split; [reflexivity|]. split; [reflexivity|].
  split; [reflexivity|]. split; [reflexivity|].
  split; [vm_compute; reflexivity|].
  intros H. apply (f_equal (PrimFloat.ltb 0%float)) in H.
  vm_compute in H. discriminate H.
Qed.

(** The ordinary case: 512 bytes arrive before the first report and 512
    more before the second one, two seconds later.  The second report
    shows 1020 bytes in 2 s, 510 bytes per second overall and 255 bytes per
    second since the first report. *)
Example rates_on_the_second_report :
  exists (w : world nat) (v1 v2 : ftdi_stream_progress),
    ftdi_stream_read keep_going ft232h 0%nat 1 1
      (smooth [iteration_at [completed 0 512] 1700000000;
               iteration_at [completed 0 512] 1700000002]) = Pending w
    /\ progress_views (log w) = [v1; v2]
    /\ ftdi_stream_total_rate v1 = 0%float
    /\ ftdi_stream_current_rate v1 = 0%float
    /\ ftdi_stream_total_bytes v2 = 1020
    /\ ftdi_stream_total_time v2 = 2%float
    /\ ftdi_stream_total_rate v2 = 510%float
    /\ ftdi_stream_current_rate v2 = 255%float.
Proof.
  eexists. eexists. eexists.
  split; [vm_compute; reflexivity|].
  split; [vm_compute; reflexivity|].
  repeat split.
Qed.

(** * Further properties of the handler and the driver *)

(** ** The packet loop and the byte counter *)

Lemma to_uint64_idem (a b : Z) :
  to_uint64 (to_uint64 a + b) = to_uint64 (a + b).
Proof. unfold to_uint64. apply Zplus_mod_idemp_l. Qed.

Lemma sum_Z_app (l1 l2 : list Z) : sum_Z (l1 ++ l2) = sum_Z l1 + sum_Z l2.
Proof.
  unfold sum_Z. induction l1 as [|a l1 IH]; cbn [app fold_right]; lia.
Qed.

Lemma payload_sum_app (l1 l2 : list event) :
  payload_sum (l1 ++ l2) = payload_sum l1 + payload_sum l2.
Proof.
  unfold payload_sum. rewrite data_calls_app, map_app. apply sum_Z_app.
Qed.

Section Accounting.

Context {U : Type} (callback : cb_arg -> U -> Z * U).

(** The packet loop logs data deliveries only, and adds to the byte
    counter exactly the lengths it hands to the consumer. *)
Lemma packet_loop_account (t : libusb_transfer) (P : Z) (n : nat) :
  forall s : pkt_state U,
    exists ds,
      log (ps_w (packet_loop callback n t P s)) = log (ps_w s) ++ ds
      /\ forallb is_data ds = true
      /\ to_uint64 (bytes_so_far (ps_w (packet_loop callback n t P s)))
         = to_uint64 (bytes_so_far (ps_w s) + payload_sum ds)
      /\ (in_uint64 (bytes_so_far (ps_w s)) ->
          in_uint64 (bytes_so_far (ps_w (packet_loop callback n t P s)))).
Proof.
  induction n as [|n IH]; intros s.
  - exists []. cbn [packet_loop]. rewrite app_nil_r.
    unfold payload_sum. cbn. rewrite Z.add_0_r. auto.
  - cbn [packet_loop].
    destruct (IH (packet_iter callback t P s)) as (ds & Hl & Hd & Hb & Hr).
    rewrite packet_iter_log in Hl. rewrite packet_iter_bytes in Hb, Hr.
    eexists (_ :: ds). split; [rewrite Hl, <- app_assoc; reflexivity|].
    split; [exact Hd|]. split.
    + rewrite Hb, to_uint64_idem.
      unfold payload_sum. cbn [data_calls map snd sum_Z fold_right].
      f_equal. unfold sum_Z. lia.
    + intros _. apply Hr. unfold in_uint64. apply Z.mod_pos_bound. lia.
Qed.

(** The same for a whole handler invocation. *)
Lemma handler_account (t : libusb_transfer) (w w' : world U) :
  ftdi_stream_read_cb callback t w = Some w' ->
  exists new,
    log w' = log w ++ new
    /\ forallb handler_event new = true
    /\ to_uint64 (bytes_so_far w')
       = to_uint64 (bytes_so_far w + payload_sum new)
    /\ (in_uint64 (bytes_so_far w) -> in_uint64 (bytes_so_far w')).
Proof.
  unfold ftdi_stream_read_cb.
  destruct (status t =? LIBUSB_TRANSFER_COMPLETED).
  - destruct (int_div _ _) as [numPackets|]; [|discriminate].
    set (s0 := {| ps_ptr := 0; ps_length := actual_length t; ps_res := 0;
                  ps_w := with_st _ w |}).
    destruct (packet_loop_account t (packetsize (st w))
                (Z.to_nat numPackets) s0) as (ds & Hl & Hd & Hb & Hr).
    cbn [ps_w s0 with_st log] in Hl.
    change (bytes_so_far (ps_w s0)) with (bytes_so_far w) in Hb, Hr.
    assert (Hev : forall fin, forallb handler_event fin = true ->
                    forallb handler_event (ds ++ fin) = true).
    { intros fin Hfin. rewrite forallb_app, Hfin, andb_true_r.
      clear -Hd. induction ds as [|e ds IH]; [reflexivity|].
      cbn [forallb] in *. apply andb_true_iff in Hd as (He & Hd).
      rewrite (IH Hd), andb_true_r. unfold handler_event. rewrite He.
      reflexivity. }
    assert (Hsum : forall fin, data_calls fin = [] ->
                     payload_sum (ds ++ fin) = payload_sum ds).
    { intros fin Hfin. rewrite payload_sum_app. unfold payload_sum at 2.
      rewrite Hfin. cbn. lia. }
    destruct (negb (ps_res _ =? 0)); intros [= <-].
    + eexists (ds ++ _). cbn [emit log]. rewrite Hl, <- app_assoc.
      split; [reflexivity|]. split; [apply Hev; reflexivity|].
      rewrite Hsum by reflexivity. split; [exact Hb|exact Hr].
    + eexists (ds ++ _). cbn [emit with_st log]. rewrite Hl, <- app_assoc.
      split; [reflexivity|]. split; [apply Hev; reflexivity|].
      rewrite Hsum by reflexivity. split; [exact Hb|exact Hr].
  - intros [= <-]. eexists. split; [reflexivity|].
    split; [reflexivity|]. unfold payload_sum. cbn. rewrite Z.add_0_r. auto.
Qed.

End Accounting.

(** ** A successful completion, step by step *)

Lemma data_calls_delivery_events (id : nat) (L P : Z) (n : nat) :
  data_calls (delivery_events id L P n) = deliveries L P n.
Proof.
  unfold delivery_events, deliveries.
  induction (seq 0 n) as [|i l IH]; cbn [map data_calls]; [reflexivity|].
  rewrite IH. reflexivity.
Qed.

(** The course of the handler on a transfer that completed with [L > 0]
    bytes: [n] full iterations, then the last one, then the release or
    the resubmission according to what the last call returned. *)
Lemma handler_success {U : Type} (callback : cb_arg -> U -> Z * U)
    (t : libusb_transfer) (w : world U) :
  let L := actual_length t in
  let P := packetsize (st w) in
  status t = LIBUSB_TRANSFER_COMPLETED ->
  0 < L -> 0 < P -> L + P <= INT_MAX ->
  exists (n : nat) (w' : world U),
    let s := packet_loop callback n t P (loop_start t w) in
    let s' := packet_iter callback t P s in
    Z.of_nat n * P < L <= (Z.of_nat n + 1) * P
    /\ ftdi_stream_read_cb callback t w = Some w'
    /\ ps_ptr s = Z.of_nat n * P
    /\ ps_length s = L - Z.of_nat n * P
    /\ (if ps_length s >? P then P else ps_length s) = packet_len L P n
    /\ log (ps_w s') = log w ++ delivery_events (xfer_id t) L P (S n)
    /\ (if ps_res s' =? 0
        then w' = with_st (set_result (resubmit_ret t) (st (ps_w s')))
                    (emit [EvSubmit (xfer_id t) (-1) (resubmit_ret t)]
                          (ps_w s'))
        else w' = emit (release_of (xfer_id t)) (ps_w s')).
Proof.
  intros L P Hst HL HP Hov.
  destruct (numPackets_spec L P HL HP Hov) as (n' & Hdiv & Hn').
  destruct n' as [|n]; [lia|].
  rewrite Nat2Z.inj_succ in Hn'.
  destruct (packet_loop_spec callback t P n (loop_start t w))
    as (Hptr & Hlen & _);
    try (cbn [ps_length loop_start]; unfold INT_MAX in *; lia).
  destruct (packet_loop_spec callback t P (S n) (loop_start t w))
    as (_ & _ & Hlog);
    try (cbn [ps_length loop_start]; unfold INT_MAX in *;
         rewrite ?Nat2Z.inj_succ; lia).
  cbn [ps_ptr ps_length ps_w loop_start with_st log] in Hptr, Hlen, Hlog.
  fold L in Hptr, Hlen, Hlog.
  rewrite packet_loop_last in Hlog.
  set (s := packet_loop callback n t P (loop_start t w)) in *.
  set (s' := packet_iter callback t P s) in *.
  assert (Hcb : ftdi_stream_read_cb callback t w =
                if negb (ps_res s' =? 0)
                then Some (emit (release_of (xfer_id t)) (ps_w s'))
                else Some (with_st (set_result (resubmit_ret t)
                                      (st (ps_w s')))
                             (emit [EvSubmit (xfer_id t) (-1)
                                      (resubmit_ret t)] (ps_w s')))).
  { unfold ftdi_stream_read_cb. fold P. fold L.
    rewrite Hst, Z.eqb_refl, Hdiv, Nat2Z.id, packet_loop_last.
    reflexivity. }
  assert (Hmin : Z.min L (Z.of_nat n * P) = Z.of_nat n * P) by lia.
  rewrite Hmin in Hptr, Hlen.
  assert (Hpl : (if ps_length s >? P then P else ps_length s)
                = packet_len L P n).
  { rewrite Hlen. unfold packet_len.
    destruct (Z.gtb_spec (L - Z.of_nat n * P) P); lia. }
  assert (Hlog' : log (ps_w s')
                  = log w ++ delivery_events (xfer_id t) L P (S n)).
  { rewrite Hlog. reflexivity. }
  exists n.
  destruct (ps_res s' =? 0) eqn:E; cbn [negb] in Hcb; eexists; cbv zeta;
    change (packet_loop callback n t P (loop_start t w)) with s;
    change (packet_iter callback t P s) with s'; rewrite E;
    (split; [clear -Hn'; nia|]); (split; [exact Hcb|]);
    (split; [lia|]); (split; [exact Hlen|]);
    (split; [exact Hpl|]); (split; [exact Hlog'|]); reflexivity.
Qed.

(** ** What one handler invocation changes *)

(** Every handler invocation that returns leaves the packet size alone,
    adds one to the activity counter (as an [int]) and, in the progress
    record, changes nothing but [current.total_bytes]: the samples
    [first] and [prev], the time of [current], [total_time] and both
    rates are as before. *)
Theorem handler_touches_only_counters {U : Type}
    (callback : cb_arg -> U -> Z * U) (t : libusb_transfer)
    (w w' : world U) :
  ftdi_stream_read_cb callback t w = Some w' ->
  packetsize (st w') = packetsize (st w)
  /\ activity (st w') = int_add (activity (st w)) 1
  /\ frozen (progress (st w)) (progress (st w')).
Proof.
  intros H. destruct (handler_ends callback t w w' H)
    as [m _ (Hp & Ha & _ & Hf & _) -> |m _ (Hp & Ha & _ & Hf & _) -> |_ ->];
    cbn [with_st emit st set_result set_activity packetsize activity
         progress] in *; auto using frozen_refl.
Qed.

(** At a transfer of 1025 bytes from the start of a session. *)
Lemma handler_touches_only_counters_witness :
  exists w' : world nat,
    ftdi_stream_read_cb keep_going (completed 0 1025) session_start = Some w'
    /\ packetsize (st w') = 512 /\ activity (st w') = 2
    /\ prev (progress (st w')) = zero_sample.
Proof.
  destruct (ftdi_stream_read_cb keep_going (completed 0 1025) session_start)
    as [w'|] eqn:E; [|vm_compute in E; discriminate E].
  destruct (handler_touches_only_counters keep_going (completed 0 1025)
              session_start w' E) as (Hp & Ha & _ & Hprev & _).
  exists w'. split; [reflexivity|]. split; [exact Hp|].
  split; [exact Ha|exact Hprev].
Defined.

(** A transfer that completed with no data ([actual_length] 0): the
    consumer is not called, the byte counter stays, and the transfer is
    resubmitted; the result code becomes what the resubmission answers. *)
Theorem empty_transfer_is_resubmitted {U : Type}
    (callback : cb_arg -> U -> Z * U) (t : libusb_transfer) (w : world U) :
  status t = LIBUSB_TRANSFER_COMPLETED ->
  actual_length t = 0 ->
  0 < packetsize (st w) <= INT_MAX ->
  ftdi_stream_read_cb callback t w =
  Some {| st := set_result (resubmit_ret t)
                  (set_activity (int_add (activity (st w)) 1) (st w));
          ud := ud w;
          log := log w ++ [EvSubmit (xfer_id t) (-1) (resubmit_ret t)] |}.
Proof.
  intros Hst HL HP. unfold ftdi_stream_read_cb. rewrite Hst, HL, Z.eqb_refl.
  unfold int_add, int_sub. cbn [Z.add].
  rewrite (to_int_id (packetsize (st w))) by int_range.
  rewrite to_int_id by int_range.
  unfold int_div.
  destruct (Z.eqb_spec (packetsize (st w)) 0); [lia|].
  destruct (Z.eqb_spec (packetsize (st w)) (-1)); [lia|].
  rewrite andb_false_r. cbn [orb].
  rewrite Z.quot_small by lia. reflexivity.
Qed.

Lemma empty_transfer_is_resubmitted_witness :
  0 < packetsize (st session_start) <= INT_MAX
  /\ exists w' : world nat,
       ftdi_stream_read_cb keep_going (completed 3 0) session_start = Some w'
       /\ log w' = [EvSubmit 3 (-1) 0] /\ ud w' = 0%nat.
Proof.
  assert (HP : 0 < packetsize (st session_start) <= INT_MAX)
    by (cbn; unfold INT_MAX; lia).
  split; [exact HP|].
  eexists. split.
  - apply (empty_transfer_is_resubmitted keep_going (completed 3 0)
             session_start eq_refl eq_refl HP).
  - split; reflexivity.
Defined.

(** ** The byte counter and the regions handed to the consumer *)

(** The byte counter after a transfer of [L > 0] bytes cut into [n]
    packets, modulo 2^64. *)
Lemma handler_payload {U : Type} (callback : cb_arg -> U -> Z * U)
    (t : libusb_transfer) (w : world U) :
  let L := actual_length t in
  let P := packetsize (st w) in
  status t = LIBUSB_TRANSFER_COMPLETED ->
  0 < L -> 0 < P -> L + P <= INT_MAX ->
  exists (n : nat) (w' : world U),
    ftdi_stream_read_cb callback t w = Some w'
    /\ (Z.of_nat n - 1) * P < L <= Z.of_nat n * P
    /\ to_uint64 (bytes_so_far w')
       = to_uint64 (bytes_so_far w + (L - 2 * Z.of_nat n))
    /\ (in_uint64 (bytes_so_far w) -> in_uint64 (bytes_so_far w')).
Proof.
  intros L P Hst HL HP Hov.
  destruct (handler_success callback t w Hst HL HP Hov)
    as (n & w' & Hn & Hcb & _ & _ & _ & Hlog & Hend).
  cbv zeta in Hlog, Hend.
  destruct (handler_account callback t w w' Hcb)
    as (new & Hnew & _ & Hb & Hr).
  exists (S n), w'. rewrite Nat2Z.inj_succ.
  split; [exact Hcb|]. split; [fold L P; lia|]. split; [|exact Hr].
  rewrite Hb. f_equal. f_equal.
  assert (Hd : data_calls new = deliveries L P (S n)).
  { destruct (ps_res _ =? 0); subst w';
      cbn [emit with_st log] in Hnew; rewrite Hlog, <- app_assoc in Hnew;
      apply app_inv_head in Hnew; subst new;
      rewrite data_calls_app, data_calls_delivery_events;
      apply app_nil_r. }
  unfold payload_sum. rewrite Hd, deliveries_sum; fold L P;
    rewrite ?Nat2Z.inj_succ; lia.
Qed.

(** A transfer of [L > 0] bytes cut into [n] packets advances the byte
    counter by the payload it delivered, [L - 2 n], in [uint64_t]
    arithmetic. *)
Theorem handler_byte_count {U : Type} (callback : cb_arg -> U -> Z * U)
    (t : libusb_transfer) (w : world U) :
  let L := actual_length t in
  let P := packetsize (st w) in
  status t = LIBUSB_TRANSFER_COMPLETED ->
  0 < L -> 0 < P -> L + P <= INT_MAX ->
  in_uint64 (bytes_so_far w) ->
  exists (n : nat) (w' : world U),
    ftdi_stream_read_cb callback t w = Some w'
    /\ (Z.of_nat n - 1) * P < L <= Z.of_nat n * P
    /\ bytes_so_far w' = to_uint64 (bytes_so_far w + (L - 2 * Z.of_nat n)).
Proof.
  intros L P Hst HL HP Hov Hrange.
  destruct (handler_payload callback t w Hst HL HP Hov)
    as (n & w' & Hcb & Hn & Hb & Hr).
  exists n, w'. split; [exact Hcb|]. split; [exact Hn|].
  rewrite <- (to_uint64_id (bytes_so_far w')) by (apply Hr, Hrange).
  exact Hb.
Qed.

Lemma handler_byte_count_witness :
  in_uint64 (bytes_so_far session_start)
  /\ exists w' : world nat,
       ftdi_stream_read_cb keep_going (completed 0 1025) session_start
       = Some w'
       /\ bytes_so_far w' = 1019.
Proof.
  assert (Hr : in_uint64 (bytes_so_far session_start))
    by (unfold in_uint64; cbn; lia).
  assert (H4 : 1025 + 512 <= INT_MAX) by (unfold INT_MAX; lia).
  split; [exact Hr|].
  destruct (handler_byte_count keep_going (completed 0 1025) session_start
              eq_refl eq_refl eq_refl H4 Hr) as (n & w' & Hcb & Hn & Hb).
  exists w'. split; [exact Hcb|].
  assert (n = 3%nat) by (cbn in Hn; lia). subst n.
  rewrite Hb. reflexivity.
Defined.

(** When every packet holds its two header bytes (packet size at least 2
    and no final packet of one byte) and the counter does not wrap, the
    handler does not lower [current.total_bytes]. *)
Theorem whole_packets_never_lower_the_count {U : Type}
    (callback : cb_arg -> U -> Z * U) (t : libusb_transfer) (w : world U) :
  let L := actual_length t in
  let P := packetsize (st w) in
  status t = LIBUSB_TRANSFER_COMPLETED ->
  0 < L -> 2 <= P -> L + P <= INT_MAX -> L mod P <> 1 ->
  0 <= bytes_so_far w -> bytes_so_far w + L < 2 ^ 64 ->
  exists w' : world U,
    ftdi_stream_read_cb callback t w = Some w'
    /\ bytes_so_far w <= bytes_so_far w' <= bytes_so_far w + L.
Proof.
  intros L P Hst HL HP Hov Hmod H0 Hmax.
  assert (Hrange : in_uint64 (bytes_so_far w))
    by (unfold in_uint64; fold L in Hmax; lia).
  destruct (handler_payload callback t w Hst HL ltac:(fold P; lia) Hov)
    as (n & w' & Hcb & Hn & Hb' & Hr).
  assert (Hb : bytes_so_far w'
               = to_uint64 (bytes_so_far w + (actual_length t
                                              - 2 * Z.of_nat n))).
  { rewrite <- (to_uint64_id (bytes_so_far w')) by (apply Hr, Hrange).
    exact Hb'. }
  fold L P in Hn, Hb.
  exists w'. split; [exact Hcb|].
  assert (H2n : 2 * Z.of_nat n <= L).
  { pose proof (Z.div_mod L P ltac:(lia)) as Hdm.
    pose proof (Z.mod_pos_bound L P ltac:(lia)) as Hm.
    assert (Hq : 0 <= L / P) by (apply Z.div_pos; lia).
    destruct (Z.eq_dec (L mod P) 0) as [Hz|Hz].
    - assert (Z.of_nat n = L / P) by nia. nia.
    - assert (Z.of_nat n = L / P + 1) by nia. nia. }
  rewrite Hb, to_uint64_id by lia. lia.
Qed.

Lemma whole_packets_never_lower_the_count_witness :
  1024 mod 512 <> 1
  /\ exists w' : world nat,
       ftdi_stream_read_cb keep_going (completed 0 1024) session_start
       = Some w'
       /\ 0 <= bytes_so_far w' <= 1024.
Proof.
  split; [discriminate|].
  apply (whole_packets_never_lower_the_count keep_going (completed 0 1024)
           session_start eq_refl eq_refl); cbn; try lia; try discriminate.
Defined.

Lemma pool_actions_delivery_events (id : nat) (L P : Z) (n : nat) :
  pool_actions (delivery_events id L P n) = [].
Proof.
  unfold delivery_events, pool_actions.
  induction (seq 0 n) as [|i l IH]; cbn [map filter]; [reflexivity|].
  cbn. exact IH.
Qed.

(** What a successful completion adds to the log: the deliveries, then
    one resubmission or one release. *)
Lemma handler_success_log {U : Type} (callback : cb_arg -> U -> Z * U)
    (t : libusb_transfer) (w : world U) :
  let L := actual_length t in
  let P := packetsize (st w) in
  status t = LIBUSB_TRANSFER_COMPLETED ->
  0 < L -> 0 < P -> L + P <= INT_MAX ->
  exists (n : nat) (w' : world U) (fin : list event),
    ftdi_stream_read_cb callback t w = Some w'
    /\ Z.of_nat n * P < L <= (Z.of_nat n + 1) * P
    /\ log w' = log w ++ delivery_events (xfer_id t) L P (S n) ++ fin
    /\ fin = (if ps_res (packet_loop callback (S n) t P (loop_start t w))
                 =? 0
              then [EvSubmit (xfer_id t) (-1) (resubmit_ret t)]
              else release_of (xfer_id t)).
Proof.
  intros L P Hst HL HP Hov.
  destruct (handler_success callback t w Hst HL HP Hov)
    as (n & w' & Hn & Hcb & _ & _ & _ & Hlog & Hend).
  cbv zeta in Hlog, Hend. rewrite <- packet_loop_last in Hlog, Hend.
  exists n, w'. eexists. split; [exact Hcb|]. split; [exact Hn|].
  split; [|reflexivity].
  destruct (ps_res _ =? 0); subst w'; cbn [emit with_st log];
    rewrite Hlog, <- app_assoc; reflexivity.
Qed.

(** Every region handed to the consumer starts after a packet header and
    ends inside the received bytes; its length is between -1 and the
    packet size minus 2, and is not negative when every packet holds its
    two header bytes. *)
Theorem deliveries_within_received_bytes {U : Type}
    (callback : cb_arg -> U -> Z * U) (t : libusb_transfer) (w : world U) :
  let L := actual_length t in
  let P := packetsize (st w) in
  status t = LIBUSB_TRANSFER_COMPLETED ->
  0 < L -> 0 < P -> L + P <= INT_MAX ->
  exists (w' : world U) (new : list event),
    ftdi_stream_read_cb callback t w = Some w'
    /\ log w' = log w ++ new
    /\ Forall (fun c => 2 <= fst c /\ fst c + snd c <= L
                        /\ -1 <= snd c <= P - 2) (data_calls new)
    /\ (2 <= P -> L mod P <> 1 ->
        Forall (fun c => 0 <= snd c) (data_calls new)).
Proof.
  intros L P Hst HL HP Hov.
  destruct (handler_success_log callback t w Hst HL HP Hov)
    as (n & w' & fin & Hcb & Hn & Hlog & Hfin).
  fold L P in Hn, Hlog.
  exists w', (delivery_events (xfer_id t) L P (S n) ++ fin).
  split; [exact Hcb|]. split; [exact Hlog|].
  assert (Hd : data_calls (delivery_events (xfer_id t) L P (S n) ++ fin)
               = deliveries L P (S n)).
  { rewrite data_calls_app, data_calls_delivery_events, Hfin.
    destruct (ps_res _ =? 0); apply app_nil_r. }
  rewrite Hd. unfold deliveries. split.
  - apply Forall_forall. intros c Hc.
    apply in_map_iff in Hc as (i & <- & Hi). apply in_seq in Hi.
    cbn [fst snd]. unfold packet_len. nia.
  - intros HP2 Hmod. apply Forall_forall. intros c Hc.
    apply in_map_iff in Hc as (i & <- & Hi). apply in_seq in Hi.
    cbn [fst snd]. unfold packet_len.
    destruct (Z.eq_dec (L - Z.of_nat i * P) 1) as [H1|H1]; [|nia].
    exfalso. apply Hmod.
    replace L with (1 + Z.of_nat i * P) by lia.
    rewrite Z_mod_plus_full. apply Z.mod_small. lia.
Qed.

Lemma deliveries_within_received_bytes_witness :
  exists (w' : world nat) (new : list event),
    ftdi_stream_read_cb keep_going (completed 0 1024) session_start = Some w'
    /\ log w' = new
    /\ Forall (fun c => 2 <= fst c /\ fst c + snd c <= 1024
                        /\ -1 <= snd c <= 510) (data_calls new)
    /\ Forall (fun c => 0 <= snd c) (data_calls new).
Proof.
  assert (H4 : 1024 + 512 <= INT_MAX) by (unfold INT_MAX; lia).
  destruct (deliveries_within_received_bytes keep_going (completed 0 1024)
              session_start eq_refl eq_refl eq_refl H4)
    as (w' & new & Hcb & Hlog & Hb & Hnn).
  exists w', new. split; [exact Hcb|]. split; [exact Hlog|].
  split; [exact Hb|]. apply Hnn; [cbn; lia|discriminate].
Defined.

(** The loop has no [break]: what decides between release and
    resubmission is the value the consumer returns for the last packet,
    whatever it returned for the packets before. *)
Theorem last_packet_decides {U : Type} (callback : cb_arg -> U -> Z * U)
    (t : libusb_transfer) (w : world U) :
  let L := actual_length t in
  let P := packetsize (st w) in
  status t = LIBUSB_TRANSFER_COMPLETED ->
  0 < L -> 0 < P -> L + P <= INT_MAX ->
  exists (n : nat) (w' : world U) (new : list event),
    ftdi_stream_read_cb callback t w = Some w'
    /\ log w' = log w ++ new
    /\ Z.of_nat n * P < L <= (Z.of_nat n + 1) * P
    /\ pool_actions new =
       if fst (callback
                 (CbData (buffer t) (Z.of_nat n * P + 2)
                    (packet_len L P n - 2))
                 (ud (ps_w (packet_loop callback n t P (loop_start t w)))))
          =? 0
       then [EvSubmit (xfer_id t) (-1) (resubmit_ret t)]
       else release_of (xfer_id t).
Proof.
  intros L P Hst HL HP Hov.
  destruct (handler_success callback t w Hst HL HP Hov)
    as (n & w' & Hn & Hcb & Hptr & Hlen & Hpl & Hlog & Hend).
  cbv zeta in Hptr, Hlen, Hpl, Hlog, Hend.
  fold L P in Hn, Hptr, Hlen, Hpl, Hlog, Hend.
  rewrite packet_iter_res, Hptr, Hpl in Hend.
  assert (Hr : int_sub (packet_len L P n) 2 = packet_len L P n - 2).
  { unfold int_sub. apply to_int_id. unfold INT_MAX in Hov. int_range. }
  rewrite Hr in Hend.
  exists n, w'.
  destruct (fst _ =? 0); subst w'; eexists;
    (split; [exact Hcb|]); cbn [emit with_st log]; rewrite Hlog, <- app_assoc;
    (split; [reflexivity|]); (split; [exact Hn|]);
    unfold pool_actions; rewrite filter_app;
    fold (pool_actions (delivery_events (xfer_id t) L P (S n)));
    rewrite pool_actions_delivery_events; reflexivity.
Qed.

(** A consumer that asks to stop on the first of two packets only: the
    transfer is resubmitted. *)
Lemma last_packet_decides_witness :
  fst (early_stop (CbData (buffer (completed 0 1024)) 2 510) 0%nat) = 1
  /\ exists w' : world nat,
       ftdi_stream_read_cb early_stop (completed 0 1024) session_start
       = Some w'
       /\ pool_actions (log w') = [EvSubmit 0 (-1) 0].
Proof.
  split; [reflexivity|].
  assert (H4 : 1024 + 512 <= INT_MAX) by (unfold INT_MAX; lia).
  destruct (last_packet_decides early_stop (completed 0 1024) session_start
              eq_refl eq_refl eq_refl H4)
    as (n & w' & new & Hcb & Hlog & Hn & Hact).
  exists w'. split; [exact Hcb|].
  assert (n = 1%nat) by (cbn in Hn; lia). subst n.
  rewrite Hlog. exact Hact.
Defined.

(** ** The ways through the driver *)

Lemma supported_dec (ftdi : ftdi_context) :
  negb (chip_eqb (type ftdi) TYPE_2232H)
  && negb (chip_eqb (type ftdi) TYPE_232H) = true ->
  ~ supported ftdi.
Proof.
  intros H [Hs|Hs]; rewrite Hs in H; discriminate H.
Qed.

Lemma run_paths {U : Type} (callback : cb_arg -> U -> Z * U)
    (ftdi : ftdi_context) (userdata : U) (ppt nt : Z) (env : environment) :
  run_path callback ftdi userdata ppt nt env
    (ftdi_stream_read callback ftdi userdata ppt nt env).
Proof.
  unfold ftdi_stream_read.
  destruct (negb (chip_eqb (type ftdi) TYPE_2232H)
            && negb (chip_eqb (type ftdi) TYPE_232H)) eqn:Echip.
  { apply Path_unsupported. apply supported_dec. exact Echip. }
  assert (Hsup : supported ftdi).
  { unfold supported. destruct (type ftdi); try discriminate Echip; auto. }
  destruct (Z.ltb_spec (reset_ret env) 0) as [Hreset|Hreset].
  { apply Path_reset; assumption. }
  destruct (Z.ltb_spec (flush_ret env) 0) as [Hflush|Hflush].
  { apply Path_flush; assumption. }
  destruct (calloc_ok env) eqn:Hcalloc; cbn [negb].
  2:{ pose proof (Path_calloc callback ftdi userdata ppt nt env
                    Hsup Hreset Hflush Hcalloc) as Hp.
      unfold checks_log in Hp. rewrite Hcalloc in Hp. exact Hp. }
  cbn [emit log st ud app].
  destruct (setup_loop _ _ _ _ _ _) as [[e j] l] eqn:Es.
  pose proof (setup_loop_err _ _ _ _ _ _ _ _ _ eq_refl Es) as He.
  destruct j.
  { apply Path_setup; try assumption.
    unfold checks_log, buffer_size. rewrite Hcalloc. exact Es. }
  subst e.
  assert (Hprimed : pool_primed ftdi nt env).
  { unfold pool_primed, slots_fine. repeat split; try assumption;
      apply (setup_loop_through _ _ _ _ _ _ _ _ Es i); lia. }
  rewrite setup_loop_fine in Es by (intros i Hi; apply Hprimed; lia).
  injection Es as <-.
  destruct (Z.ltb_spec (syncff_ret env) 0) as [Hsync|Hsync].
  { apply (Path_syncff callback ftdi userdata ppt nt env Hprimed Hsync). }
  apply (Path_loop callback ftdi userdata ppt nt env _ Hprimed Hsync).
  reflexivity.
Qed.

Lemma cleanup_log {U : Type} (transfers : bool) (err : Z) (w : world U) :
  log (snd (cleanup transfers err w)) =
  log w ++ EvStderr "cleanup\n" :: (if transfers then [EvFreeArray] else []).
Proof.
  unfold cleanup. destruct (negb (err =? 0)), transfers; cbn [snd emit log];
    rewrite <- ?app_assoc; reflexivity.
Qed.

Lemma cleanup_st {U : Type} (transfers : bool) (err : Z) (w : world U) :
  st (snd (cleanup transfers err w)) = st w.
Proof.
  unfold cleanup. destruct (negb (err =? 0)), transfers; reflexivity.
Qed.

Lemma final_world_done {U : Type} (p : Z * world U) :
  final_world (Done p) = Some (snd p).
Proof. destruct p. reflexivity. Qed.

(** ** Invariants of the driver loop *)

Section LoopInvariant.

Context {U : Type} (callback : cb_arg -> U -> Z * U).
Variable ftdi : ftdi_context.

(** A property of worlds kept by the four kinds of steps of the loop. *)
Variable Inv : world U -> Prop.
Hypothesis Inv_handler :
  forall t w w', Inv w -> ftdi_stream_read_cb callback t w = Some w' -> Inv w'.
Hypothesis Inv_events :
  forall sec usec ret w, Inv w -> Inv (emit [EvHandleEvents sec usec ret] w).
Hypothesis Inv_checks :
  forall w s, Inv w ->
    packetsize s = packetsize (st w) -> progress s = progress (st w) ->
    Inv (with_st s w).
Hypothesis Inv_report :
  forall now w, Inv w -> Inv (progress_step callback now w).

Lemma run_completions_preserves (cs : list libusb_transfer) :
  forall w w', Inv w -> run_completions callback cs w = Some w' -> Inv w'.
Proof.
  induction cs as [|c cs IH]; intros w w' Hw; cbn [run_completions].
  - intros [= <-]. exact Hw.
  - destruct (ftdi_stream_read_cb callback c w) as [w1|] eqn:E;
      [|discriminate].
    apply IH. eapply Inv_handler; eassumption.
Qed.

Lemma handle_events_preserves (d : dispatch) (w w' : world U) :
  Inv w -> handle_events_timeout callback ftdi d w = Some w' -> Inv w'.
Proof.
  intros Hw. unfold handle_events_timeout.
  destruct (run_completions callback (completions d) w) as [w1|] eqn:E;
    [|discriminate].
  intros [= <-]. apply Inv_events.
  eapply run_completions_preserves; eassumption.
Qed.

Lemma wait_events_preserves (it : iteration) (w w1 : world U) (e : Z) :
  Inv w -> wait_events callback ftdi it w = Some (e, w1) -> Inv w1.
Proof.
  intros Hw. unfold wait_events.
  destruct (handle_events_timeout callback ftdi (first_wait it) w)
    as [wa|] eqn:Ea; [|discriminate].
  apply (handle_events_preserves _ _ _ Hw) in Ea.
  destruct (events_ret (first_wait it) =? LIBUSB_ERROR_INTERRUPTED).
  - destruct (handle_events_timeout callback ftdi (retry_wait it) wa)
      as [wb|] eqn:Eb; [|discriminate].
    intros [= <- <-]. eapply handle_events_preserves; eassumption.
  - intros [= <- <-]. exact Ea.
Qed.

Lemma loop_body_preserves (it : iteration) (w w' : world U) :
  Inv w -> loop_body callback ftdi it w = Some w' -> Inv w'.
Proof.
  intros Hw. unfold loop_body.
  destruct (wait_events callback ftdi it w) as [[e w1]|] eqn:E;
    [|discriminate].
  apply (wait_events_preserves _ _ _ _ Hw) in E.
  intros [= <-]. apply Inv_report.
  apply Inv_checks; cbn [with_st st].
  - apply Inv_checks; [exact E| |]; unfold adopt_error;
      destruct (result (st w1) =? 0); reflexivity.
  - unfold stall_check.
    destruct (activity (adopt_error e (st w1)) =? 0); reflexivity.
  - unfold stall_check.
    destruct (activity (adopt_error e (st w1)) =? 0); reflexivity.
Qed.

Lemma stream_loop_preserves (its : list iteration) :
  forall w, Inv w ->
    match stream_loop callback ftdi its w with
    | Done w' => Inv w'
    | Pending w' => Inv w'
    | Trapped => True
    end.
Proof.
  induction its as [|it its IH]; intros w Hw; cbn [stream_loop].
  - exact Hw.
  - destruct (loop_body callback ftdi it w) as [w1|] eqn:E; [|exact I].
    pose proof (loop_body_preserves it w w1 Hw E) as H1.
    destruct (negb (result (st w1) =? 0)); [exact H1|apply IH; exact H1].
Qed.

End LoopInvariant.

(** The loop over a longer record of the outside world continues the
    loop over a prefix of it; once the loop has ended, what the record
    says afterwards does not matter. *)
Lemma stream_loop_app {U : Type} (callback : cb_arg -> U -> Z * U)
    (ftdi : ftdi_context) (its more : list iteration) :
  forall w : world U,
    stream_loop callback ftdi (its ++ more) w =
    match stream_loop callback ftdi its w with
    | Pending w1 => stream_loop callback ftdi more w1
    | o => o
    end.
Proof.
  induction its as [|it its IH]; intros w; cbn [app stream_loop].
  - reflexivity.
  - destruct (loop_body callback ftdi it w) as [w1|]; [|reflexivity].
    destruct (negb (result (st w1) =? 0)); [reflexivity|apply IH].
Qed.

(** ** Dispatch errors and stalls *)

(** When the first wait of a session completes no transfer and reports
    an error (after the one restart of an interrupted wait), the call
    returns that error. *)
Theorem first_wait_error_is_returned {U : Type}
    (callback : cb_arg -> U -> Z * U) (ftdi : ftdi_context) (userdata : U)
    (packets_per_transfer num_transfers : Z) (env : environment)
    (it : iteration) (rest : list iteration) :
  pool_primed ftdi num_transfers env -> 0 <= syncff_ret env ->
  iterations env = it :: rest ->
  quiet it -> xfer_err_of it <> 0 ->
  returned (ftdi_stream_read callback ftdi userdata packets_per_transfer
              num_transfers env) = Some (xfer_err_of it).
Proof.
  intros Hprimed Hsync Hits Hq He.
  rewrite (stream_read_primed callback ftdi userdata _ _ env Hprimed Hsync).
  rewrite Hits.
  set (w := loop_entry ftdi userdata packets_per_transfer num_transfers env).
  destruct (wait_events_quiet callback ftdi it w Hq) as (w1 & Hw1 & Hst1).
  destruct (loop_body_stall_check callback ftdi it w w1 _ Hw1)
    as (w' & Hb & Hc).
  rewrite Hst1 in Hc. cbn [w loop_entry st set_progress activity
                           initial_state Z.eqb] in Hc.
  destruct Hc as (_ & Hr).
  unfold adopt_error in Hr.
  cbn [result Z.eqb set_result set_progress initial_state] in Hr.
  cbn [stream_loop]. rewrite Hb, Hr.
  destruct (Z.eqb_spec (xfer_err_of it) 0) as [?|_]; [contradiction|].
  cbn [negb]. rewrite returned_done, cleanup_ret, Hr. reflexivity.
Qed.

(** A wait interrupted twice ends the session with
    [LIBUSB_ERROR_INTERRUPTED]. *)
Lemma first_wait_error_is_returned_witness :
  quiet twice_interrupted
  /\ xfer_err_of twice_interrupted <> 0
  /\ returned (ftdi_stream_read keep_going ft232h 0%nat 8 4
                 (smooth [twice_interrupted]))
     = Some LIBUSB_ERROR_INTERRUPTED.
Proof.
  assert (Hq : quiet twice_interrupted) by (split; reflexivity).
  assert (He : xfer_err_of twice_interrupted <> 0) by discriminate.
  split; [exact Hq|]. split; [exact He|].
  apply (first_wait_error_is_returned keep_going ft232h 0%nat 8 4
           (smooth [twice_interrupted]) twice_interrupted []
           (smooth_primed 4 _) ltac:(cbn; lia) eq_refl Hq He).
Defined.

Section Running.

Context {U : Type} (callback : cb_arg -> U -> Z * U).
Variable ftdi : ftdi_context.

(** An iteration after which the loop goes on leaves the activity
    counter at zero. *)
Lemma loop_body_running (it : iteration) (w w' : world U) :
  loop_body callback ftdi it w = Some w' -> result (st w') = 0 ->
  activity (st w') = 0.
Proof.
  intros Hb Hr.
  destruct (wait_events callback ftdi it w) as [[e w1]|] eqn:E.
  - destruct (loop_body_stall_check callback ftdi it w w1 e E)
      as (w2 & Hb2 & Hc).
    rewrite Hb in Hb2. injection Hb2 as <-.
    destruct (activity (st w1) =? 0).
    + destruct Hc as (H1 & _). rewrite Hr in H1. discriminate H1.
    + apply Hc.
  - unfold loop_body in Hb. rewrite E in Hb. discriminate Hb.
Qed.

Lemma stream_loop_pending (its : list iteration) :
  forall w w1 : world U,
    its <> [] -> stream_loop callback ftdi its w = Pending w1 ->
    activity (st w1) = 0 /\ result (st w1) = 0.
Proof.
  induction its as [|it its IH]; intros w w1 Hne; [contradiction|].
  cbn [stream_loop].
  destruct (loop_body callback ftdi it w) as [wa|] eqn:E; [|discriminate].
  destruct (Z.eqb_spec (result (st wa)) 0) as [H0|H0]; cbn [negb];
    [|discriminate].
  destruct its as [|it' its'].
  - cbn [stream_loop]. intros [= <-].
    split; [eapply loop_body_running; eassumption|exact H0].
  - apply IH. discriminate.
Qed.

End Running.

(** Once at least one iteration has run and the loop is still going, a
    single wait in which no transfer completes ends the loop with result
    1, whatever that wait returns. *)
Theorem one_quiet_wait_ends_the_loop {U : Type}
    (callback : cb_arg -> U -> Z * U) (ftdi : ftdi_context)
    (its rest : list iteration) (q : iteration) (w w1 : world U) :
  its <> [] ->
  stream_loop callback ftdi its w = Pending w1 ->
  quiet q ->
  exists w2,
    stream_loop callback ftdi (its ++ q :: rest) w = Done w2
    /\ result (st w2) = 1.
Proof.
  intros Hne Hp Hq.
  destruct (stream_loop_pending callback ftdi its w w1 Hne Hp) as (Ha & _).
  rewrite stream_loop_app, Hp.
  destruct (wait_events_quiet callback ftdi q w1 Hq) as (wa & Hwa & Hsta).
  destruct (loop_body_stall_check callback ftdi q w1 wa _ Hwa)
    as (w2 & _ & Hc).
  rewrite Hsta, Ha in Hc. cbn [Z.eqb] in Hc. destruct Hc as (Hr & Hloop).
  exists w2. split; [apply Hloop|exact Hr].
Qed.

(** After one iteration with a completed transfer, a quiet wait that
    even reports an error ends the loop with 1. *)
Lemma one_quiet_wait_ends_the_loop_witness :
  exists w2 : world nat,
    stream_loop keep_going ft232h
      ([iteration_at [completed 0 512] 1700000000] ++ [twice_interrupted])
      (loop_entry ft232h 0%nat 1 1 (smooth [])) = Done w2
    /\ result (st w2) = 1.
Proof.
  destruct (stream_loop keep_going ft232h
              [iteration_at [completed 0 512] 1700000000]
              (loop_entry ft232h 0%nat 1 1 (smooth [])))
    as [w1|w1|] eqn:E; [vm_compute in E; discriminate E| |
                        vm_compute in E; discriminate E].
  apply (one_quiet_wait_ends_the_loop keep_going ft232h
           [iteration_at [completed 0 512] 1700000000] [] twice_interrupted
           _ w1 ltac:(discriminate) E).
  split; reflexivity.
Defined.

(** ** Kinds of events *)

Lemma filter_none {A : Type} (f : A -> bool) (l : list A) :
  (forall x, In x l -> f x = false) -> filter f l = [].
Proof.
  induction l as [|a l IH]; intros H; cbn [filter]; [reflexivity|].
  rewrite (H a (or_introl eq_refl)). apply IH.
  intros x Hx. apply H. right. exact Hx.
Qed.

Lemma filter_kind (k f : event -> bool) (l : list event) :
  (forall e, k e = true -> f e = false) ->
  forallb k l = true -> filter f l = [].
Proof.
  intros Hk Hl. apply filter_none. intros e He.
  apply Hk. rewrite forallb_forall in Hl. apply Hl. exact He.
Qed.

Lemma data_calls_kind (k : event -> bool) (l : list event) :
  (forall e, k e = true -> is_data e = false) ->
  forallb k l = true -> data_calls l = [].
Proof.
  intros Hk. induction l as [|e l IH]; cbn [forallb]; [reflexivity|].
  intros H. apply andb_true_iff in H as (He & Hl).
  specialize (Hk e He). destruct e; try discriminate Hk; cbn; auto.
Qed.

Lemma progress_views_kind (k : event -> bool) (l : list event) :
  (forall e, k e = true -> is_report e = false) ->
  forallb k l = true -> progress_views l = [].
Proof.
  intros Hk. induction l as [|e l IH]; cbn [forallb]; [reflexivity|].
  intros H. apply andb_true_iff in H as (He & Hl).
  specialize (Hk e He). destruct e; try discriminate Hk; cbn; auto.
Qed.

Lemma accounted_kind (k : event -> bool) (l : list event) :
  (forall e, k e = true -> is_report e = false) ->
  forallb k l = true -> forall s, accounted s l.
Proof.
  intros Hk. induction l as [|e l IH]; cbn [forallb]; [intros; exact I|].
  intros H s. apply andb_true_iff in H as (He & Hl).
  specialize (Hk e He). destruct e; try discriminate Hk; cbn; auto.
Qed.

Lemma accounted_app (l1 l2 : list event) :
  forall s, accounted s l1 -> accounted (s + payload_sum l1) l2 ->
            accounted s (l1 ++ l2).
Proof.
  unfold payload_sum.
  induction l1 as [|e l1 IH]; intros s H1 H2.
  - cbn in *. rewrite Z.add_0_r in H2. exact H2.
  - destruct e; cbn [app accounted data_calls map snd sum_Z fold_right] in *;
      try (apply IH; assumption).
    + apply IH; [exact H1|].
      replace (s + len + sum_Z (map snd (data_calls l1)))
        with (s + (len + fold_right Z.add 0 (map snd (data_calls l1))))
        by (unfold sum_Z; lia).
      exact H2.
    + destruct H1 as (Hv & H1). split; [exact Hv|]. apply IH; assumption.
Qed.

Lemma handler_event_kinds (e : event) :
  handler_event e = true ->
  is_report e = false /\ is_free_array e = false /\ is_syncff e = false
  /\ is_handle_events e = false.
Proof. destruct e; cbn; auto; discriminate. Qed.

Lemma setup_event_kinds (e : event) :
  setup_event e = true ->
  is_report e = false /\ is_free_array e = false /\ is_syncff e = false
  /\ is_data e = false /\ is_free_buffer e || is_free_transfer e = false.
Proof. destruct e; cbn; auto 10; discriminate. Qed.

(** The setup loop only allocates and submits. *)
Lemma setup_loop_events (n : nat) :
  forall idx bs sl err l e j l',
    setup_loop n idx bs sl err l = (e, j, l') ->
    exists new, l' = l ++ new /\ forallb setup_event new = true.
Proof.
  induction n as [|n IH]; intros idx bs sl err l e j l'.
  - cbn. intros [= <- <- <-]. exists []. rewrite app_nil_r. auto.
  - cbn [setup_loop].
    destruct (alloc_ok (sl idx)); cbn [negb].
    2:{ intros [= <- <- <-]. eexists. split; reflexivity. }
    destruct (malloc_ok (sl idx)); cbn [negb].
    2:{ intros [= <- <- <-]. eexists. rewrite <- app_assoc.
        split; reflexivity. }
    destruct (negb (submit_ret (sl idx) =? 0)).
    + intros [= <- <- <-]. eexists. rewrite <- !app_assoc.
      split; reflexivity.
    + intros H. destruct (IH _ _ _ _ _ _ _ _ H) as (new & -> & Hnew).
      eexists. rewrite <- !app_assoc. split; [reflexivity|].
      cbn [app forallb setup_event andb]. exact Hnew.
Qed.

Lemma slot_logs_events (bs : Z) (l : list nat) :
  forallb setup_event (flat_map (slot_setup_log bs) l) = true.
Proof.
  induction l as [|i l IH]; cbn; [reflexivity|exact IH].
Qed.

Lemma progress_view_current (now : timespec) (p : ftdi_stream_progress) :
  total_bytes (current (progress_view now p)) = total_bytes (current p)
  /\ first (progress_view now p) = first p
  /\ total_time (progress_view now p)
     = timespec_diff now (time (first p)).
Proof.
  unfold progress_view. cbn [set_current set_total_time prev current first
                             time total_time set_time].
  destruct (negb (total_bytes (prev p) =? 0)); cbn; auto.
Qed.

(** ** The byte counter over a session *)

Lemma accounted_plain (l : list event) :
  data_calls l = [] -> progress_views l = [] -> forall s, accounted s l.
Proof.
  induction l as [|e l IH]; intros Hd Hv s; [exact I|].
  destruct e; cbn [data_calls progress_views accounted] in *;
    try discriminate; auto.
Qed.

Lemma payload_sum_plain (l : list event) :
  data_calls l = [] -> payload_sum l = 0.
Proof. unfold payload_sum. intros ->. reflexivity. Qed.

(** Calls that are neither deliveries nor reports keep the account. *)
Lemma accounts_extend {U : Type} (w w' : world U) (new : list event) :
  accounts w ->
  bytes_so_far w' = bytes_so_far w -> log w' = log w ++ new ->
  data_calls new = [] -> progress_views new = [] ->
  accounts w'.
Proof.
  intros (Hr & Hb & Ha) Hst Hlog Hd Hv. unfold accounts.
  rewrite Hst, Hlog, payload_sum_app, (payload_sum_plain new Hd), Z.add_0_r.
  split; [exact Hr|]. split; [exact Hb|].
  apply accounted_app; [exact Ha|]. apply accounted_plain; assumption.
Qed.

Section Accounts.

Context {U : Type} (callback : cb_arg -> U -> Z * U).

Lemma accounts_handler (t : libusb_transfer) (w w' : world U) :
  accounts w -> ftdi_stream_read_cb callback t w = Some w' -> accounts w'.
Proof.
  intros (Hr & Hb & Ha) H.
  destruct (handler_account callback t w w' H) as (new & Hl & Hk & Hb' & Hr').
  specialize (Hr' Hr). unfold accounts. split; [exact Hr'|].
  rewrite Hl, payload_sum_app. split.
  - rewrite <- (to_uint64_id (bytes_so_far w')) by exact Hr'.
    rewrite Hb', Hb, to_uint64_idem. reflexivity.
  - apply accounted_app; [exact Ha|].
    apply (accounted_kind handler_event); [|exact Hk].
    intros e He. apply handler_event_kinds. exact He.
Qed.

Lemma accounts_report (now : timespec) (w : world U) :
  accounts w -> accounts (progress_step callback now w).
Proof.
  intros (Hr & Hb & Ha). unfold progress_step.
  destruct (report_due now (progress (st w)));
    [|exact (conj Hr (conj Hb Ha))].
  destruct (callback _ _) as [r u].
  destruct (progress_view_current now (progress (st w))) as (Hc & _ & _).
  unfold accounts, bytes_so_far in *.
  cbn [with_st emit with_ud st log set_progress progress set_prev current].
  rewrite Hc, payload_sum_app.
  unfold payload_sum at 2. cbn [data_calls map sum_Z fold_right].
  rewrite Z.add_0_r. split; [exact Hr|]. split; [exact Hb|].
  apply accounted_app; [exact Ha|].
  cbn [accounted]. split; [|exact I].
  rewrite Hc, Z.add_0_l. exact Hb.
Qed.

Lemma accounts_loop (ftdi : ftdi_context) (its : list iteration)
    (w : world U) :
  accounts w ->
  match stream_loop callback ftdi its w with
  | Done w' => accounts w'
  | Pending w' => accounts w'
  | Trapped => True
  end.
Proof.
  apply (stream_loop_preserves callback ftdi accounts).
  - intros t w0 w' Hw H. eapply accounts_handler; eassumption.
  - intros sec usec ret w0 Hw.
    apply (accounts_extend w0 _ [EvHandleEvents sec usec ret] Hw);
      reflexivity.
  - intros w0 s Hw _ Hp.
    apply (accounts_extend w0 _ [] Hw); try reflexivity.
    + unfold bytes_so_far. cbn [with_st st]. rewrite Hp. reflexivity.
    + cbn [with_st log]. rewrite app_nil_r. reflexivity.
  - intros now w0 Hw. apply accounts_report. exact Hw.
Qed.

End Accounts.

Lemma loop_entry_plain {U : Type} (ftdi : ftdi_context) (userdata : U)
    (ppt nt : Z) (env : environment) :
  data_calls (log (loop_entry ftdi userdata ppt nt env)) = []
  /\ progress_views (log (loop_entry ftdi userdata ppt nt env)) = []
  /\ releases (log (loop_entry ftdi userdata ppt nt env)) = []
  /\ filter is_free_array (log (loop_entry ftdi userdata ppt nt env)) = [].
Proof.
  cbn [loop_entry log].
  pose proof (slot_logs_events
                (to_int (to_uint ppt * max_packet_size ftdi))
                (seq 0 (Z.to_nat nt))) as Hk.
  unfold releases.
  rewrite !data_calls_app, !progress_views_app, !filter_app.
  rewrite (data_calls_kind setup_event _
             (fun e H => proj1 (proj2 (proj2 (proj2 (setup_event_kinds e H)))))
             Hk).
  rewrite (progress_views_kind setup_event _
             (fun e H => proj1 (setup_event_kinds e H)) Hk).
  rewrite (filter_kind setup_event _ _
             (fun e H => proj2 (proj2 (proj2 (proj2 (setup_event_kinds e H)))))
             Hk).
  rewrite (filter_kind setup_event is_free_array _
             (fun e H => proj1 (proj2 (setup_event_kinds e H))) Hk).
  cbn. auto.
Qed.

(** In whatever world a call ends or is left (it returned, or the record
    of the outside world ran out), [current.total_bytes] is the sum of the
    payload lengths handed to the consumer, modulo 2^64, and every
    progress record the consumer was shown carries the sum of the payload
    lengths delivered before it. *)
Theorem byte_counter_accounts_for_deliveries {U : Type}
    (callback : cb_arg -> U -> Z * U) (ftdi : ftdi_context) (userdata : U)
    (packets_per_transfer num_transfers : Z) (env : environment)
    (w : world U) :
  final_world (ftdi_stream_read callback ftdi userdata packets_per_transfer
                 num_transfers env) = Some w ->
  bytes_so_far w = to_uint64 (payload_sum (log w))
  /\ accounted 0 (log w).
Proof.
  intros Hfin.
  assert (Hstart : forall l,
            data_calls l = [] -> progress_views l = [] ->
            accounts {| st := initial_state ftdi; ud := userdata; log := l |}).
  { intros l Hd Hv.
    apply (accounts_extend
             {| st := initial_state ftdi; ud := userdata; log := [] |} _ l);
      try assumption; try reflexivity.
    unfold accounts, in_uint64. cbn. repeat split; lia. }
  assert (Hclean : forall b e (w0 : world U), accounts w0 ->
                     accounts (snd (cleanup b e w0))).
  { intros b e w0 Hw0.
    eapply (accounts_extend w0 _ _ Hw0);
      [unfold bytes_so_far; rewrite cleanup_st; reflexivity
      |apply cleanup_log| |]; destruct b; reflexivity. }
  enough (Hacc : accounts w) by (destruct Hacc as (_ & ? & ?); auto).
  pose proof (run_paths callback ftdi userdata packets_per_transfer
                num_transfers env) as Hp.
  destruct Hp as [ | | | |e l ? ? ? ? Hs ?| |o ? ? Ho].
  - injection Hfin as <-. apply Hstart; reflexivity.
  - injection Hfin as <-. apply Hstart; reflexivity.
  - injection Hfin as <-. apply Hstart; reflexivity.
  - rewrite final_world_done in Hfin. injection Hfin as <-.
    apply (Hclean false LIBUSB_ERROR_NO_MEM), Hstart; reflexivity.
  - rewrite final_world_done in Hfin. injection Hfin as <-.
    apply Hclean, Hstart;
      destruct (setup_loop_events _ _ _ _ _ _ _ _ _ Hs) as (new & -> & Hk).
    + rewrite data_calls_app.
      rewrite (data_calls_kind setup_event new); [reflexivity| |exact Hk].
      intros e0 He0. apply setup_event_kinds. exact He0.
    + rewrite progress_views_app.
      rewrite (progress_views_kind setup_event new); [reflexivity| |exact Hk].
      intros e0 He0. apply setup_event_kinds. exact He0.
  - rewrite final_world_done in Hfin. injection Hfin as <-.
    destruct (loop_entry_plain ftdi userdata packets_per_transfer
                num_transfers env) as (Hd & Hv & _).
    apply (Hclean true 0).
    apply (accounts_extend
             {| st := initial_state ftdi; ud := userdata;
                log := log (loop_entry ftdi userdata packets_per_transfer
                              num_transfers env) |} _
             [EvStderr "Can't set synchronous fifo mode: %s\n"]);
      try reflexivity.
    apply Hstart; assumption.
  - assert (Hentry : accounts (loop_entry ftdi userdata packets_per_transfer
                                 num_transfers env)).
    { destruct (loop_entry_plain ftdi userdata packets_per_transfer
                  num_transfers env) as (Hd & Hv & _).
      apply (accounts_extend
               {| st := initial_state ftdi; ud := userdata; log := [] |} _
               (log (loop_entry ftdi userdata packets_per_transfer
                       num_transfers env))); try assumption; try reflexivity.
      unfold accounts, in_uint64. cbn. repeat split; lia. }
    pose proof (accounts_loop callback ftdi (iterations env) _ Hentry) as Hl.
    rewrite <- Ho in Hl. destruct o as [w'|w'|].
    + rewrite final_world_done in Hfin. injection Hfin as <-.
      apply (Hclean true 0). exact Hl.
    + injection Hfin as <-. exact Hl.
    + discriminate Hfin.
Qed.

Lemma byte_counter_accounts_for_deliveries_witness :
  exists w : world nat,
    final_world
      (ftdi_stream_read keep_going ft232h 0%nat 1 1
         (smooth [iteration_at [completed 0 512] 1700000000;
                  iteration_at [completed 0 512] 1700000002])) = Some w
    /\ bytes_so_far w = to_uint64 (payload_sum (log w))
    /\ payload_sum (log w) = 1020.
Proof.
  destruct (final_world
              (ftdi_stream_read keep_going ft232h 0%nat 1 1
                 (smooth [iteration_at [completed 0 512] 1700000000;
                          iteration_at [completed 0 512] 1700000002])))
    as [w|] eqn:E; [|vm_compute in E; discriminate E].
  exists w. split; [reflexivity|].
  split.
  - apply (byte_counter_accounts_for_deliveries keep_going ft232h 0%nat 1 1
             _ w E).
  - vm_compute in E. injection E as <-. reflexivity.
Defined.

(** ** The shape of the log of a session *)

Lemma loop_event_not (e : event) :
  loop_event e = true -> is_free_array e = false /\ is_syncff e = false.
Proof. destruct e; cbn; auto; discriminate. Qed.

Lemma forallb_weaken (k k' : event -> bool) (l : list event) :
  (forall e, k e = true -> k' e = true) ->
  forallb k l = true -> forallb k' l = true.
Proof.
  intros Hk Hl. apply forallb_forall. intros e He.
  apply Hk. rewrite forallb_forall in Hl. apply Hl. exact He.
Qed.

(** Inside the loop only the handler, the wait and the report are
    logged. *)
Lemma loop_log {U : Type} (callback : cb_arg -> U -> Z * U)
    (ftdi : ftdi_context) (its : list iteration) (w : world U) :
  match stream_loop callback ftdi its w with
  | Done w' | Pending w' =>
      exists mid, log w' = log w ++ mid /\ forallb loop_event mid = true
  | Trapped => True
  end.
Proof.
  apply (stream_loop_preserves callback ftdi
           (fun w' => exists mid,
                log w' = log w ++ mid /\ forallb loop_event mid = true)).
  - intros t w0 w' (mid & Hl & Hk) H.
    destruct (handler_account callback t w0 w' H) as (new & Hn & Hkn & _).
    exists (mid ++ new). rewrite Hn, Hl, <- app_assoc.
    split; [reflexivity|]. rewrite forallb_app, Hk. cbn [andb].
    apply (forallb_weaken handler_event); [|exact Hkn].
    intros e He. unfold loop_event. rewrite He. reflexivity.
  - intros sec usec ret w0 (mid & Hl & Hk).
    exists (mid ++ [EvHandleEvents sec usec ret]).
    cbn [emit log]. rewrite Hl, <- app_assoc.
    split; [reflexivity|]. rewrite forallb_app, Hk. reflexivity.
  - intros w0 s Hw _ _. exact Hw.
  - intros now w0 (mid & Hl & Hk). unfold progress_step.
    destruct (report_due now (progress (st w0))); [|exists mid; auto].
    destruct (callback _ _) as [r u].
    eexists (mid ++ [_]). cbn [with_st emit with_ud log].
    rewrite Hl, <- app_assoc. split; [reflexivity|].
    rewrite forallb_app, Hk. reflexivity.
  - exists []. rewrite app_nil_r. auto.
Qed.

(** The array of transfer pointers is freed on every return path after
    its allocation, exactly once and as the last call of all; it is never
    freed when it was not allocated. *)
Theorem array_freed_exactly_once {U : Type}
    (callback : cb_arg -> U -> Z * U) (ftdi : ftdi_context) (userdata : U)
    (packets_per_transfer num_transfers : Z) (env : environment) (r : Z) :
  returned (ftdi_stream_read callback ftdi userdata packets_per_transfer
              num_transfers env) = Some r ->
  (array_allocated ftdi env ->
   exists l,
     final_log (ftdi_stream_read callback ftdi userdata packets_per_transfer
                  num_transfers env) = l ++ [EvFreeArray]
     /\ filter is_free_array l = [])
  /\ (~ array_allocated ftdi env ->
      filter is_free_array
        (final_log (ftdi_stream_read callback ftdi userdata
                      packets_per_transfer num_transfers env)) = []).
Proof.
  intros Hret.
  pose proof (run_paths callback ftdi userdata packets_per_transfer
                num_transfers env) as Hp.
  destruct Hp as [Hns|Hs Hr|Hs Hr Hf|Hs Hr Hf Hc|e l Hs Hr Hf Hc Hl He
                 |Hpr Hsy|o Hpr Hsy Ho].
  - split; [intros (? & _); contradiction|reflexivity].
  - split; [intros (_ & ? & _); lia|reflexivity].
  - split; [intros (_ & _ & ? & _); lia|reflexivity].
  - split; [intros (_ & _ & _ & ?); congruence|].
    intros _. rewrite final_log_done, cleanup_log. cbn [log].
    rewrite filter_app. unfold checks_log. reflexivity.
  - split; [|intros Hn; exfalso; apply Hn; repeat split; assumption].
    intros _. rewrite final_log_done, cleanup_log. cbn [log].
    exists (l ++ [EvStderr "cleanup\n"]).
    rewrite <- app_assoc. split; [reflexivity|].
    destruct (setup_loop_events _ _ _ _ _ _ _ _ _ Hl) as (new & -> & Hk).
    rewrite !filter_app.
    rewrite (filter_kind setup_event is_free_array new); [reflexivity| |exact Hk].
    intros e0 He0. apply setup_event_kinds. exact He0.
  - split; [|intros Hn; exfalso; apply Hn; destruct Hpr as (? & ? & ? & ? & _);
             repeat split; assumption].
    intros _. rewrite final_log_done, cleanup_log. cbn [emit log].
    exists ((log (loop_entry ftdi userdata packets_per_transfer
                    num_transfers env)
             ++ [EvStderr "Can't set synchronous fifo mode: %s\n"])
            ++ [EvStderr "cleanup\n"]).
    split; [rewrite <- (app_assoc _ [_] [_]); reflexivity|].
    destruct (loop_entry_plain ftdi userdata packets_per_transfer
                num_transfers env) as (_ & _ & _ & Hfa).
    rewrite !filter_app, Hfa. reflexivity.
  - pose proof (loop_log callback ftdi (iterations env)
                  (loop_entry ftdi userdata packets_per_transfer
                     num_transfers env)) as Hlog.
    rewrite <- Ho in Hlog. destruct o as [w'|w'|]; try discriminate Hret.
    destruct Hlog as (mid & Hlog & Hk).
    split; [|intros Hn; exfalso; apply Hn; destruct Hpr as (? & ? & ? & ? & _);
             repeat split; assumption].
    intros _. rewrite final_log_done, cleanup_log.
    exists (log w' ++ [EvStderr "cleanup\n"]).
    rewrite <- app_assoc. split; [reflexivity|].
    destruct (loop_entry_plain ftdi userdata packets_per_transfer
                num_transfers env) as (_ & _ & _ & Hfa).
    rewrite Hlog, !filter_app, Hfa.
    rewrite (filter_kind loop_event is_free_array mid); [reflexivity| |exact Hk].
    intros e0 He0. apply loop_event_not. exact He0.
Qed.

Lemma smooth_allocated (its : list iteration) :
  array_allocated ft232h (smooth its).
Proof.
  unfold array_allocated, supported. cbn. repeat split; auto; lia.
Defined.

(** The session of the stall witness frees the array once, at its end. *)
Lemma array_freed_exactly_once_witness :
  exists l,
    final_log (ftdi_stream_read keep_going ft232h 0%nat 8 4
                 (smooth [iteration_at [] 1700000000;
                          iteration_at [] 1700000005])) = l ++ [EvFreeArray]
    /\ filter is_free_array l = [].
Proof.
  apply (proj1 (array_freed_exactly_once keep_going ft232h 0%nat 8 4
                  (smooth [iteration_at [] 1700000000;
                           iteration_at [] 1700000005]) 1
                  ltac:(vm_compute; reflexivity))).
  apply smooth_allocated.
Defined.

Lemma not_in_filter_nil (f : event -> bool) (l : list event) (e : event) :
  filter f l = [] -> f e = true -> ~ In e l.
Proof.
  intros Hf He Hin.
  assert (H : In e (filter f l)) by (apply filter_In; auto).
  rewrite Hf in H. exact H.
Qed.

(** The device is asked to switch to [BITMODE_SYNCFF] only after the
    whole pool was set up: if the log of a run holds such a call, the
    device was supported, reset, flush and every allocation and
    submission succeeded, the call comes right after the submission of
    the last transfer, and it is the only one. *)
Theorem mode_switch_only_after_full_setup {U : Type}
    (callback : cb_arg -> U -> Z * U) (ftdi : ftdi_context) (userdata : U)
    (packets_per_transfer num_transfers : Z) (env : environment)
    (mask ret : Z) :
  In (EvSetBitmode mask BITMODE_SYNCFF ret)
     (final_log (ftdi_stream_read callback ftdi userdata
                   packets_per_transfer num_transfers env)) ->
  pool_primed ftdi num_transfers env
  /\ exists l,
       final_log (ftdi_stream_read callback ftdi userdata
                    packets_per_transfer num_transfers env)
       = (checks_log num_transfers env
          ++ flat_map (slot_setup_log (buffer_size ftdi packets_per_transfer))
               (seq 0 (Z.to_nat num_transfers)))
         ++ EvSetBitmode 255 BITMODE_SYNCFF (syncff_ret env) :: l
       /\ filter is_syncff l = [].
Proof.
  intros Hin.
  pose proof (run_paths callback ftdi userdata packets_per_transfer
                num_transfers env) as Hp.
  assert (Hentry : pool_primed ftdi num_transfers env ->
            log (loop_entry ftdi userdata packets_per_transfer
                   num_transfers env)
            = (checks_log num_transfers env
               ++ flat_map
                    (slot_setup_log (buffer_size ftdi packets_per_transfer))
                    (seq 0 (Z.to_nat num_transfers)))
              ++ [EvSetBitmode 255 BITMODE_SYNCFF (syncff_ret env)]).
  { intros (_ & _ & _ & Hc & _). cbn [loop_entry log].
    unfold checks_log, buffer_size. rewrite Hc. reflexivity. }
  destruct Hp as [Hns|Hs Hr|Hs Hr Hf|Hs Hr Hf Hc|e l Hs Hr Hf Hc Hl He
                 |Hpr Hsy|o Hpr Hsy Ho].
  - exfalso. revert Hin. apply (not_in_filter_nil is_syncff); reflexivity.
  - exfalso. revert Hin. apply (not_in_filter_nil is_syncff); reflexivity.
  - exfalso. revert Hin. apply (not_in_filter_nil is_syncff); reflexivity.
  - exfalso. revert Hin. rewrite final_log_done, cleanup_log.
    apply (not_in_filter_nil is_syncff); reflexivity.
  - exfalso. revert Hin. rewrite final_log_done, cleanup_log. cbn [log].
    apply (not_in_filter_nil is_syncff); [|reflexivity].
    destruct (setup_loop_events _ _ _ _ _ _ _ _ _ Hl) as (new & -> & Hk).
    rewrite !filter_app.
    rewrite (filter_kind setup_event is_syncff new); [reflexivity| |exact Hk].
    intros e0 He0. apply setup_event_kinds. exact He0.
  - split; [exact Hpr|].
    rewrite final_log_done, cleanup_log. cbn [emit log].
    rewrite (Hentry Hpr), <- !app_assoc. cbn [app].
    eexists. split; [reflexivity|reflexivity].
  - split; [exact Hpr|].
    pose proof (loop_log callback ftdi (iterations env)
                  (loop_entry ftdi userdata packets_per_transfer
                     num_transfers env)) as Hlog.
    rewrite <- Ho in Hlog.
    assert (Hmid : forall mid tail,
              forallb loop_event mid = true -> filter is_syncff tail = [] ->
              filter is_syncff (mid ++ tail) = []).
    { intros mid tail Hk Ht. rewrite filter_app, Ht, app_nil_r.
      apply (filter_kind loop_event); [|exact Hk].
      intros e0 He0. apply loop_event_not. exact He0. }
    destruct o as [w'|w'|].
    + destruct Hlog as (mid & Hlog & Hk).
      rewrite final_log_done, cleanup_log, Hlog, (Hentry Hpr),
        <- !app_assoc.
      cbn [app]. eexists. split; [reflexivity|].
      apply Hmid; [exact Hk|reflexivity].
    + destruct Hlog as (mid & Hlog & Hk). cbn [final_log].
      rewrite Hlog, (Hentry Hpr), <- !app_assoc. cbn [app].
      exists mid. split; [reflexivity|].
      rewrite <- (app_nil_r mid). apply Hmid; [exact Hk|reflexivity].
    + destruct Hin.
Qed.

Lemma mode_switch_only_after_full_setup_witness :
  In (EvSetBitmode 255 BITMODE_SYNCFF (-1))
     (final_log (ftdi_stream_read keep_going ft232h 0%nat 8 4 syncff_fails))
  /\ pool_primed ft232h 4 syncff_fails.
Proof.
  assert (Hin : In (EvSetBitmode 255 BITMODE_SYNCFF (-1))
                  (final_log (ftdi_stream_read keep_going ft232h 0%nat 8 4
                                syncff_fails))).
  { vm_compute. do 15 right. left. reflexivity. }
  split; [exact Hin|].
  apply (mode_switch_only_after_full_setup keep_going ft232h 0%nat 8 4
           syncff_fails 255 (-1) Hin).
Defined.

(** ** Outside the loop *)

Lemma setup_is_outside (e : event) :
  setup_event e = true -> outside_event e = true.
Proof. destruct e; cbn; auto; discriminate. Qed.

Lemma outside_event_kinds (e : event) :
  outside_event e = true ->
  is_report e = false /\ is_data e = false
  /\ is_free_buffer e || is_free_transfer e = false.
Proof. destruct e; cbn; auto; discriminate. Qed.

(** Either the loop was not entered, and the log holds calls of the
    setup and of the cleanup only, or the call went through the loop. *)
Lemma outside_or_loop {U : Type} (callback : cb_arg -> U -> Z * U)
    (ftdi : ftdi_context) (userdata : U) (ppt nt : Z) (env : environment) :
  forallb outside_event
    (final_log (ftdi_stream_read callback ftdi userdata ppt nt env)) = true
  \/ ftdi_stream_read callback ftdi userdata ppt nt env =
     match stream_loop callback ftdi (iterations env)
             (loop_entry ftdi userdata ppt nt env) with
     | Done w' => Done (cleanup true 0 w')
     | Pending w' => Pending w'
     | Trapped => Trapped
     end.
Proof.
  pose proof (run_paths callback ftdi userdata ppt nt env) as Hp.
  destruct Hp as [Hns|Hs Hr|Hs Hr Hf|Hs Hr Hf Hc|e l Hs Hr Hf Hc Hl He
                 |Hpr Hsy|o Hpr Hsy Ho].
  - left. reflexivity.
  - left. reflexivity.
  - left. reflexivity.
  - left. rewrite final_log_done, cleanup_log. reflexivity.
  - left. rewrite final_log_done, cleanup_log. cbn [log].
    destruct (setup_loop_events _ _ _ _ _ _ _ _ _ Hl) as (new & -> & Hk).
    rewrite !forallb_app.
    rewrite (forallb_weaken setup_event outside_event new setup_is_outside Hk).
    reflexivity.
  - left. rewrite final_log_done, cleanup_log. cbn [emit loop_entry log].
    rewrite !forallb_app.
    rewrite (forallb_weaken setup_event outside_event _ setup_is_outside
               (slot_logs_events _ _)).
    reflexivity.
  - right. rewrite Ho. reflexivity.
Qed.

(** ** Releases *)

Lemma releases_app (l1 l2 : list event) :
  releases (l1 ++ l2) = releases l1 ++ releases l2.
Proof. unfold releases. apply filter_app. Qed.

Lemma release_walk_app (l1 l2 : list event) :
  forall ph,
    release_walk ph (l1 ++ l2) =
    match release_walk ph l1 with
    | Some ph1 => release_walk ph1 l2
    | None => None
    end.
Proof.
  induction l1 as [|e l1 IH]; intros ph; cbn [app release_walk];
    [reflexivity|].
  destruct (release_step ph e); [apply IH|reflexivity].
Qed.

Lemma release_step_free_buffer (ph ph' : release_phase) (id : nat) :
  release_step ph (EvFreeBuffer id) = Some ph' ->
  ph = Delivered id /\ ph' = BufferFreed id.
Proof.
  destruct ph as [|i|i]; cbn; try discriminate.
  destruct (Nat.eqb_spec i id) as [->|_]; [|discriminate].
  intros [= <-]. split; reflexivity.
Qed.

Lemma release_step_free_transfer (ph ph' : release_phase) (id : nat) :
  release_step ph (EvFreeTransfer id) = Some ph' ->
  ph = BufferFreed id /\ ph' = Idle.
Proof.
  destruct ph as [|i|i]; cbn; try discriminate.
  destruct (Nat.eqb_spec i id) as [->|_]; [|discriminate].
  intros [= <-]. split; reflexivity.
Qed.

Lemma release_step_delivered (ph : release_phase) (e : event) (id : nat) :
  release_step ph e = Some (Delivered id) ->
  exists off len, e = EvData id off len.
Proof.
  destruct ph as [|i|i], e; cbn; try discriminate;
    try (intros [= <-]; eauto);
    destruct (Nat.eqb _ _); discriminate.
Qed.

Lemma release_step_freed (ph : release_phase) (e : event) (id : nat) :
  release_step ph e = Some (BufferFreed id) -> e = EvFreeBuffer id.
Proof.
  destruct ph as [|i|i], e; cbn; try discriminate;
    try (destruct (Nat.eqb _ _); discriminate).
  destruct (Nat.eqb_spec i id0) as [->|_]; [|discriminate].
  intros [= <-]. reflexivity.
Qed.

(** A log that ends right after a delivery ends with the delivery, and
    one that ends between the two calls of a release ends with the free
    of the buffer. *)
Lemma release_walk_delivered (l : list event) (id : nat) :
  release_walk Idle l = Some (Delivered id) ->
  exists l0 off len, l = l0 ++ [EvData id off len].
Proof.
  destruct l as [|e l] using rev_ind; [discriminate|].
  rewrite release_walk_app.
  destruct (release_walk Idle l) as [ph|]; [|discriminate].
  cbn [release_walk].
  destruct (release_step ph e) as [ph'|] eqn:E; [|discriminate].
  intros [= ->]. destruct (release_step_delivered ph e id E) as (off & len & ->).
  eauto.
Qed.

Lemma release_walk_freed (l : list event) (id : nat) :
  release_walk Idle l = Some (BufferFreed id) ->
  exists l0, l = l0 ++ [EvFreeBuffer id].
Proof.
  destruct l as [|e l] using rev_ind; [discriminate|].
  rewrite release_walk_app.
  destruct (release_walk Idle l) as [ph|]; [|discriminate].
  cbn [release_walk].
  destruct (release_step ph e) as [ph'|] eqn:E; [|discriminate].
  intros [= ->]. rewrite (release_step_freed ph e id E). eauto.
Qed.

(** What the walk of a log says of the places of the releases in it. *)
Lemma release_walk_together (l : list event) :
  release_walk Idle l = Some Idle -> released_together l.
Proof.
  intros H. split.
  - intros l1 l2 id ->. rewrite release_walk_app in H.
    destruct (release_walk Idle l1) as [ph|] eqn:E1; [|discriminate].
    cbn [release_walk] in H.
    destruct (release_step ph (EvFreeBuffer id)) as [ph'|] eqn:E2;
      [|discriminate].
    apply release_step_free_buffer in E2 as (-> & ->).
    split; [apply release_walk_delivered; exact E1|].
    destruct l2 as [|e l2]; [discriminate|].
    cbn [release_walk] in H.
    destruct e; cbn [release_step] in H; try discriminate.
    destruct (Nat.eqb_spec id id0) as [->|_]; [|discriminate].
    eauto.
  - intros l1 l2 id ->. rewrite release_walk_app in H.
    destruct (release_walk Idle l1) as [ph|] eqn:E1; [|discriminate].
    cbn [release_walk] in H.
    destruct (release_step ph (EvFreeTransfer id)) as [ph'|] eqn:E2;
      [|discriminate].
    apply release_step_free_transfer in E2 as (-> & ->).
    apply release_walk_freed. exact E1.
Qed.

(** A log without a delivery holds no release. *)
Lemma release_walk_no_data (l : list event) :
  forall ph, release_walk Idle l = Some ph ->
    data_calls l = [] -> releases l = [].
Proof.
  unfold releases.
  induction l as [|e l IH]; intros ph; [reflexivity|].
  cbn [release_walk].
  destruct e; cbn [release_step data_calls filter is_free_buffer
                   is_free_transfer orb];
    try discriminate; intros H Hd; eapply IH; eassumption.
Qed.

(** The calls made outside the loop keep to the rule. *)
Lemma release_walk_outside (l : list event) :
  forallb outside_event l = true -> release_walk Idle l = Some Idle.
Proof.
  induction l as [|e l IH]; [reflexivity|].
  cbn [forallb]. intros H. apply andb_true_iff in H as (He & Hl).
  destruct e; try discriminate He; cbn [release_walk release_step];
    apply IH; exact Hl.
Qed.

Lemma loop_entry_outside {U : Type} (ftdi : ftdi_context) (userdata : U)
    (ppt nt : Z) (env : environment) :
  forallb outside_event (log (loop_entry ftdi userdata ppt nt env)) = true.
Proof.
  cbn [loop_entry log]. rewrite !forallb_app.
  rewrite (forallb_weaken setup_event outside_event _ setup_is_outside
             (slot_logs_events _ _)).
  reflexivity.
Qed.

(** The packet loop logs deliveries of its transfer only; when it does
    not run, [res] stays as it was. *)
Lemma packet_loop_walk {U : Type} (callback : cb_arg -> U -> Z * U)
    (t : libusb_transfer) (P : Z) (n : nat) (s : pkt_state U) :
  exists ds,
    log (ps_w (packet_loop callback n t P s)) = log (ps_w s) ++ ds
    /\ release_walk Idle ds =
       Some (match n with O => Idle | S _ => Delivered (xfer_id t) end)
    /\ (n = O -> ps_res (packet_loop callback n t P s) = ps_res s).
Proof.
  induction n as [|n (ds & Hl & Hw & _)].
  - exists []. cbn [packet_loop]. rewrite app_nil_r. auto.
  - rewrite packet_loop_last, packet_iter_log, Hl, <- app_assoc.
    eexists. split; [reflexivity|]. split; [|discriminate].
    rewrite release_walk_app, Hw. destruct n; reflexivity.
Qed.

(** One handler invocation keeps to the rule: it releases only after a
    delivery, both parts at once. *)
Lemma handler_walk {U : Type} (callback : cb_arg -> U -> Z * U)
    (t : libusb_transfer) (w w' : world U) :
  ftdi_stream_read_cb callback t w = Some w' ->
  exists new, log w' = log w ++ new /\ release_walk Idle new = Some Idle.
Proof.
  unfold ftdi_stream_read_cb.
  destruct (status t =? LIBUSB_TRANSFER_COMPLETED).
  - destruct (int_div _ _) as [numPackets|]; [|discriminate].
    set (s0 := {| ps_ptr := 0; ps_length := actual_length t; ps_res := 0;
                  ps_w := with_st _ w |}).
    remember (Z.to_nat numPackets) as n eqn:En. clear En.
    destruct (packet_loop_walk callback t (packetsize (st w)) n s0)
      as (ds & Hl & Hw & _).
    cbn [ps_w s0 with_st log] in Hl.
    remember (packet_loop callback n t (packetsize (st w)) s0) as s eqn:Es.
    destruct n as [|n].
    + cbn [packet_loop] in Es. subst s. change (ps_res s0) with 0.
      cbn [Z.eqb negb]. intros [= <-].
      exists [EvSubmit (xfer_id t) (-1) (resubmit_ret t)].
      split; reflexivity.
    + clear Es.
      destruct (negb (ps_res s =? 0)); intros [= <-]; eexists;
        cbn [with_st emit log]; rewrite Hl, <- app_assoc;
        (split; [reflexivity|]); rewrite release_walk_app, Hw;
        do 2 (cbn [release_walk release_step]; rewrite ?Nat.eqb_refl);
        reflexivity.
  - intros [= <-]. eexists. split; reflexivity.
Qed.

(** The loop keeps to the rule. *)
Lemma stream_loop_walk {U : Type} (callback : cb_arg -> U -> Z * U)
    (ftdi : ftdi_context) (its : list iteration) (w : world U) :
  release_walk Idle (log w) = Some Idle ->
  match stream_loop callback ftdi its w with
  | Done w' | Pending w' => release_walk Idle (log w') = Some Idle
  | Trapped => True
  end.
Proof.
  apply (stream_loop_preserves callback ftdi
           (fun w => release_walk Idle (log w) = Some Idle)).
  - intros t w0 w' Hw H.
    destruct (handler_walk callback t w0 w' H) as (new & -> & Hn).
    rewrite release_walk_app, Hw. exact Hn.
  - intros sec usec ret w0 Hw. cbn [emit log].
    rewrite release_walk_app, Hw. reflexivity.
  - intros w0 s Hw _ _. exact Hw.
  - intros now w0 Hw. unfold progress_step.
    destruct (report_due now (progress (st w0))); [|exact Hw].
    destruct (callback _ _) as [r u]. cbn [with_st emit with_ud log].
    rewrite release_walk_app, Hw. reflexivity.
Qed.

(** Either the loop was not entered, and the log holds calls of the
    setup and of the cleanup only, or it was. *)
Lemma outside_unless_entered {U : Type} (callback : cb_arg -> U -> Z * U)
    (ftdi : ftdi_context) (userdata : U) (ppt nt : Z) (env : environment) :
  forallb outside_event
    (final_log (ftdi_stream_read callback ftdi userdata ppt nt env)) = true
  \/ loop_entered ftdi nt env.
Proof.
  pose proof (run_paths callback ftdi userdata ppt nt env) as Hp.
  destruct Hp as [Hns|Hs Hr|Hs Hr Hf|Hs Hr Hf Hc|e l Hs Hr Hf Hc Hl He
                 |Hpr Hsy|o Hpr Hsy Ho].
  - left. reflexivity.
  - left. reflexivity.
  - left. reflexivity.
  - left. rewrite final_log_done, cleanup_log. reflexivity.
  - left. rewrite final_log_done, cleanup_log. cbn [log].
    destruct (setup_loop_events _ _ _ _ _ _ _ _ _ Hl) as (new & -> & Hk).
    rewrite !forallb_app.
    rewrite (forallb_weaken setup_event outside_event new setup_is_outside Hk).
    reflexivity.
  - left. rewrite final_log_done, cleanup_log. cbn [emit log].
    rewrite !forallb_app, loop_entry_outside. reflexivity.
  - right. split; assumption.
Qed.

(** In the log of every run, whatever the consumer and the outside world
    do, the buffer of a transfer is freed only right after a data
    delivery of that transfer, and the next call is the release of the
    transfer object; a transfer object is released only right after its
    buffer.  No other call comes between the two, and no release is made
    but as the step that follows a delivery of the same transfer: a run
    that does not enter the loop holds no release, and neither does any
    run that hands no data to the consumer. *)
Theorem releases_come_in_adjacent_pairs {U : Type}
    (callback : cb_arg -> U -> Z * U) (ftdi : ftdi_context) (userdata : U)
    (packets_per_transfer num_transfers : Z) (env : environment) :
  let l := final_log (ftdi_stream_read callback ftdi userdata
                        packets_per_transfer num_transfers env) in
  release_walk Idle l = Some Idle
  /\ released_together l
  /\ (~ loop_entered ftdi num_transfers env -> releases l = [])
  /\ (data_calls l = [] -> releases l = []).
Proof.
  cbv zeta.
  set (l := final_log (ftdi_stream_read callback ftdi userdata
                         packets_per_transfer num_transfers env)).
  assert (Hout : ~ loop_entered ftdi num_transfers env ->
                 forallb outside_event l = true).
  { intros Hn.
    destruct (outside_unless_entered callback ftdi userdata
                packets_per_transfer num_transfers env) as [H|H];
      [exact H|contradiction]. }
  assert (Hwalk : release_walk Idle l = Some Idle).
  { unfold l.
    destruct (outside_or_loop callback ftdi userdata packets_per_transfer
                num_transfers env) as [H| ->].
    - apply release_walk_outside. exact H.
    - pose proof (stream_loop_walk callback ftdi (iterations env)
                    (loop_entry ftdi userdata packets_per_transfer
                       num_transfers env)
                    (release_walk_outside _
                       (loop_entry_outside ftdi userdata
                          packets_per_transfer num_transfers env))) as Hl.
      destruct (stream_loop _ _ _ _) as [w'|w'|].
      + rewrite final_log_done, cleanup_log, release_walk_app, Hl.
        reflexivity.
      + exact Hl.
      + reflexivity. }
  split; [exact Hwalk|]. split; [apply release_walk_together; exact Hwalk|].
  split.
  - intros Hn. unfold releases.
    apply (filter_kind outside_event); [|exact (Hout Hn)].
    intros e He. apply outside_event_kinds. exact He.
  - apply (release_walk_no_data l Idle Hwalk).
Qed.

(** A consumer that asks to stop at the second packet of the only
    transfer: the free of the buffer stands between the delivery of that
    packet and the release of the transfer object. *)
Lemma releases_come_in_adjacent_pairs_witness :
  exists l1 l2,
    final_log (ftdi_stream_read stop_at_second ft232h 0%nat 2 1
                 one_transfer_session) = l1 ++ EvFreeBuffer 0 :: l2
    /\ (exists l0 off len, l1 = l0 ++ [EvData 0 off len])
    /\ exists l3, l2 = EvFreeTransfer 0 :: l3.
Proof.
  set (l := final_log (ftdi_stream_read stop_at_second ft232h 0%nat 2 1
                         one_transfer_session)).
  exists (firstn 9 l), (skipn 10 l).
  assert (Hl : l = firstn 9 l ++ EvFreeBuffer 0 :: skipn 10 l)
    by (vm_compute; reflexivity).
  split; [exact Hl|].
  exact (proj1 (proj1 (proj2 (releases_come_in_adjacent_pairs stop_at_second
                                ft232h 0%nat 2 1 one_transfer_session)))
           (firstn 9 l) (skipn 10 l) 0%nat Hl).
Defined.

(** ** The division by the packet size *)

Section PacketSize.

Context {U : Type} (callback : cb_arg -> U -> Z * U).
Variable ftdi : ftdi_context.

(** No step of the handler writes [state->packetsize]. *)
Lemma handler_packetsize (t : libusb_transfer) (w w' : world U) :
  ftdi_stream_read_cb callback t w = Some w' ->
  packetsize (st w') = packetsize (st w).
Proof.
  intros H. destruct (handler_ends callback t w w' H)
    as [m _ (Hp & _) -> |m _ (Hp & _) -> |_ ->];
    cbn [with_st emit st set_result set_activity packetsize] in *; auto.
Qed.

(** With a packet size other than 0 and -1 the division of the handler
    is defined whatever the length of the transfer. *)
Lemma handler_divides (t : libusb_transfer) (w : world U) :
  packetsize (st w) <> 0 -> packetsize (st w) <> -1 ->
  exists w', ftdi_stream_read_cb callback t w = Some w'.
Proof.
  intros H0 H1.
  destruct (ftdi_stream_read_cb callback t w) as [w'|] eqn:E; [eauto|].
  exfalso. revert E. unfold ftdi_stream_read_cb, int_div.
  destruct (status t =? LIBUSB_TRANSFER_COMPLETED); [|discriminate].
  destruct (Z.eqb_spec (packetsize (st w)) 0) as [?|_]; [contradiction|].
  destruct (Z.eqb_spec (packetsize (st w)) (-1)) as [?|_]; [contradiction|].
  rewrite andb_false_r. cbn [orb].
  destruct (negb _); discriminate.
Qed.

Variable P : Z.
Hypothesis P_not_0 : P <> 0.
Hypothesis P_not_m1 : P <> -1.

Lemma keeps_handler (t : libusb_transfer) (w w' : world U) :
  keeps_packet_size P w -> ftdi_stream_read_cb callback t w = Some w' ->
  keeps_packet_size P w'.
Proof.
  unfold keeps_packet_size. intros Hw H.
  rewrite (handler_packetsize t w w' H). exact Hw.
Qed.

Lemma keeps_events (sec usec ret : Z) (w : world U) :
  keeps_packet_size P w ->
  keeps_packet_size P (emit [EvHandleEvents sec usec ret] w).
Proof. intros Hw. exact Hw. Qed.

Lemma keeps_checks (w : world U) (s : FTDIStreamState) :
  keeps_packet_size P w -> packetsize s = packetsize (st w) ->
  progress s = progress (st w) -> keeps_packet_size P (with_st s w).
Proof.
  unfold keeps_packet_size. intros Hw Hs _. cbn [with_st st]. congruence.
Qed.

Lemma keeps_report (now : timespec) (w : world U) :
  keeps_packet_size P w ->
  keeps_packet_size P (progress_step callback now w).
Proof.
  unfold keeps_packet_size, progress_step. intros Hw.
  destruct (report_due now (progress (st w))); [|exact Hw].
  destruct (callback _ _) as [r u]. exact Hw.
Qed.

Lemma run_completions_returns (cs : list libusb_transfer) :
  forall w, keeps_packet_size P w ->
    exists w', run_completions callback cs w = Some w'.
Proof.
  induction cs as [|c cs IH]; intros w Hw; cbn [run_completions]; [eauto|].
  destruct (handler_divides c w) as (w1 & E);
    [rewrite Hw; exact P_not_0|rewrite Hw; exact P_not_m1|].
  rewrite E. apply IH. exact (keeps_handler c w w1 Hw E).
Qed.

Lemma handle_events_returns (d : dispatch) (w : world U) :
  keeps_packet_size P w ->
  exists w', handle_events_timeout callback ftdi d w = Some w'.
Proof.
  intros Hw. unfold handle_events_timeout.
  destruct (run_completions_returns (completions d) w Hw) as (w1 & ->).
  eauto.
Qed.

Lemma loop_body_returns (it : iteration) (w : world U) :
  keeps_packet_size P w ->
  exists w', loop_body callback ftdi it w = Some w'.
Proof.
  intros Hw. unfold loop_body, wait_events.
  destruct (handle_events_returns (first_wait it) w Hw) as (w1 & E1).
  rewrite E1.
  pose proof (handle_events_preserves callback ftdi (keeps_packet_size P)
                keeps_handler keeps_events (first_wait it) w w1 Hw E1)
    as Hw1.
  destruct (events_ret (first_wait it) =? LIBUSB_ERROR_INTERRUPTED);
    [|eauto].
  destruct (handle_events_returns (retry_wait it) w1 Hw1) as (w2 & ->).
  eauto.
Qed.

Lemma stream_loop_returns (its : list iteration) :
  forall w, keeps_packet_size P w ->
    stream_loop callback ftdi its w <> Trapped.
Proof.
  induction its as [|it its IH]; intros w Hw; cbn [stream_loop];
    [discriminate|].
  destruct (loop_body_returns it w Hw) as (w1 & E). rewrite E.
  pose proof (loop_body_preserves callback ftdi (keeps_packet_size P)
                keeps_handler keeps_events keeps_checks keeps_report
                it w w1 Hw E) as Hw1.
  destruct (negb (result (st w1) =? 0)); [discriminate|apply IH; exact Hw1].
Qed.

Lemma stream_loop_keeps (its : list iteration) (w : world U) :
  keeps_packet_size P w ->
  match stream_loop callback ftdi its w with
  | Done w' | Pending w' => packetsize (st w') = P
  | Trapped => True
  end.
Proof.
  apply (stream_loop_preserves callback ftdi (keeps_packet_size P)
           keeps_handler keeps_events keeps_checks keeps_report).
Qed.

End PacketSize.

(** The handler divides by [state->packetsize], which the driver takes
    from [ftdi->max_packet_size] and nothing writes afterwards.  When that
    value is neither 0 nor -1, no run reaches a division that traps,
    whatever the lengths and the statuses of the transfers and whatever
    the consumer does, and the session ends with the packet size it
    started with.  When it is 0 and the loop is entered, the handler of a
    first transfer that completed with success divides by zero. *)
Theorem division_by_packet_size {U : Type}
    (callback : cb_arg -> U -> Z * U) (ftdi : ftdi_context) (userdata : U)
    (packets_per_transfer num_transfers : Z) (env : environment) :
  (packetsize (initial_state ftdi) <> 0 ->
   packetsize (initial_state ftdi) <> -1 ->
   exists w,
     final_world (ftdi_stream_read callback ftdi userdata
                    packets_per_transfer num_transfers env) = Some w
     /\ packetsize (st w) = packetsize (initial_state ftdi))
  /\ (packetsize (initial_state ftdi) = 0 ->
      loop_entered ftdi num_transfers env ->
      forall it rest c cs,
        iterations env = it :: rest ->
        completions (first_wait it) = c :: cs ->
        status c = LIBUSB_TRANSFER_COMPLETED ->
        ftdi_stream_read callback ftdi userdata packets_per_transfer
          num_transfers env = Trapped).
Proof.
  split.
  - intros H0 H1.
    pose proof (run_paths callback ftdi userdata packets_per_transfer
                  num_transfers env) as Hp.
    destruct Hp as [Hns|Hs Hr|Hs Hr Hf|Hs Hr Hf Hc|e l Hs Hr Hf Hc Hl He
                   |Hpr Hsy|o Hpr Hsy Ho];
      try (eexists; split; [reflexivity|reflexivity]);
      try (rewrite final_world_done; eexists; split;
           [reflexivity|rewrite cleanup_st; reflexivity]).
    assert (Hentry : packetsize
                       (st (loop_entry ftdi userdata packets_per_transfer
                              num_transfers env))
                     = packetsize (initial_state ftdi)) by reflexivity.
    pose proof (stream_loop_returns callback ftdi _ H0 H1 (iterations env)
                  _ Hentry) as Hret.
    pose proof (stream_loop_keeps callback ftdi _ (iterations env) _ Hentry)
      as Hkeep.
    rewrite <- Ho in Hret, Hkeep.
    destruct o as [w'|w'|]; [| |contradiction].
    + rewrite final_world_done. eexists. split; [reflexivity|].
      rewrite cleanup_st. exact Hkeep.
    + exists w'. split; [reflexivity|exact Hkeep].
  - intros H0 (Hpr & Hsy) it rest c cs Hits Hc Hst.
    rewrite (stream_read_primed callback ftdi userdata _ _ env Hpr Hsy), Hits.
    cbn [stream_loop]. unfold loop_body, wait_events, handle_events_timeout.
    rewrite Hc. cbn [run_completions]. unfold ftdi_stream_read_cb.
    change (packetsize (st (loop_entry ftdi userdata packets_per_transfer
                              num_transfers env)))
      with (packetsize (initial_state ftdi)).
    rewrite Hst, H0, Z.eqb_refl. reflexivity.
Qed.

Lemma no_packet_size_entered :
  loop_entered no_packet_size 1 one_transfer_session.
Proof.
  unfold loop_entered, pool_primed, supported, slots_fine. cbn.
  repeat split; auto; lia.
Defined.

(** With packets of 512 bytes the session of one transfer ends; on a
    device that reports a packet size of 0 the same session divides by
    zero in the handler of that transfer. *)
Lemma division_by_packet_size_witness :
  (exists w,
     final_world (ftdi_stream_read stop_at_second ft232h 0%nat 2 1
                    one_transfer_session) = Some w
     /\ packetsize (st w) = 512)
  /\ ftdi_stream_read stop_at_second no_packet_size 0%nat 2 1
       one_transfer_session = Trapped.
Proof.
  split.
  - apply (proj1 (division_by_packet_size stop_at_second ft232h 0%nat 2 1
                    one_transfer_session)); discriminate.
  - apply (proj2 (division_by_packet_size stop_at_second no_packet_size
                    0%nat 2 1 one_transfer_session)
             eq_refl no_packet_size_entered
             (iteration_at [completed 0 1024] 1700000000)
             [iteration_at [] 1700000000] (completed 0 1024) []);
      reflexivity.
Defined.

(** ** The first sample and the elapsed time *)

Lemma handler_first {U : Type} (callback : cb_arg -> U -> Z * U)
    (t : libusb_transfer) (w w' : world U) :
  ftdi_stream_read_cb callback t w = Some w' ->
  first (progress (st w')) = first (progress (st w)).
Proof.
  intros H. destruct (handler_ends callback t w w' H)
    as [m _ (_ & _ & _ & (Hf & _) & _) -> |m _ (_ & _ & _ & (Hf & _) & _) ->
       |_ ->]; cbn [with_st emit st set_result set_activity progress] in *;
    auto.
Qed.

Lemma progress_view_time (now : timespec) (p : ftdi_stream_progress) :
  time (current (progress_view now p)) = now.
Proof.
  unfold progress_view. cbn [set_current set_total_time prev current first
                             time total_time set_time].
  destruct (negb (total_bytes (prev p) =? 0)); reflexivity.
Qed.

(** Every progress record handed to the consumer shows the first sample
    as it was set when the loop was entered, 0 bytes at the start time,
    and as [total_time] the difference between its own time and the
    start time. *)
Theorem reports_show_the_start {U : Type}
    (callback : cb_arg -> U -> Z * U) (ftdi : ftdi_context) (userdata : U)
    (packets_per_transfer num_transfers : Z) (env : environment) :
  Forall (shows_start (start_time env))
    (progress_views
       (final_log (ftdi_stream_read callback ftdi userdata
                     packets_per_transfer num_transfers env))).
Proof.
  destruct (outside_or_loop callback ftdi userdata packets_per_transfer
              num_transfers env) as [Hout| ->].
  - rewrite (progress_views_kind outside_event _
               (fun e H => proj1 (outside_event_kinds e H)) Hout).
    constructor.
  - set (Inv := fun w : world U =>
                  first (progress (st w)) = first_sample (start_time env)
                  /\ Forall (shows_start (start_time env))
                       (progress_views (log w))).
    assert (Hloop : forall w, Inv w ->
              match stream_loop callback ftdi (iterations env) w with
              | Done w' | Pending w' => Inv w'
              | Trapped => True
              end).
    { apply (stream_loop_preserves callback ftdi Inv).
      - intros t w w' (Hf & Hv) H. split.
        + rewrite (handler_first callback t w w' H). exact Hf.
        + destruct (handler_keeps_reports callback t w w' H)
            as (_ & _ & _ & ->). exact Hv.
      - intros sec usec ret w (Hf & Hv). split; [exact Hf|].
        cbn [emit log]. rewrite progress_views_app, app_nil_r. exact Hv.
      - intros w s (Hf & Hv) _ Hp. split; [|exact Hv].
        cbn [with_st st]. rewrite Hp. exact Hf.
      - intros now w (Hf & Hv). unfold progress_step.
        destruct (report_due now (progress (st w))); [|split; assumption].
        destruct (callback _ _) as [r u].
        destruct (progress_view_current now (progress (st w)))
          as (_ & Hfirst & Htt).
        rewrite Hf in Hfirst, Htt. cbn [first_sample time] in Htt.
        split.
        + cbn [with_st emit with_ud st set_progress progress set_prev first].
          exact Hfirst.
        + cbn [with_st emit with_ud log]. rewrite progress_views_app.
          apply Forall_app. split; [exact Hv|].
          constructor; [|constructor]. split; [exact Hfirst|].
          rewrite progress_view_time. exact Htt. }
    specialize (Hloop (loop_entry ftdi userdata packets_per_transfer
                         num_transfers env)).
    destruct (loop_entry_plain ftdi userdata packets_per_transfer
                num_transfers env) as (_ & Hv0 & _).
    assert (H0 : Inv (loop_entry ftdi userdata packets_per_transfer
                        num_transfers env)).
    { split; [reflexivity|]. rewrite Hv0. constructor. }
    specialize (Hloop H0).
    destruct (stream_loop _ _ _ _) as [w'|w'|].
    + rewrite final_log_done, cleanup_views. apply Hloop.
    + apply Hloop.
    + constructor.
Qed.

(** ** The value returned from a progress report *)

Section SameConsumer.

Context {U : Type} (cb1 cb2 : cb_arg -> U -> Z * U).

(** Two consumers that do the same to their own state and return the
    same value from every data delivery. *)
Hypothesis same_state : forall a u, snd (cb1 a u) = snd (cb2 a u).
Hypothesis same_data :
  forall buf off len u,
    fst (cb1 (CbData buf off len) u) = fst (cb2 (CbData buf off len) u).

Lemma same_on_data (buf : list byte) (off len : Z) (u : U) :
  cb1 (CbData buf off len) u = cb2 (CbData buf off len) u.
Proof.
  rewrite (surjective_pairing (cb1 _ u)), (surjective_pairing (cb2 _ u)).
  rewrite same_state, same_data. reflexivity.
Qed.

Lemma same_packet_iter (t : libusb_transfer) (P : Z) (s : pkt_state U) :
  packet_iter cb1 t P s = packet_iter cb2 t P s.
Proof. unfold packet_iter. rewrite same_on_data. reflexivity. Qed.

Lemma same_packet_loop (t : libusb_transfer) (P : Z) (n : nat) :
  forall s, packet_loop cb1 n t P s = packet_loop cb2 n t P s.
Proof.
  induction n as [|n IH]; intros s; cbn [packet_loop]; [reflexivity|].
  rewrite same_packet_iter. apply IH.
Qed.

Lemma same_handler (t : libusb_transfer) (w : world U) :
  ftdi_stream_read_cb cb1 t w = ftdi_stream_read_cb cb2 t w.
Proof.
  unfold ftdi_stream_read_cb.
  destruct (status t =? LIBUSB_TRANSFER_COMPLETED); [|reflexivity].
  destruct (int_div _ _); [|reflexivity].
  rewrite same_packet_loop. reflexivity.
Qed.

Lemma same_run_completions (cs : list libusb_transfer) :
  forall w, run_completions cb1 cs w = run_completions cb2 cs w.
Proof.
  induction cs as [|c cs IH]; intros w; cbn [run_completions];
    [reflexivity|].
  rewrite same_handler. destruct (ftdi_stream_read_cb cb2 c w); auto.
Qed.

Lemma same_wait_events (ftdi : ftdi_context) (it : iteration) (w : world U) :
  wait_events cb1 ftdi it w = wait_events cb2 ftdi it w.
Proof.
  unfold wait_events, handle_events_timeout.
  rewrite same_run_completions.
  destruct (run_completions cb2 (completions (first_wait it)) w);
    [|reflexivity].
  destruct (events_ret (first_wait it) =? LIBUSB_ERROR_INTERRUPTED);
    [|reflexivity].
  rewrite same_run_completions. reflexivity.
Qed.

Lemma same_progress_step (now : timespec) (w : world U) :
  progress_step cb1 now w = progress_step cb2 now w.
Proof.
  unfold progress_step. destruct (report_due now (progress (st w)));
    [|reflexivity].
  pose proof (same_state (CbProgress (progress_view now (progress (st w))))
                (ud w)) as Hs.
  destruct (cb1 _ _) as [r1 u1], (cb2 _ _) as [r2 u2]. cbn [snd] in Hs.
  rewrite Hs. reflexivity.
Qed.

Lemma same_stream_loop (ftdi : ftdi_context) (its : list iteration) :
  forall w, stream_loop cb1 ftdi its w = stream_loop cb2 ftdi its w.
Proof.
  induction its as [|it its IH]; intros w; cbn [stream_loop]; [reflexivity|].
  unfold loop_body. rewrite same_wait_events.
  destruct (wait_events cb2 ftdi it w) as [[e w1]|]; [|reflexivity].
  rewrite same_progress_step.
  destruct (negb _); [reflexivity|apply IH].
Qed.

End SameConsumer.

(** What the consumer returns from a progress report is ignored: two
    consumers that treat their own state alike and return the same
    values from the data deliveries give the same run, whatever they
    return from the reports. *)
Theorem report_return_value_is_ignored {U : Type}
    (cb1 cb2 : cb_arg -> U -> Z * U) (ftdi : ftdi_context) (userdata : U)
    (packets_per_transfer num_transfers : Z) (env : environment) :
  (forall a u, snd (cb1 a u) = snd (cb2 a u)) ->
  (forall buf off len u,
     fst (cb1 (CbData buf off len) u) = fst (cb2 (CbData buf off len) u)) ->
  ftdi_stream_read cb1 ftdi userdata packets_per_transfer num_transfers env
  = ftdi_stream_read cb2 ftdi userdata packets_per_transfer num_transfers env.
Proof.
  intros Hs Hd. unfold ftdi_stream_read.
  destruct (_ && _); [reflexivity|].
  destruct (reset_ret env <? 0); [reflexivity|].
  destruct (flush_ret env <? 0); [reflexivity|].
  destruct (negb (calloc_ok env)); [reflexivity|].
  destruct (setup_loop _ _ _ _ _ _) as [[e j] l].
  destruct j; [reflexivity|].
  destruct (syncff_ret env <? 0); [reflexivity|].
  rewrite (same_stream_loop cb1 cb2 Hs Hd). reflexivity.
Qed.

Lemma report_return_value_is_ignored_witness :
  fst (seven_on_reports (CbProgress zero_progress) 0%nat) = 7
  /\ ftdi_stream_read seven_on_reports ft232h 0%nat 1 1
       (smooth [iteration_at [completed 0 512] 1700000000;
                iteration_at [] 1700000002])
     = ftdi_stream_read keep_going ft232h 0%nat 1 1
         (smooth [iteration_at [completed 0 512] 1700000000;
                  iteration_at [] 1700000002]).
Proof.
  split; [reflexivity|].
  apply report_return_value_is_ignored.
  - intros [buf off len|p] u; reflexivity.
  - intros buf off len u. reflexivity.
Defined.

(** ** Clock readings *)

Lemma timespec_diff_same (a : timespec) : timespec_diff a a = 0%float.
Proof.
  unfold timespec_diff. rewrite !Z.sub_diag. vm_compute. reflexivity.
Qed.

Lemma progress_step_not_due {U : Type} (callback : cb_arg -> U -> Z * U)
    (now : timespec) (w : world U) :
  report_due now (progress (st w)) = false ->
  progress_step callback now w = w.
Proof. intros H. unfold progress_step. rewrite H. reflexivity. Qed.

(** A clock reading for which a report was made, or was not due, gives
    no further report: the progress block run twice with the same reading
    does what it does run once. *)
Theorem no_second_report_for_one_clock_reading {U : Type}
    (callback : cb_arg -> U -> Z * U) (now : timespec) (w : world U) :
  progress_step callback now (progress_step callback now w)
  = progress_step callback now w.
Proof.
  apply progress_step_not_due.
  unfold progress_step.
  destruct (report_due now (progress (st w))) eqn:Edue; [|exact Edue].
  destruct (callback _ _) as [r u].
  cbn [with_st emit with_ud st set_progress progress].
  unfold report_due. cbn [set_prev current].
  rewrite progress_view_time, timespec_diff_same.
  vm_compute. reflexivity.
Qed.

(** ** The timeout of a wait *)

(** The [struct timeval] handed to [libusb_handle_events_timeout] is the
    read timeout: seconds and microseconds add up to
    [usb_read_timeout] milliseconds, and for a timeout that is not
    negative the microseconds are within a second. *)
Theorem wait_timeout_is_the_read_timeout {U : Type}
    (callback : cb_arg -> U -> Z * U) (ftdi : ftdi_context) (d : dispatch)
    (w w' : world U) :
  handle_events_timeout callback ftdi d w = Some w' ->
  exists (w1 : world U) (sec usec : Z),
    run_completions callback (completions d) w = Some w1
    /\ w' = emit [EvHandleEvents sec usec (events_ret d)] w1
    /\ sec * 1000000 + usec = usb_read_timeout ftdi * 1000
    /\ (0 <= usb_read_timeout ftdi -> 0 <= sec /\ 0 <= usec < 1000000).
Proof.
  unfold handle_events_timeout.
  destruct (run_completions callback (completions d) w) as [w1|];
    [|discriminate].
  intros [= <-]. exists w1. do 2 eexists.
  split; [reflexivity|]. split; [reflexivity|].
  set (t := usb_read_timeout ftdi).
  pose proof (Z.quot_rem' t 1000) as Hqr.
  pose proof (Z.rem_bound_abs t 1000 ltac:(lia)) as Habs.
  rewrite to_int_id by int_range.
  split; [lia|].
  intros Ht.
  pose proof (Z.rem_bound_pos t 1000 Ht ltac:(lia)).
  pose proof (Z.quot_pos t 1000 Ht ltac:(lia)). lia.
Qed.

Lemma wait_timeout_is_the_read_timeout_witness :
  exists w' : world nat,
    handle_events_timeout keep_going ft232h no_events session_start = Some w'
    /\ log w' = [EvHandleEvents 5 0 0].
Proof.
  destruct (handle_events_timeout keep_going ft232h no_events session_start)
    as [w'|] eqn:E; [|vm_compute in E; discriminate E].
  exists w'. split; [reflexivity|].
  destruct (wait_timeout_is_the_read_timeout keep_going ft232h no_events
              session_start w' E) as (w1 & sec & usec & Hrun & -> & Hsum & Hb).
  cbn in Hrun. injection Hrun as <-.
  specialize (Hb ltac:(cbn; lia)). cbn in Hsum.
  assert (sec = 5 /\ usec = 0) as (-> & ->) by lia.
  reflexivity.
Defined.

(** ** Where the setup stops *)

Lemma setup_loop_first_failure (k : nat) :
  forall n idx bs sl l,
    (k < n)%nat ->
    (forall i, (idx <= i < idx + k)%nat ->
       alloc_ok (sl i) = true /\ malloc_ok (sl i) = true
       /\ submit_ret (sl i) = 0) ->
    slot_fails (sl (idx + k)%nat) ->
    setup_loop n idx bs sl 0 l =
    (slot_error (sl (idx + k)%nat), true,
     l ++ flat_map (slot_setup_log bs) (seq idx k)
       ++ failed_slot_log bs (idx + k) (sl (idx + k)%nat)).
Proof.
  induction k as [|k IH]; intros n idx bs sl l Hk Hfine Hfail.
  - destruct n as [|n]; [lia|]. rewrite Nat.add_0_r in *.
    cbn [setup_loop seq flat_map app].
    unfold slot_error, failed_slot_log, slot_fails in *.
    destruct (alloc_ok (sl idx)); cbn [negb andb]; [|reflexivity].
    destruct (malloc_ok (sl idx)); cbn [negb andb];
      [|rewrite <- app_assoc; reflexivity].
    destruct (Z.eqb_spec (submit_ret (sl idx)) 0) as [H0|H0]; cbn [negb].
    + destruct Hfail as [?|[?|?]]; try discriminate; contradiction.
    + rewrite <- !app_assoc. reflexivity.
  - destruct n as [|n]; [lia|].
    destruct (Hfine idx ltac:(lia)) as (Ha & Hm & Hr).
    cbn [setup_loop seq flat_map]. rewrite Ha, Hm, Hr. cbn [negb Z.eqb].
    replace (idx + S k)%nat with (S idx + k)%nat in * by lia.
    rewrite (IH n (S idx) bs sl _ ltac:(lia)
               ltac:(intros i Hi; apply Hfine; lia) Hfail).
    unfold slot_setup_log. rewrite <- !app_assoc. reflexivity.
Qed.

Lemma slot_error_nonzero (s : slot_env) : slot_fails s -> slot_error s <> 0.
Proof.
  unfold slot_fails, slot_error. intros [H|[H|H]].
  - rewrite H. discriminate.
  - rewrite H, andb_false_r. discriminate.
  - destruct (alloc_ok s && malloc_ok s); [exact H|discriminate].
Qed.

(** Pool setup stops at the first slot that fails: the slots before it
    are allocated and submitted, the calls for the failing slot end with
    the failing one, no later slot is touched, the device is not switched
    to the streaming mode, and the call prints "cleanup", frees the
    array and returns [LIBUSB_ERROR_NO_MEM] for a failed allocation or the
    answer of the refused submission. *)
Theorem setup_stops_at_first_failure {U : Type}
    (callback : cb_arg -> U -> Z * U) (ftdi : ftdi_context) (userdata : U)
    (packets_per_transfer num_transfers : Z) (env : environment) (k : nat) :
  array_allocated ftdi env ->
  (k < Z.to_nat num_transfers)%nat ->
  slots_fine (slots env) k ->
  slot_fails (slots env k) ->
  ftdi_stream_read callback ftdi userdata packets_per_transfer
    num_transfers env
  = Done (slot_error (slots env k),
          {| st := initial_state ftdi; ud := userdata;
             log := checks_log num_transfers env
                    ++ flat_map
                         (slot_setup_log
                            (buffer_size ftdi packets_per_transfer))
                         (seq 0 k)
                    ++ failed_slot_log
                         (buffer_size ftdi packets_per_transfer) k
                         (slots env k)
                    ++ [EvStderr "cleanup\n"; EvFreeArray] |}).
Proof.
  intros (Hsup & Hreset & Hflush & Hcalloc) Hk Hfine Hfail.
  pose proof (slot_error_nonzero _ Hfail) as Hne.
  unfold ftdi_stream_read.
  rewrite (chip_supported ftdi Hsup).
  destruct (Z.ltb_spec (reset_ret env) 0) as [?|_]; [lia|].
  destruct (Z.ltb_spec (flush_ret env) 0) as [?|_]; [lia|].
  rewrite Hcalloc. cbn [negb emit log st ud app].
  assert (Hbefore : forall i, (0 <= i < 0 + k)%nat ->
            alloc_ok (slots env i) = true /\ malloc_ok (slots env i) = true
            /\ submit_ret (slots env i) = 0).
  { intros i Hi. apply Hfine. lia. }
  rewrite (setup_loop_first_failure k (Z.to_nat num_transfers) 0
             (to_int (to_uint packets_per_transfer * max_packet_size ftdi))
             (slots env) _ Hk Hbefore Hfail).
  cbn [Nat.add]. unfold cleanup.
  destruct (Z.eqb_spec (slot_error (slots env k)) 0) as [?|_];
    [contradiction|].
  cbn [negb emit log st ud]. unfold checks_log, buffer_size.
  rewrite Hcalloc. unfold emit. cbn [st ud log].
  do 2 f_equal. f_equal. rewrite <- !app_assoc. reflexivity.
Qed.

Lemma setup_stops_at_first_failure_witness :
  slot_fails (slots third_buffer_fails 2)
  /\ returned (ftdi_stream_read keep_going ft232h 0%nat 8 3
                 third_buffer_fails) = Some LIBUSB_ERROR_NO_MEM.
Proof.
  assert (Hf : slot_fails (slots third_buffer_fails 2))
    by (right; left; reflexivity).
  split; [exact Hf|].
  rewrite (setup_stops_at_first_failure keep_going ft232h 0%nat 8 3
             third_buffer_fails 2).
  - reflexivity.
  - unfold array_allocated, supported. cbn. repeat split; auto; lia.
  - cbn. lia.
  - intros i Hi. destruct i as [|[|i]]; [cbn; auto..|lia].
  - exact Hf.
Defined.
